(** * Marine-retrofit backend: authorization, visibility and assignment integrity

    A shallow embedding of the FastAPI routers of [backend/app/routers]
    ([tasks.py], [projects.py], [dashboard.py], [blueprints.py],
    [inventory.py], [settings.py]) and of the user and dashboard endpoints
    of [backend/app/main.py], over the SQLAlchemy models of
    [backend/app/models.py].

    Conventions of the embedding.
    - A table is the list of its rows in storage order; [query.first()] is
      [List.find], [query.filter(c).all()] is [List.filter],
      [offset(skip).limit(limit)] is [skipn]/[firstn].
    - A nullable column is an [option]; a SQL comparison with NULL selects
      no row, Python's [==]/[!=] on [None] compare as values.
    - An endpoint is a function from the database (and the principal and
      its arguments) to a [result]: what the endpoint function returns, or
      the exception that it raises. An exception raised before
      [db.commit()] leaves the database as it was. The endpoints that
      commit and then build their response with [from_orm] are
      [committed]: they give the committed database together with the
      response or with the exception raised while building it.
    - [X.from_orm(row)] raises pydantic's [ValidationError] when a field
      that the schema requires is [None] in the row. What FastAPI does
      with the value that an endpoint returns (its serialisation against
      [response_model]) is not part of the endpoint function and is left
      out.
    - [skip] and [limit] are natural numbers: what a negative offset or
      limit does is decided by the database engine.
    - Columns that no modelled decision reads and that are only copied
      ([created_at], [updated_at], [budget], [spending], [username],
      [password_hash]) are left out of the rows.
    - Foreign keys are not enforced by the embedding; well-formedness of
      the stored data is stated as a hypothesis where a result needs it. *)

From Stdlib Require Import ZArith List String Bool Lia DecimalString.
Import ListNotations.

Local Open Scope string_scope.
Local Open Scope Z_scope.
Local Open Scope list_scope.

(** ** Exceptions and results *)

(** [HTTPException(status_code, detail)] of FastAPI, the [IntegrityError]
    that [db.commit()] raises when a [nullable=False] column is written
    with [None] or a [unique] column with a value that another row holds,
    and the [ValidationError] of pydantic. *)
Inductive Exn : Type :=
| HTTPException (status_code : Z) (detail : string)
| IntegrityError
| ValidationError.

Inductive result (A : Type) : Type :=
| Ok (a : A)
| Raise (e : Exn).

Arguments Ok {A} a.
Arguments Raise {A} e.

Definition bind {A B : Type} (r : result A) (k : A -> result B) : result B :=
  match r with
  | Ok a => k a
  | Raise e => Raise e
  end.

Notation "x <- r ;; k" := (bind r (fun x => k))
  (at level 61, r at next level, right associativity).
Notation "r ;;; k" := (bind r (fun _ => k))
  (at level 61, right associativity).

(** [result = []; for x in xs: result.append(f(x))]: the first exception
    ends the loop. *)
Fixpoint for_each {A B : Type} (f : A -> result B) (xs : list A)
    : result (list B) :=
  match xs with
  | [] => Ok []
  | x :: rest =>
      y <- f x ;;
      ys <- for_each f rest ;;
      Ok (y :: ys)
  end.

Definition HTTP_400_BAD_REQUEST : Z := 400.
Definition HTTP_403_FORBIDDEN : Z := 403.
Definition HTTP_404_NOT_FOUND : Z := 404.
Definition HTTP_500_INTERNAL_SERVER_ERROR : Z := 500.

(** Python's [f"{x}"] for an [int] or [None]. *)
Definition fmt_int (x : option Z) : string :=
  match x with
  | Some z => NilZero.string_of_int (Z.to_int z)
  | None => "None"
  end.

(** ** models.py, schemas.py *)

Inductive TaskPriority : Type := low | medium | high | critical.
Inductive TaskStatus : Type := pending | in_progress | completed | blocked.
Inductive ProjectStatus : Type :=
  planning | p_in_progress | on_hold | p_completed | cancelled.

Definition TaskStatus_eqb (a b : TaskStatus) : bool :=
  match a, b with
  | pending, pending | in_progress, in_progress
  | completed, completed | blocked, blocked => true
  | _, _ => false
  end.

Module User.
(** [role] is a nullable column; the routers compare it with string
    literals, so it is kept as the string it holds. *)
Record t : Type := mk {
  user_id : Z;
  email : string;
  full_name : string;
  role : option string;
  phone : option string;
  is_active : option bool
}.
End User.

Module ProjectAssignment.
Record t : Type := mk {
  assignment_id : Z;
  project_id : Z;
  user_id : Z
}.
End ProjectAssignment.

Module Project.
Record t : Type := mk {
  project_id : Z;
  project_name : string;
  vessel_name : option string;
  vessel_type : option string;
  vessel_owner : option string;
  start_date : option Z;
  end_date : option Z;
  status : option ProjectStatus;
  description : option string;
  created_by : option Z
}.
End Project.

Module Task.
Record t : Type := mk {
  task_id : Z;
  project_id : Z;
  task_name : string;
  description : option string;
  assigned_to : option Z;
  priority : option TaskPriority;
  status : option TaskStatus;
  is_maintenance : option bool;
  start_date : option Z;
  due_date : option Z;
  completion_date : option Z
}.
End Task.

Module Inventory.
Record t : Type := mk {
  item_id : Z;
  item_name : string;
  quantity : option Z;
  reorder_level : option Z
}.
End Inventory.

Module Blueprint.
Record t : Type := mk {
  blueprint_id : Z;
  project_id : Z;
  file_name : string;
  original_name : string;
  file_path : string;
  file_size : option Z;
  file_type : option string;
  version : option string;
  description : option string;
  uploaded_by : Z;
  is_active : option bool
}.
End Blueprint.

(** The database session: one list of rows per table. *)
Record Db : Type := mkDb {
  users : list User.t;
  project_assignments : list ProjectAssignment.t;
  projects : list Project.t;
  tasks : list Task.t;
  inventory : list Inventory.t;
  blueprints : list Blueprint.t
}.

(** The outcome of an endpoint that commits and then builds its response:
    [Raise e] when the exception comes before [db.commit()], and otherwise
    the committed database with the response or with the exception raised
    while building it. *)
Definition committed (A : Type) : Type := result (Db * result A).

(** *** Comparisons *)

(** [column == value] on a nullable integer column (NULL matches nothing);
    its negation is Python's [attr != value] on the loaded attribute. *)
Definition opt_eqb (c : option Z) (v : Z) : bool :=
  match c with
  | Some x => x =? v
  | None => false
  end.

(** [column.in_(values)] *)
Definition in_ (x : Z) (values : list Z) : bool :=
  existsb (Z.eqb x) values.

(** [user.role == literal] *)
Definition role_is (u : User.t) (literal : string) : bool :=
  match User.role u with
  | Some r => String.eqb r literal
  | None => false
  end.

(** [user.role in literals] *)
Definition role_in (u : User.t) (literals : list string) : bool :=
  existsb (role_is u) literals.

(** Python truthiness of an [Optional[int]]: [None] and [0] are false. *)
Definition truthy (x : option Z) : bool :=
  match x with
  | Some z => negb (z =? 0)
  | None => false
  end.

(** [query.offset(skip).limit(limit).all()] *)
Definition paginate {A : Type} (skip limit : nat) (rows : list A) : list A :=
  firstn limit (skipn skip rows).

(** The primary key that the database gives to an inserted row. *)
Definition fresh_id (ids : list Z) : Z :=
  1 + fold_right Z.max 0 ids.

(** *** Lookups by primary key, as the routers write them *)

(** [db.query(User).filter(User.user_id == uid).first()] *)
Definition find_user (db : Db) (uid : Z) : option User.t :=
  find (fun u => User.user_id u =? uid) (users db).

(** [db.query(Project).filter(Project.project_id == pid).first()];
    [pid] may be [None] when [update_task] received an explicit null. *)
Definition find_project (db : Db) (pid : option Z) : option Project.t :=
  match pid with
  | Some p => find (fun q => Project.project_id q =? p) (projects db)
  | None => None
  end.

(** [db.query(Task).filter(Task.task_id == tid).first()] *)
Definition find_task (db : Db) (tid : Z) : option Task.t :=
  find (fun t => Task.task_id t =? tid) (tasks db).

(** [db.query(Blueprint).filter(Blueprint.blueprint_id == bid).first()] *)
Definition find_blueprint (db : Db) (bid : Z) : option Blueprint.t :=
  find (fun b => Blueprint.blueprint_id b =? bid) (blueprints db).

(** [db.query(ProjectAssignment).filter(project_id == pid, user_id == uid).first()]
    is not [None]. *)
Definition is_assigned (db : Db) (pid : option Z) (uid : Z) : bool :=
  match pid with
  | Some p =>
      existsb (fun a => (ProjectAssignment.project_id a =? p)
                        && (ProjectAssignment.user_id a =? uid))
              (project_assignments db)
  | None => false
  end.

(** ** routers/tasks.py *)

Definition user_not_found (assigned_to : Z) : Exn :=
  HTTPException HTTP_404_NOT_FOUND
    ("User with ID " ++ fmt_int (Some assigned_to) ++ " not found")%string.

Definition project_not_found (project_id : option Z) : Exn :=
  HTTPException HTTP_404_NOT_FOUND
    ("Project with ID " ++ fmt_int project_id ++ " not found")%string.

Definition not_team_member (full_name project_name : string) : Exn :=
  HTTPException HTTP_400_BAD_REQUEST
    ("User '" ++ full_name ++ "' is not assigned to project '" ++ project_name
     ++ "'. Only team members of this project can be assigned tasks.")%string.

(** [validate_task_assignment(db, project_id, assigned_to)]: returns
    normally or raises. *)
Definition validate_task_assignment (db : Db) (project_id : option Z)
    (assigned_to : option Z) : result unit :=
  match assigned_to with
  | None => Ok tt
  | Some uid =>
      match find_user db uid with
      | None => Raise (user_not_found uid)
      | Some user =>
          match find_project db project_id with
          | None => Raise (project_not_found project_id)
          | Some project =>
              if is_assigned db project_id uid then Ok tt
              else Raise (not_team_member (User.full_name user)
                                          (Project.project_name project))
          end
      end
  end.

Module TaskResponse.
(** [schemas.TaskResponse]: the row and the two looked-up names. *)
Record t : Type := mk {
  task : Task.t;
  project_name : option string;
  assigned_to_name : option string
}.

(** [TaskResponse.from_orm(task)]: [priority], [status] and
    [is_maintenance] are not [Optional] in [schemas.TaskBase], while their
    columns are nullable. *)
Definition from_orm (task : Task.t) : result t :=
  match Task.priority task, Task.status task, Task.is_maintenance task with
  | Some _, Some _, Some _ => Ok (mk task None None)
  | _, _, _ => Raise ValidationError
  end.
End TaskResponse.

Module TaskCreate.
Record t : Type := mk {
  project_id : Z;
  task_name : string;
  description : option string;
  assigned_to : option Z;
  priority : TaskPriority;
  status : TaskStatus;
  is_maintenance : bool;
  start_date : option Z;
  due_date : option Z
}.
End TaskCreate.

Module TaskUpdate.
(** [task_update.dict(exclude_unset=True)]: a field is absent ([None]),
    present with an explicit null ([Some None]) or present with a value. *)
Record t : Type := mk {
  project_id : option (option Z);
  task_name : option (option string);
  description : option (option string);
  assigned_to : option (option Z);
  priority : option (option TaskPriority);
  status : option (option TaskStatus);
  is_maintenance : option (option bool);
  start_date : option (option Z);
  due_date : option (option Z);
  completion_date : option (option Z)
}.
End TaskUpdate.

(** ['field' in update_data] *)
Definition is_set {A : Type} (field : option A) : bool :=
  match field with
  | Some _ => true
  | None => false
  end.

(** [update_data.get('field', current)] *)
Definition get_or {A : Type} (field : option A) (current : A) : A :=
  match field with
  | Some v => v
  | None => current
  end.

(** [setattr] on a [nullable=False] column, checked when the session is
    committed. *)
Definition set_required {A : Type} (field : option (option A)) (current : A)
    : result A :=
  match field with
  | None => Ok current
  | Some (Some v) => Ok v
  | Some None => Raise IntegrityError
  end.

(** The object that [first()] loaded is the first row with that key;
    committing writes it back in place. *)
Fixpoint replace_first {A : Type} (p : A -> bool) (new : A) (rows : list A)
    : list A :=
  match rows with
  | [] => []
  | r :: rest => if p r then new :: rest else r :: replace_first p new rest
  end.

(** The block "Enrich with related names" that closes every task
    endpoint: [from_orm], then the two names. *)
Definition enrich_task (db : Db) (task : Task.t) : result TaskResponse.t :=
  task_dict <- TaskResponse.from_orm task ;;
  let project := find_project db (Some (Task.project_id task)) in
  let project_name :=
    match project with
    | Some p => Project.project_name p
    | None => "Unknown"
    end in
  let assigned_to_name :=
    if truthy (Task.assigned_to task) then
      match Task.assigned_to task with
      | Some a =>
          match find_user db a with
          | Some assignee => User.full_name assignee
          | None => "Unknown"
          end
      | None => "Unassigned"
      end
    else "Unassigned" in
  Ok (TaskResponse.mk (TaskResponse.task task_dict) (Some project_name)
                      (Some assigned_to_name)).

(** The role-dependent filter of [get_tasks], before the optional project
    filter and the pagination. *)
Definition get_tasks_query (db : Db) (current_user : User.t) : list Task.t :=
  let query := tasks db in
  if role_is current_user "admin" then query
  else if role_is current_user "project_manager" then
    let project_ids :=
      map Project.project_id
          (filter (fun p => opt_eqb (Project.created_by p)
                                    (User.user_id current_user))
                  (projects db)) in
    filter (fun t => in_ (Task.project_id t) project_ids) query
  else
    filter (fun t => opt_eqb (Task.assigned_to t) (User.user_id current_user))
           query.

Definition get_tasks (db : Db) (current_user : User.t)
    (project_id : option Z) (skip limit : nat)
    : result (list TaskResponse.t) :=
  let query := get_tasks_query db current_user in
  let query :=
    if truthy project_id then
      filter (fun t => opt_eqb project_id (Task.project_id t)) query
    else query in
  let tasks := paginate skip limit query in
  for_each (enrich_task db) tasks.

(** The row built from [task.dict()], with the key chosen by the database. *)
Definition new_task_row (task_id : Z) (task : TaskCreate.t) : Task.t :=
  {| Task.task_id := task_id;
     Task.project_id := TaskCreate.project_id task;
     Task.task_name := TaskCreate.task_name task;
     Task.description := TaskCreate.description task;
     Task.assigned_to := TaskCreate.assigned_to task;
     Task.priority := Some (TaskCreate.priority task);
     Task.status := Some (TaskCreate.status task);
     Task.is_maintenance := Some (TaskCreate.is_maintenance task);
     Task.start_date := TaskCreate.start_date task;
     Task.due_date := TaskCreate.due_date task;
     Task.completion_date := None |}.

Definition with_tasks (db : Db) (rows : list Task.t) : Db :=
  {| users := users db;
     project_assignments := project_assignments db;
     projects := projects db;
     tasks := rows;
     inventory := inventory db;
     blueprints := blueprints db |}.

Definition create_task (db : Db) (current_user : User.t) (task : TaskCreate.t)
    : committed TaskResponse.t :=
  validate_task_assignment db (Some (TaskCreate.project_id task))
                           (TaskCreate.assigned_to task) ;;;
  let new_task :=
    new_task_row (fresh_id (map Task.task_id (tasks db))) task in
  let db' := with_tasks db (tasks db ++ [new_task]) in
  Ok (db', enrich_task db' new_task).

(** The block "Validate project_id change if provided" of [update_task]. *)
Definition check_project_move (db : Db) (current_user : User.t)
    (task : Task.t) (task_update : TaskUpdate.t) : result unit :=
  match TaskUpdate.project_id task_update with
  | Some (Some new_project_id) =>
      match find_project db (Some new_project_id) with
      | None => Raise (project_not_found (Some new_project_id))
      | Some new_project =>
          if role_is current_user "project_manager" then
            if negb (opt_eqb (Project.created_by new_project)
                             (User.user_id current_user))
            then Raise (HTTPException 403
                          "You can only move tasks to projects you created")
            else
              match find_project db (Some (Task.project_id task)) with
              | Some current_project =>
                  if negb (opt_eqb (Project.created_by current_project)
                                   (User.user_id current_user))
                  then Raise (HTTPException 403
                                "You can only edit tasks from your own projects")
                  else Ok tt
              | None => Ok tt
              end
          else Ok tt
      end
  | _ => Ok tt
  end.

(** [final_project_id = update_data.get('project_id', task.project_id)] *)
Definition final_project_id (task : Task.t) (task_update : TaskUpdate.t)
    : option Z :=
  get_or (TaskUpdate.project_id task_update) (Some (Task.project_id task)).

(** [final_assigned_to = update_data.get('assigned_to', task.assigned_to)] *)
Definition final_assigned_to (task : Task.t) (task_update : TaskUpdate.t)
    : option Z :=
  get_or (TaskUpdate.assigned_to task_update) (Task.assigned_to task).

(** The block "Validate assignment change if provided" of [update_task]. *)
Definition check_assignment_change (db : Db) (task : Task.t)
    (task_update : TaskUpdate.t) : result unit :=
  if is_set (TaskUpdate.assigned_to task_update)
     || is_set (TaskUpdate.project_id task_update)
  then
    match TaskUpdate.assigned_to task_update with
    | Some None => Ok tt
    | _ => validate_task_assignment db (final_project_id task task_update)
                                    (final_assigned_to task task_update)
    end
  else Ok tt.

(** [for field, value in update_data.items(): setattr(task, field, value)]
    followed by [db.commit()]. *)
Definition apply_task_update (task : Task.t) (u : TaskUpdate.t)
    : result Task.t :=
  project_id <- set_required (TaskUpdate.project_id u) (Task.project_id task) ;;
  task_name <- set_required (TaskUpdate.task_name u) (Task.task_name task) ;;
  Ok {| Task.task_id := Task.task_id task;
        Task.project_id := project_id;
        Task.task_name := task_name;
        Task.description :=
          get_or (TaskUpdate.description u) (Task.description task);
        Task.assigned_to :=
          get_or (TaskUpdate.assigned_to u) (Task.assigned_to task);
        Task.priority := get_or (TaskUpdate.priority u) (Task.priority task);
        Task.status := get_or (TaskUpdate.status u) (Task.status task);
        Task.is_maintenance :=
          get_or (TaskUpdate.is_maintenance u) (Task.is_maintenance task);
        Task.start_date :=
          get_or (TaskUpdate.start_date u) (Task.start_date task);
        Task.due_date := get_or (TaskUpdate.due_date u) (Task.due_date task);
        Task.completion_date :=
          get_or (TaskUpdate.completion_date u) (Task.completion_date task) |}.

(** The database after [db.commit()] of the changed task object. *)
Definition task_written (db : Db) (task_id : Z) (task' : Task.t) : Db :=
  with_tasks db
    (replace_first (fun t => Task.task_id t =? task_id) task' (tasks db)).

Definition task_not_found : Exn := HTTPException 404 "Task not found".

Definition update_task (db : Db) (current_user : User.t) (task_id : Z)
    (task_update : TaskUpdate.t) : committed TaskResponse.t :=
  match find_task db task_id with
  | None => Raise task_not_found
  | Some task =>
      check_project_move db current_user task task_update ;;;
      check_assignment_change db task task_update ;;;
      task' <- apply_task_update task task_update ;;
      let db' := task_written db task_id task' in
      Ok (db', enrich_task db' task')
  end.

(** [task.status = 'completed'; task.completion_date = date.today()] *)
Definition complete (today : Z) (task : Task.t) : Task.t :=
  {| Task.task_id := Task.task_id task;
     Task.project_id := Task.project_id task;
     Task.task_name := Task.task_name task;
     Task.description := Task.description task;
     Task.assigned_to := Task.assigned_to task;
     Task.priority := Task.priority task;
     Task.status := Some completed;
     Task.is_maintenance := Task.is_maintenance task;
     Task.start_date := Task.start_date task;
     Task.due_date := Task.due_date task;
     Task.completion_date := Some today |}.

(** [mark_task_done]; [today] is the value of [date.today()]. *)
Definition mark_task_done (today : Z) (db : Db) (current_user : User.t)
    (task_id : Z) : committed TaskResponse.t :=
  match find_task db task_id with
  | None => Raise task_not_found
  | Some task =>
      if negb (role_in current_user
                 ["admin"; "project_manager"; "engineer"; "technician"])
      then Raise (HTTPException 403 "Not authorized to complete tasks")
      else if role_in current_user ["engineer"; "technician"]
              && negb (opt_eqb (Task.assigned_to task)
                               (User.user_id current_user))
      then Raise (HTTPException 403
                    "You can only complete tasks assigned to you")
      else
        (if role_is current_user "project_manager" then
           match find_project db (Some (Task.project_id task)) with
           | Some project =>
               if negb (opt_eqb (Project.created_by project)
                                (User.user_id current_user))
               then Raise (HTTPException 403
                             "You can only complete tasks from your projects")
               else Ok tt
           | None => Ok tt
           end
         else Ok tt) ;;;
        let task' := complete today task in
        let db' := task_written db task_id task' in
        Ok (db', enrich_task db' task')
  end.

(** ** routers/projects.py *)

Module ProjectResponse.
(** [team_members] holds the [user_id], [full_name] and [role] of each
    member that still exists. *)
Record t : Type := mk {
  project : Project.t;
  assigned_users : list Z;
  owner_name : option string;
  team_members : list (Z * string * option string)
}.

(** [ProjectResponse.from_orm(project)]: [status] is not [Optional] in
    [schemas.ProjectBase], while its column is nullable. *)
Definition from_orm (project : Project.t) : result t :=
  match Project.status project with
  | Some _ => Ok (mk project [] None [])
  | None => Raise ValidationError
  end.
End ProjectResponse.

Module ProjectCreate.
Record t : Type := mk {
  project_name : string;
  vessel_name : option string;
  vessel_type : option string;
  vessel_owner : option string;
  start_date : option Z;
  end_date : option Z;
  status : ProjectStatus;
  description : option string;
  assigned_user_ids : option (list Z)
}.
End ProjectCreate.

Module ProjectUpdate.
(** The scalar fields as in [dict(exclude_unset=True)];
    [assigned_user_ids] is read as an attribute, so unset and null are
    both [None]. *)
Record t : Type := mk {
  project_name : option (option string);
  vessel_name : option (option string);
  vessel_type : option (option string);
  vessel_owner : option (option string);
  start_date : option (option Z);
  end_date : option (option Z);
  status : option (option ProjectStatus);
  description : option (option string);
  assigned_user_ids : option (list Z)
}.
End ProjectUpdate.

(** [project.assignments]: the relationship to [ProjectAssignment]. *)
Definition assignments_of (db : Db) (project : Project.t)
    : list ProjectAssignment.t :=
  filter (fun a => ProjectAssignment.project_id a =? Project.project_id project)
         (project_assignments db).

(** The response with only [assigned_users] filled in, as [create_project]
    and [update_project] return it. *)
Definition with_assigned_users (db : Db) (project : Project.t)
    : result ProjectResponse.t :=
  let assigned_user_ids :=
    map ProjectAssignment.user_id (assignments_of db project) in
  project_dict <- ProjectResponse.from_orm project ;;
  Ok (ProjectResponse.mk (ProjectResponse.project project_dict)
                         assigned_user_ids
                         (ProjectResponse.owner_name project_dict)
                         (ProjectResponse.team_members project_dict)).

(** The response of [get_projects] and [get_project]. *)
Definition enrich_project (db : Db) (project : Project.t)
    : result ProjectResponse.t :=
  let assigned_user_ids :=
    map ProjectAssignment.user_id (assignments_of db project) in
  project_dict <- ProjectResponse.from_orm project ;;
  let owner_name :=
    if truthy (Project.created_by project) then
      match Project.created_by project with
      | Some c =>
          match find_user db c with
          | Some owner => Some (User.full_name owner)
          | None => None
          end
      | None => None
      end
    else None in
  let team_members :=
    flat_map (fun a =>
                match find_user db (ProjectAssignment.user_id a) with
                | Some user =>
                    [(User.user_id user, User.full_name user, User.role user)]
                | None => []
                end)
             (assignments_of db project) in
  Ok (ProjectResponse.mk (ProjectResponse.project project_dict)
                         assigned_user_ids owner_name team_members).

(** The role-dependent query of [get_projects], with its page. *)
Definition get_projects_query (db : Db) (current_user : User.t)
    (skip limit : nat) : list Project.t :=
  if role_is current_user "admin" then
    paginate skip limit (projects db)
  else if role_is current_user "project_manager" then
    paginate skip limit
      (filter (fun p => opt_eqb (Project.created_by p)
                                (User.user_id current_user))
              (projects db))
  else
    let project_ids :=
      map ProjectAssignment.project_id
          (filter (fun a => ProjectAssignment.user_id a
                            =? User.user_id current_user)
                  (project_assignments db)) in
    paginate skip limit
      (filter (fun p => in_ (Project.project_id p) project_ids)
              (projects db)).

Definition get_projects (db : Db) (current_user : User.t) (skip limit : nat)
    : result (list ProjectResponse.t) :=
  let projects := get_projects_query db current_user skip limit in
  for_each (enrich_project db) projects.

(** [db.add(ProjectAssignment(project_id=..., user_id=user_id))] for each
    [user_id] in turn. *)
Definition add_assignments (project_id : Z) (user_ids : list Z)
    (rows : list ProjectAssignment.t) : list ProjectAssignment.t :=
  fold_left
    (fun rows user_id =>
       rows ++ [ProjectAssignment.mk
                  (fresh_id (map ProjectAssignment.assignment_id rows))
                  project_id user_id])
    user_ids rows.

Definition create_project (db : Db) (current_user : User.t)
    (project : ProjectCreate.t) : committed ProjectResponse.t :=
  if negb (role_in current_user ["admin"; "project_manager"]) then
    Raise (HTTPException HTTP_403_FORBIDDEN
             "Only admins and project managers can create projects")
  else
    let new_project :=
      {| Project.project_id := fresh_id (map Project.project_id (projects db));
         Project.project_name := ProjectCreate.project_name project;
         Project.vessel_name := ProjectCreate.vessel_name project;
         Project.vessel_type := ProjectCreate.vessel_type project;
         Project.vessel_owner := ProjectCreate.vessel_owner project;
         Project.start_date := ProjectCreate.start_date project;
         Project.end_date := ProjectCreate.end_date project;
         Project.status := Some (ProjectCreate.status project);
         Project.description := ProjectCreate.description project;
         Project.created_by := Some (User.user_id current_user) |} in
    let assignments :=
      match ProjectCreate.assigned_user_ids project with
      | Some user_ids =>
          add_assignments (Project.project_id new_project) user_ids
                          (project_assignments db)
      | None => project_assignments db
      end in
    let db' :=
      {| users := users db;
         project_assignments := assignments;
         projects := projects db ++ [new_project];
         tasks := tasks db;
         inventory := inventory db;
         blueprints := blueprints db |} in
    Ok (db', with_assigned_users db' new_project).

(** The [setattr] loop of [update_project] over the scalar fields. *)
Definition apply_project_update (project : Project.t) (u : ProjectUpdate.t)
    : result Project.t :=
  project_name <- set_required (ProjectUpdate.project_name u)
                               (Project.project_name project) ;;
  Ok {| Project.project_id := Project.project_id project;
        Project.project_name := project_name;
        Project.vessel_name :=
          get_or (ProjectUpdate.vessel_name u) (Project.vessel_name project);
        Project.vessel_type :=
          get_or (ProjectUpdate.vessel_type u) (Project.vessel_type project);
        Project.vessel_owner :=
          get_or (ProjectUpdate.vessel_owner u) (Project.vessel_owner project);
        Project.start_date :=
          get_or (ProjectUpdate.start_date u) (Project.start_date project);
        Project.end_date :=
          get_or (ProjectUpdate.end_date u) (Project.end_date project);
        Project.status :=
          get_or (ProjectUpdate.status u) (Project.status project);
        Project.description :=
          get_or (ProjectUpdate.description u) (Project.description project);
        Project.created_by := Project.created_by project |}.

(** The block "Update user assignments if provided" of [update_project]:
    the rows of the project are deleted and one row per listed user is
    added. *)
Definition replace_team (project_id : Z) (assigned_user_ids : option (list Z))
    (rows : list ProjectAssignment.t) : list ProjectAssignment.t :=
  match assigned_user_ids with
  | Some user_ids =>
      add_assignments project_id user_ids
        (filter (fun a => negb (ProjectAssignment.project_id a =? project_id))
                rows)
  | None => rows
  end.

Definition project_missing : Exn := HTTPException 404 "Project not found".

Definition update_project (db : Db) (current_user : User.t) (project_id : Z)
    (project_update : ProjectUpdate.t) : committed ProjectResponse.t :=
  match find_project db (Some project_id) with
  | None => Raise project_missing
  | Some project =>
      project' <- apply_project_update project project_update ;;
      let db' :=
        {| users := users db;
           project_assignments :=
             replace_team project_id
                          (ProjectUpdate.assigned_user_ids project_update)
                          (project_assignments db);
           projects :=
             replace_first (fun p => Project.project_id p =? project_id)
                           project' (projects db);
           tasks := tasks db;
           inventory := inventory db;
           blueprints := blueprints db |} in
      Ok (db', with_assigned_users db' project')
  end.

(** [db.delete(project)]: the relationships [tasks], [blueprints] and
    [assignments] of [Project] cascade the deletion. *)
Definition delete_project (db : Db) (current_user : User.t) (project_id : Z)
    : result (Db * unit) :=
  match find_project db (Some project_id) with
  | None => Raise project_missing
  | Some project =>
      Ok ({| users := users db;
             project_assignments :=
               filter (fun a => negb (ProjectAssignment.project_id a
                                      =? project_id))
                      (project_assignments db);
             projects :=
               filter (fun p => negb (Project.project_id p =? project_id))
                      (projects db);
             tasks :=
               filter (fun t => negb (Task.project_id t =? project_id))
                      (tasks db);
             inventory := inventory db;
             blueprints :=
               filter (fun b => negb (Blueprint.project_id b =? project_id))
                      (blueprints db) |}, tt)
  end.

(** ** routers/dashboard.py *)

Record DashboardStats : Type := mkStats {
  total_projects : Z;
  total_tasks : Z;
  completed_tasks : Z;
  total_inventory : Z;
  low_stock_items : Z
}.

(** [query.count()] *)
Definition count {A : Type} (rows : list A) : Z :=
  Z.of_nat (List.length rows).

(** [Task.status == 'completed'] and [Task.status != 'completed'] as SQL
    conditions: a NULL status satisfies neither. *)
Definition status_completed (t : Task.t) : bool :=
  match Task.status t with
  | Some s => TaskStatus_eqb s completed
  | None => false
  end.

Definition status_not_completed (t : Task.t) : bool :=
  match Task.status t with
  | Some s => negb (TaskStatus_eqb s completed)
  | None => false
  end.

(** [Inventory.quantity <= Inventory.reorder_level] *)
Definition low_stock (i : Inventory.t) : bool :=
  match Inventory.quantity i, Inventory.reorder_level i with
  | Some q, Some r => q <=? r
  | _, _ => false
  end.

(** The project ids of the rows of [ProjectAssignment] of a user, with
    [.distinct()]. *)
Definition assigned_project_ids (db : Db) (uid : Z) : list Z :=
  nodup Z.eq_dec
    (map ProjectAssignment.project_id
         (filter (fun a => ProjectAssignment.user_id a =? uid)
                 (project_assignments db))).

(** The three role-dependent counters
    [(total_projects, total_tasks, completed_tasks)]. *)
Definition role_counts (db : Db) (role : string) (uid : Z)
    : result (Z * Z * Z) :=
  if String.eqb role "admin" then
    Ok (count (projects db),
        count (filter status_not_completed (tasks db)),
        count (filter status_completed (tasks db)))
  else if String.eqb role "project_manager" then
    let pm_project_ids :=
      map Project.project_id
          (filter (fun p => opt_eqb (Project.created_by p) uid) (projects db)) in
    match pm_project_ids with
    | _ :: _ =>
        Ok (count pm_project_ids,
            count (filter (fun t => in_ (Task.project_id t) pm_project_ids
                                    && status_not_completed t) (tasks db)),
            count (filter (fun t => in_ (Task.project_id t) pm_project_ids
                                    && status_completed t) (tasks db)))
    | [] => Ok (0, 0, 0)
    end
  else if existsb (String.eqb role) ["engineer"; "technician"] then
    let assigned_project_ids := assigned_project_ids db uid in
    let total_projects := count assigned_project_ids in
    match assigned_project_ids with
    | _ :: _ =>
        Ok (total_projects,
            count (filter (fun t => opt_eqb (Task.assigned_to t) uid
                                    && in_ (Task.project_id t)
                                           assigned_project_ids
                                    && status_not_completed t) (tasks db)),
            count (filter (fun t => opt_eqb (Task.assigned_to t) uid
                                    && in_ (Task.project_id t)
                                           assigned_project_ids
                                    && status_completed t) (tasks db)))
    | [] => Ok (total_projects, 0, 0)
    end
  else
    Raise (HTTPException HTTP_403_FORBIDDEN
             ("Invalid user role: " ++ role)%string).

Definition get_dashboard_stats (db : Db) (current_user : User.t)
    : result DashboardStats :=
  match User.role current_user with
  | None =>
      Raise (HTTPException HTTP_500_INTERNAL_SERVER_ERROR
               "User role not properly set")
  | Some role =>
      let uid := User.user_id current_user in
      counts <- role_counts db role uid ;;
      let '(total_projects, total_tasks, completed_tasks) := counts in
      let total_inventory := count (inventory db) in
      let low_stock_items := count (filter low_stock (inventory db)) in
      Ok (mkStats total_projects total_tasks completed_tasks
                  total_inventory low_stock_items)
  end.

(** ** routers/blueprints.py *)

Module BlueprintSchema.
(** [schemas.Blueprint]: the row and the uploader's name. *)
Record t : Type := mk {
  blueprint : Blueprint.t;
  uploader_name : option string
}.

(** [BlueprintSchema.from_orm(blueprint)]: [version] and [is_active] are
    not [Optional] in [schemas.Blueprint], while their columns are
    nullable. *)
Definition from_orm (blueprint : Blueprint.t) : result t :=
  match Blueprint.version blueprint, Blueprint.is_active blueprint with
  | Some _, Some _ => Ok (mk blueprint None)
  | _, _ => Raise ValidationError
  end.
End BlueprintSchema.

(** [uploader.full_name if uploader else "[User deleted]"] *)
Definition uploader_name_of (db : Db) (blueprint : Blueprint.t) : string :=
  match find_user db (Blueprint.uploaded_by blueprint) with
  | Some uploader => User.full_name uploader
  | None => "[User deleted]"
  end.

(** [from_orm] and the uploader lookup that close the read endpoints. *)
Definition with_uploader (db : Db) (blueprint : Blueprint.t)
    : result BlueprintSchema.t :=
  blueprint_dict <- BlueprintSchema.from_orm blueprint ;;
  Ok (BlueprintSchema.mk (BlueprintSchema.blueprint blueprint_dict)
                         (Some (uploader_name_of db blueprint))).

(** [Blueprint.is_active == True] *)
Definition active (b : Blueprint.t) : bool :=
  match Blueprint.is_active b with
  | Some v => v
  | None => false
  end.

Definition get_blueprints (db : Db) (current_user : User.t)
    (project_id : option Z) (skip limit : nat)
    : result (list BlueprintSchema.t) :=
  let query := filter active (blueprints db) in
  let query :=
    if truthy project_id then
      filter (fun b => opt_eqb project_id (Blueprint.project_id b)) query
    else query in
  let query :=
    if role_in current_user ["engineer"; "technician"] then
      let assigned_project_ids :=
        assigned_project_ids db (User.user_id current_user) in
      filter (fun b => in_ (Blueprint.project_id b) assigned_project_ids) query
    else query in
  for_each (with_uploader db) (paginate skip limit query).

Definition blueprint_not_found : Exn := HTTPException 404 "Blueprint not found".

Definition get_blueprint (db : Db) (current_user : User.t) (blueprint_id : Z)
    : result BlueprintSchema.t :=
  match find_blueprint db blueprint_id with
  | None => Raise blueprint_not_found
  | Some blueprint => with_uploader db blueprint
  end.

(** [blueprint.is_active = False] *)
Definition deactivate (b : Blueprint.t) : Blueprint.t :=
  {| Blueprint.blueprint_id := Blueprint.blueprint_id b;
     Blueprint.project_id := Blueprint.project_id b;
     Blueprint.file_name := Blueprint.file_name b;
     Blueprint.original_name := Blueprint.original_name b;
     Blueprint.file_path := Blueprint.file_path b;
     Blueprint.file_size := Blueprint.file_size b;
     Blueprint.file_type := Blueprint.file_type b;
     Blueprint.version := Blueprint.version b;
     Blueprint.description := Blueprint.description b;
     Blueprint.uploaded_by := Blueprint.uploaded_by b;
     Blueprint.is_active := Some false |}.

(** [delete_blueprint]; [files] is the set of paths that exist on disk,
    which [os.remove] shrinks. *)
Definition delete_blueprint (db : Db) (files : list string)
    (current_user : User.t) (blueprint_id : Z)
    : result (Db * list string * string) :=
  if negb (role_in current_user ["admin"; "project_manager"]) then
    Raise (HTTPException 403 "Not authorized")
  else
    match find_blueprint db blueprint_id with
    | None => Raise blueprint_not_found
    | Some blueprint =>
        let files' :=
          if existsb (String.eqb (Blueprint.file_path blueprint)) files then
            filter (fun f => negb (String.eqb (Blueprint.file_path blueprint) f))
                   files
          else files in
        let db' :=
          {| users := users db;
             project_assignments := project_assignments db;
             projects := projects db;
             tasks := tasks db;
             inventory := inventory db;
             blueprints :=
               replace_first
                 (fun b => Blueprint.blueprint_id b =? blueprint_id)
                 (deactivate blueprint) (blueprints db) |} in
        Ok (db', files', "Blueprint deleted successfully")
    end.

(** ** The other endpoints of the routers and of main.py *)

(** *** tasks.py *)

Definition get_task (db : Db) (current_user : User.t) (task_id : Z)
    : result TaskResponse.t :=
  match find_task db task_id with
  | None => Raise task_not_found
  | Some task => enrich_task db task
  end.

(** [db.delete(task)]: the row with the key of the loaded object goes. *)
Definition delete_task (db : Db) (current_user : User.t) (task_id : Z)
    : result (Db * unit) :=
  match find_task db task_id with
  | None => Raise task_not_found
  | Some task =>
      Ok (with_tasks db
            (filter (fun t => negb (Task.task_id t =? task_id)) (tasks db)),
          tt)
  end.

(** *** projects.py *)

Definition get_project (db : Db) (current_user : User.t) (project_id : Z)
    : result ProjectResponse.t :=
  match find_project db (Some project_id) with
  | None => Raise project_missing
  | Some project => enrich_project db project
  end.

(** *** blueprints.py *)

Module BlueprintUpdate.
(** [blueprint_update.dict(exclude_unset=True)] *)
Record t : Type := mk {
  description : option (option string);
  version : option (option string);
  is_active : option (option bool)
}.
End BlueprintUpdate.

Module FileResponse.
Record t : Type := mk {
  path : string;
  filename : string;
  media_type : string
}.
End FileResponse.

Definition with_blueprints (db : Db) (rows : list Blueprint.t) : Db :=
  {| users := users db;
     project_assignments := project_assignments db;
     projects := projects db;
     tasks := tasks db;
     inventory := inventory db;
     blueprints := rows |}.

(** The [setattr] loop of [update_blueprint]; the three columns are
    nullable. *)
Definition apply_blueprint_update (b : Blueprint.t) (u : BlueprintUpdate.t)
    : Blueprint.t :=
  {| Blueprint.blueprint_id := Blueprint.blueprint_id b;
     Blueprint.project_id := Blueprint.project_id b;
     Blueprint.file_name := Blueprint.file_name b;
     Blueprint.original_name := Blueprint.original_name b;
     Blueprint.file_path := Blueprint.file_path b;
     Blueprint.file_size := Blueprint.file_size b;
     Blueprint.file_type := Blueprint.file_type b;
     Blueprint.version :=
       get_or (BlueprintUpdate.version u) (Blueprint.version b);
     Blueprint.description :=
       get_or (BlueprintUpdate.description u) (Blueprint.description b);
     Blueprint.uploaded_by := Blueprint.uploaded_by b;
     Blueprint.is_active :=
       get_or (BlueprintUpdate.is_active u) (Blueprint.is_active b) |}.

(** [update_blueprint] returns the row itself: no [from_orm], no uploader
    name. *)
Definition update_blueprint (db : Db) (current_user : User.t)
    (blueprint_id : Z) (blueprint_update : BlueprintUpdate.t)
    : result (Db * Blueprint.t) :=
  if negb (role_in current_user
             ["admin"; "project_manager"; "engineer"; "technician"])
  then Raise (HTTPException 403 "Not authorized")
  else
    match find_blueprint db blueprint_id with
    | None => Raise blueprint_not_found
    | Some blueprint =>
        let blueprint' := apply_blueprint_update blueprint blueprint_update in
        let db' :=
          with_blueprints db
            (replace_first (fun b => Blueprint.blueprint_id b =? blueprint_id)
                           blueprint' (blueprints db)) in
        Ok (db', blueprint')
    end.

(** [os.path.exists(path)] over the set of stored paths. *)
Definition path_exists (files : list string) (path : string) : bool :=
  existsb (String.eqb path) files.

(** [blueprint.file_type or 'application/octet-stream'] *)
Definition media_type_of (file_type : option string) : string :=
  match file_type with
  | Some s => if String.eqb s "" then "application/octet-stream" else s
  | None => "application/octet-stream"
  end.

Definition download_blueprint (db : Db) (files : list string)
    (current_user : User.t) (blueprint_id : Z) : result FileResponse.t :=
  match find_blueprint db blueprint_id with
  | None => Raise blueprint_not_found
  | Some blueprint =>
      (if role_in current_user ["engineer"; "technician"] then
         if is_assigned db (Some (Blueprint.project_id blueprint))
                        (User.user_id current_user)
         then Ok tt
         else Raise (HTTPException 403
                       "You don't have access to this blueprint")
       else Ok tt) ;;;
      if negb (path_exists files (Blueprint.file_path blueprint)) then
        Raise (HTTPException 404 "File not found on server")
      else
        Ok (FileResponse.mk (Blueprint.file_path blueprint)
                            (Blueprint.original_name blueprint)
                            (media_type_of (Blueprint.file_type blueprint)))
  end.

(** [blueprint_detail_fixed] passes its three arguments on, in order. *)
Definition blueprint_detail_fixed (db : Db) (current_user : User.t)
    (blueprint_id : Z) : result BlueprintSchema.t :=
  get_blueprint db current_user blueprint_id.

(** *** inventory.py

    Of the columns of [Inventory] the rows keep [item_name], [quantity] and
    [reorder_level]; the descriptive ones ([category], [description],
    [unit], [unit_price], [supplier_name], [location]) are only copied. *)

Module InventoryCreate.
Record t : Type := mk {
  item_name : string;
  quantity : Z;
  reorder_level : Z
}.
End InventoryCreate.

Module InventoryUpdate.
Record t : Type := mk {
  item_name : option (option string);
  quantity : option (option Z);
  reorder_level : option (option Z)
}.
End InventoryUpdate.

Definition with_inventory (db : Db) (rows : list Inventory.t) : Db :=
  {| users := users db;
     project_assignments := project_assignments db;
     projects := projects db;
     tasks := tasks db;
     inventory := rows;
     blueprints := blueprints db |}.

(** [db.query(Inventory).filter(Inventory.item_id == item_id).first()] *)
Definition find_item (db : Db) (item_id : Z) : option Inventory.t :=
  find (fun i => Inventory.item_id i =? item_id) (inventory db).

Definition get_inventory (db : Db) (current_user : User.t) (skip limit : nat)
    : list Inventory.t :=
  paginate skip limit (inventory db).

Definition get_low_stock (db : Db) (current_user : User.t)
    : list Inventory.t :=
  filter low_stock (inventory db).

Definition item_not_found : Exn :=
  HTTPException 404 "Inventory item not found".

Definition not_authorized : Exn := HTTPException 403 "Not authorized".

Definition get_inventory_item (db : Db) (current_user : User.t) (item_id : Z)
    : result Inventory.t :=
  match find_item db item_id with
  | None => Raise item_not_found
  | Some item => Ok item
  end.

Definition create_inventory_item (db : Db) (current_user : User.t)
    (item : InventoryCreate.t) : result (Db * Inventory.t) :=
  if negb (role_in current_user ["admin"; "project_manager"]) then
    Raise not_authorized
  else
    let new_item :=
      {| Inventory.item_id := fresh_id (map Inventory.item_id (inventory db));
         Inventory.item_name := InventoryCreate.item_name item;
         Inventory.quantity := Some (InventoryCreate.quantity item);
         Inventory.reorder_level := Some (InventoryCreate.reorder_level item) |}
    in
    Ok (with_inventory db (inventory db ++ [new_item]), new_item).

(** The [setattr] loop of [update_inventory_item] and the commit. *)
Definition apply_inventory_update (item : Inventory.t) (u : InventoryUpdate.t)
    : result Inventory.t :=
  item_name <- set_required (InventoryUpdate.item_name u)
                            (Inventory.item_name item) ;;
  Ok {| Inventory.item_id := Inventory.item_id item;
        Inventory.item_name := item_name;
        Inventory.quantity :=
          get_or (InventoryUpdate.quantity u) (Inventory.quantity item);
        Inventory.reorder_level :=
          get_or (InventoryUpdate.reorder_level u)
                 (Inventory.reorder_level item) |}.

Definition update_inventory_item (db : Db) (current_user : User.t)
    (item_id : Z) (item_update : InventoryUpdate.t)
    : result (Db * Inventory.t) :=
  if negb (role_in current_user ["admin"; "project_manager"]) then
    Raise not_authorized
  else
    match find_item db item_id with
    | None => Raise item_not_found
    | Some item =>
        item' <- apply_inventory_update item item_update ;;
        Ok (with_inventory db
              (replace_first (fun i => Inventory.item_id i =? item_id) item'
                             (inventory db)),
            item')
    end.

Definition delete_inventory_item (db : Db) (current_user : User.t)
    (item_id : Z) : result (Db * unit) :=
  if negb (role_in current_user ["admin"; "project_manager"]) then
    Raise not_authorized
  else
    match find_item db item_id with
    | None => Raise item_not_found
    | Some item =>
        Ok (with_inventory db
              (filter (fun i => negb (Inventory.item_id i =? item_id))
                      (inventory db)),
            tt)
    end.

(** *** main.py: the user endpoints and the unfiltered dashboard *)

Inductive UserRole : Type := admin | project_manager | engineer | technician.

(** The value of a member of [schemas.UserRole]. *)
Definition role_value (r : UserRole) : string :=
  match r with
  | admin => "admin"
  | project_manager => "project_manager"
  | engineer => "engineer"
  | technician => "technician"
  end.

Module UserUpdate.
(** [user_update.dict(exclude_unset=True)] *)
Record t : Type := mk {
  email : option (option string);
  full_name : option (option string);
  phone : option (option string);
  role : option (option UserRole);
  is_active : option (option bool)
}.
End UserUpdate.

Definition with_users (db : Db) (rows : list User.t) : Db :=
  {| users := rows;
     project_assignments := project_assignments db;
     projects := projects db;
     tasks := tasks db;
     inventory := inventory db;
     blueprints := blueprints db |}.

(** [User.is_active == True] *)
Definition user_active (u : User.t) : bool :=
  match User.is_active u with
  | Some v => v
  | None => false
  end.

Definition read_users (db : Db) (current_user : User.t) (skip limit : nat)
    : result (list User.t) :=
  if negb (role_in current_user ["admin"; "project_manager"]) then
    Raise not_authorized
  else Ok (paginate skip limit (filter user_active (users db))).

Definition user_missing : Exn := HTTPException 404 "User not found".

Definition read_user (db : Db) (current_user : User.t) (user_id : Z)
    : result User.t :=
  match find_user db user_id with
  | None => Raise user_missing
  | Some user => Ok user
  end.

(** The [setattr] loop of [update_user]; [email] and [full_name] are
    [nullable=False]. *)
Definition apply_user_update (user : User.t) (u : UserUpdate.t)
    : result User.t :=
  email <- set_required (UserUpdate.email u) (User.email user) ;;
  full_name <- set_required (UserUpdate.full_name u) (User.full_name user) ;;
  Ok {| User.user_id := User.user_id user;
        User.email := email;
        User.full_name := full_name;
        User.role :=
          match UserUpdate.role u with
          | Some r => option_map role_value r
          | None => User.role user
          end;
        User.phone := get_or (UserUpdate.phone u) (User.phone user);
        User.is_active :=
          get_or (UserUpdate.is_active u) (User.is_active user) |}.

(** The [unique] constraint of [users.email] at the commit of a written
    email: another row holds the same string. *)
Definition email_taken (db : Db) (user_id : Z) (email : string) : bool :=
  existsb (fun x => negb (User.user_id x =? user_id)
                    && String.eqb (User.email x) email)
          (users db).

Definition update_user (db : Db) (current_user : User.t) (user_id : Z)
    (user_update : UserUpdate.t) : result (Db * User.t) :=
  if negb (role_is current_user "admin")
     && negb (User.user_id current_user =? user_id)
  then Raise not_authorized
  else
    match find_user db user_id with
    | None => Raise user_missing
    | Some db_user =>
        db_user' <- apply_user_update db_user user_update ;;
        if is_set (UserUpdate.email user_update)
           && email_taken db user_id (User.email db_user')
        then Raise IntegrityError
        else
          Ok (with_users db
                (replace_first (fun x => User.user_id x =? user_id) db_user'
                               (users db)),
              db_user')
    end.

Module Main.
(** The dictionary that [main.get_dashboard_stats] returns. *)
Record Stats : Type := mkStats {
  total_projects : Z;
  active_projects : Z;
  total_tasks : Z;
  completed_tasks : Z;
  low_stock_items : Z
}.

(** [Project.status == 'in_progress'] *)
Definition project_in_progress (p : Project.t) : bool :=
  match Project.status p with
  | Some p_in_progress => true
  | _ => false
  end.

(** [get_dashboard_stats] of main.py, served at [/api/dashboard/stats]. *)
Definition get_dashboard_stats (db : Db) (current_user : User.t) : Stats :=
  {| total_projects := count (projects db);
     active_projects := count (filter project_in_progress (projects db));
     total_tasks := count (tasks db);
     completed_tasks := count (filter status_completed (tasks db));
     low_stock_items := count (filter low_stock (inventory db)) |}.
End Main.

(** *** settings.py

    The three endpoints read and write the [user_settings] table only, so
    they take and return that table; [Json] is the type of the documents
    held by the [dashboard_layout] column. *)

Inductive Theme : Type := light | dark | auto.

Module UserSettings.
Record t (Json : Type) : Type := mk {
  setting_id : Z;
  user_id : Z;
  theme : option Theme;
  language : option string;
  timezone : option string;
  date_format : option string;
  notifications_enabled : option bool;
  email_notifications : option bool;
  dashboard_layout : option Json;
  items_per_page : option Z
}.
Arguments mk {Json}.
Arguments setting_id {Json}.
Arguments user_id {Json}.
Arguments theme {Json}.
Arguments language {Json}.
Arguments timezone {Json}.
Arguments date_format {Json}.
Arguments notifications_enabled {Json}.
Arguments email_notifications {Json}.
Arguments dashboard_layout {Json}.
Arguments items_per_page {Json}.
End UserSettings.

Module UserSettingsUpdate.
(** [settings_update.dict(exclude_unset=True)] *)
Record t (Json : Type) : Type := mk {
  theme : option (option Theme);
  language : option (option string);
  timezone : option (option string);
  date_format : option (option string);
  notifications_enabled : option (option bool);
  email_notifications : option (option bool);
  dashboard_layout : option (option Json);
  items_per_page : option (option Z)
}.
Arguments mk {Json}.
Arguments theme {Json}.
Arguments language {Json}.
Arguments timezone {Json}.
Arguments date_format {Json}.
Arguments notifications_enabled {Json}.
Arguments email_notifications {Json}.
Arguments dashboard_layout {Json}.
Arguments items_per_page {Json}.
End UserSettingsUpdate.

(** [UserSettings(user_id=...)] once inserted: the column defaults of
    models.py. *)
Definition default_settings {Json : Type} (setting_id user_id : Z)
    : UserSettings.t Json :=
  UserSettings.mk setting_id user_id (Some light) (Some "en") (Some "UTC")
                  (Some "YYYY-MM-DD") (Some true) (Some true) None (Some 10).

(** [db.query(UserSettings).filter(UserSettings.user_id == uid).first()] *)
Definition find_settings {Json : Type} (table : list (UserSettings.t Json))
    (uid : Z) : option (UserSettings.t Json) :=
  find (fun s => UserSettings.user_id s =? uid) table.

Definition get_user_settings {Json : Type} (table : list (UserSettings.t Json))
    (current_user : User.t)
    : list (UserSettings.t Json) * UserSettings.t Json :=
  match find_settings table (User.user_id current_user) with
  | Some settings => (table, settings)
  | None =>
      let settings :=
        default_settings (fresh_id (map UserSettings.setting_id table))
                         (User.user_id current_user) in
      (table ++ [settings], settings)
  end.

(** [setattr] on a loaded row: the value, null included, is written. *)
Definition set_all {Json : Type} (s : UserSettings.t Json)
    (u : UserSettingsUpdate.t Json) : UserSettings.t Json :=
  {| UserSettings.setting_id := UserSettings.setting_id s;
     UserSettings.user_id := UserSettings.user_id s;
     UserSettings.theme :=
       get_or (UserSettingsUpdate.theme u) (UserSettings.theme s);
     UserSettings.language :=
       get_or (UserSettingsUpdate.language u) (UserSettings.language s);
     UserSettings.timezone :=
       get_or (UserSettingsUpdate.timezone u) (UserSettings.timezone s);
     UserSettings.date_format :=
       get_or (UserSettingsUpdate.date_format u) (UserSettings.date_format s);
     UserSettings.notifications_enabled :=
       get_or (UserSettingsUpdate.notifications_enabled u)
              (UserSettings.notifications_enabled s);
     UserSettings.email_notifications :=
       get_or (UserSettingsUpdate.email_notifications u)
              (UserSettings.email_notifications s);
     UserSettings.dashboard_layout :=
       get_or (UserSettingsUpdate.dashboard_layout u)
              (UserSettings.dashboard_layout s);
     UserSettings.items_per_page :=
       get_or (UserSettingsUpdate.items_per_page u)
              (UserSettings.items_per_page s) |}.

(** [setattr] on a row that is not inserted yet: at the insert a column
    whose attribute is [None] takes its default, so only the posted
    non-null values replace the defaults. *)
Definition set_new {A : Type} (field : option (option A)) (default : option A)
    : option A :=
  match field with
  | Some (Some v) => Some v
  | _ => default
  end.

Definition new_settings {Json : Type} (setting_id user_id : Z)
    (u : UserSettingsUpdate.t Json) : UserSettings.t Json :=
  {| UserSettings.setting_id := setting_id;
     UserSettings.user_id := user_id;
     UserSettings.theme := set_new (UserSettingsUpdate.theme u) (Some light);
     UserSettings.language :=
       set_new (UserSettingsUpdate.language u) (Some "en");
     UserSettings.timezone :=
       set_new (UserSettingsUpdate.timezone u) (Some "UTC");
     UserSettings.date_format :=
       set_new (UserSettingsUpdate.date_format u) (Some "YYYY-MM-DD");
     UserSettings.notifications_enabled :=
       set_new (UserSettingsUpdate.notifications_enabled u) (Some true);
     UserSettings.email_notifications :=
       set_new (UserSettingsUpdate.email_notifications u) (Some true);
     UserSettings.dashboard_layout :=
       set_new (UserSettingsUpdate.dashboard_layout u) None;
     UserSettings.items_per_page :=
       set_new (UserSettingsUpdate.items_per_page u) (Some 10) |}.

Definition update_user_settings {Json : Type}
    (table : list (UserSettings.t Json)) (current_user : User.t)
    (settings_update : UserSettingsUpdate.t Json)
    : list (UserSettings.t Json) * UserSettings.t Json :=
  match find_settings table (User.user_id current_user) with
  | Some settings =>
      let settings' := set_all settings settings_update in
      (replace_first
         (fun s => UserSettings.setting_id s =? UserSettings.setting_id settings)
         settings' table,
       settings')
  | None =>
      let settings' :=
        new_settings (fresh_id (map UserSettings.setting_id table))
                     (User.user_id current_user) settings_update in
      (table ++ [settings'], settings')
  end.

(** [reset_user_settings]: the row of the principal, when there is one,
    is deleted, and a row of defaults is inserted under a new key. *)
Definition reset_user_settings {Json : Type}
    (table : list (UserSettings.t Json)) (current_user : User.t)
    : list (UserSettings.t Json) * UserSettings.t Json :=
  let kept :=
    match find_settings table (User.user_id current_user) with
    | Some settings =>
        filter (fun s => negb (UserSettings.setting_id s
                               =? UserSettings.setting_id settings)) table
    | None => table
    end in
  let new_settings :=
    default_settings (fresh_id (map UserSettings.setting_id table))
                     (User.user_id current_user) in
  (kept ++ [new_settings], new_settings).

(** ** Vocabulary of the properties *)

Definition user_exists (db : Db) (uid : Z) : Prop :=
  In uid (map User.user_id (users db)).

Definition project_exists (db : Db) (pid : Z) : Prop :=
  In pid (map Project.project_id (projects db)).

(** The pair [(pid, uid)] is in the [ProjectAssignment] relation. *)
Definition team_member (db : Db) (pid uid : Z) : Prop :=
  exists a, In a (project_assignments db)
            /\ ProjectAssignment.project_id a = pid
            /\ ProjectAssignment.user_id a = uid.

Definition engineer_or_technician (u : User.t) : Prop :=
  User.role u = Some "engineer" \/ User.role u = Some "technician".

Definition recognised_roles : list string :=
  ["admin"; "project_manager"; "engineer"; "technician"].

(** The invariant of the data model: the assignee of a task, when there is
    one, is on the team of the task's project. *)
Definition assignment_integrity (db : Db) : Prop :=
  forall t u, In t (tasks db) -> Task.assigned_to t = Some u ->
              team_member db (Task.project_id t) u.

(** Primary keys are unique and every assignment row refers to a stored
    project, as the schema of [models.py] declares. *)
Definition unique_project_ids (db : Db) : Prop :=
  NoDup (map Project.project_id (projects db)).

Definition unique_blueprint_ids (db : Db) : Prop :=
  NoDup (map Blueprint.blueprint_id (blueprints db)).

Definition assignments_reference_projects (db : Db) : Prop :=
  forall a, In a (project_assignments db) ->
            project_exists db (ProjectAssignment.project_id a).

(** The rows that [from_orm] accepts: the columns that the response schema
    requires hold a value. *)
Definition serialisable_task (t : Task.t) : Prop :=
  Task.priority t <> None /\ Task.status t <> None
  /\ Task.is_maintenance t <> None.

Definition serialisable_project (p : Project.t) : Prop :=
  Project.status p <> None.

Definition serialisable_blueprint (b : Blueprint.t) : Prop :=
  Blueprint.version b <> None /\ Blueprint.is_active b <> None.

(** What a settings endpoint leaves behind for the principal: their row
    is the returned one, the rows of the other users are found as before,
    and keys and users are still unique in the table. *)
Definition settled {Json : Type} (table : list (UserSettings.t Json))
    (current_user : User.t) (table' : list (UserSettings.t Json))
    (row : UserSettings.t Json) : Prop :=
  find_settings table' (User.user_id current_user) = Some row
  /\ UserSettings.user_id row = User.user_id current_user
  /\ (forall other, other <> User.user_id current_user ->
                    find_settings table' other = find_settings table other)
  /\ NoDup (map UserSettings.setting_id table')
  /\ NoDup (map UserSettings.user_id table').

(** The project-move block of [update_task] lets the principal move the
    task to [destination]: the principal is no project manager, or created
    the destination and, when it is stored, the task's current project. *)
Definition may_move (db : Db) (current_user : User.t) (task : Task.t)
    (destination : Project.t) : Prop :=
  User.role current_user <> Some "project_manager"
  \/ (Project.created_by destination = Some (User.user_id current_user)
      /\ forall current,
           find_project db (Some (Task.project_id task)) = Some current ->
           Project.created_by current = Some (User.user_id current_user)).

(** The change set passes the project-move block: it names no project,
    or a stored one to which the principal may move the task. *)
Definition passes_move_block (db : Db) (current_user : User.t)
    (task : Task.t) (u : TaskUpdate.t) : Prop :=
  forall b, TaskUpdate.project_id u = Some (Some b) ->
            exists destination,
              find_project db (Some b) = Some destination
              /\ may_move db current_user task destination.

(** *** Sequences of write operations *)

Inductive Op : Type :=
| CreateTask (current_user : User.t) (task : TaskCreate.t)
| UpdateTask (current_user : User.t) (task_id : Z) (task_update : TaskUpdate.t)
| UpdateProject (current_user : User.t) (project_id : Z)
                (project_update : ProjectUpdate.t).

(** The database after a request: the committed one, or the old one when
    the endpoint raised. *)
Definition db_after {A : Type} (db : Db) (r : result (Db * A)) : Db :=
  match r with
  | Ok (db', _) => db'
  | Raise _ => db
  end.

Definition step (db : Db) (op : Op) : Db :=
  match op with
  | CreateTask cu task => db_after db (create_task db cu task)
  | UpdateTask cu tid u => db_after db (update_task db cu tid u)
  | UpdateProject cu pid u => db_after db (update_project db cu pid u)
  end.

Definition run (db : Db) (ops : list Op) : Db := fold_left step ops db.

(** A project update keeps the assignees when it leaves the team alone or
    when the new team still holds every user who has a task of the
    project. *)
Definition keeps_assignees (db : Db) (op : Op) : Prop :=
  match op with
  | UpdateProject _ pid u =>
      match ProjectUpdate.assigned_user_ids u with
      | Some user_ids =>
          forall t a, In t (tasks db) -> Task.project_id t = pid ->
                      Task.assigned_to t = Some a -> In a user_ids
      | None => True
      end
  | _ => True
  end.

Fixpoint all_keep_assignees (db : Db) (ops : list Op) : Prop :=
  match ops with
  | [] => True
  | op :: rest => keeps_assignees db op /\ all_keep_assignees (step db op) rest
  end.

(** ** A small yard: the data used by the examples *)

Module Yard.

Definition user (id : Z) (email name : string) (role : option string)
    : User.t :=
  User.mk id email name role None (Some true).

Definition alice : User.t :=
  user 1 "alice@yard.example" "Alice Admin" (Some "admin").
Definition pat : User.t :=
  user 2 "pat@yard.example" "Pat Manager" (Some "project_manager").
Definition eve : User.t :=
  user 3 "eve@yard.example" "Eve Engineer" (Some "engineer").
Definition tom : User.t :=
  user 4 "tom@yard.example" "Tom Technician" (Some "technician").
Definition finn : User.t :=
  user 5 "finn@yard.example" "Finn Fitter" (Some "engineer").
Definition quinn : User.t :=
  user 8 "quinn@yard.example" "Quinn Manager" (Some "project_manager").
Definition ghost : User.t :=
  user 6 "gus@yard.example" "Gus Guest" (Some "guest").
Definition nobody : User.t := user 7 "nora@yard.example" "Nora Norole" None.

Definition project (id : Z) (name : string) (creator : Z) : Project.t :=
  Project.mk id name None None None None None (Some planning) None
             (Some creator).

Definition hull : Project.t := project 1 "Hull refit" 2.
Definition engine : Project.t := project 2 "Engine swap" 2.

Definition task (id pid : Z) (name : string) (assignee : option Z)
    (st : TaskStatus) : Task.t :=
  Task.mk id pid name None assignee (Some medium) (Some st) (Some false)
          None None None.

Definition blueprint (id pid : Z) (path : string) : Blueprint.t :=
  Blueprint.mk id pid path path path None None (Some "1.0") None 3
               (Some true).

(** Eve and Tom are on the hull team, Finn on the engine team; Eve holds
    two tasks, Tom and Finn one each, and one task is unassigned. *)
Definition db : Db :=
  {| users := [alice; pat; eve; tom; finn];
     project_assignments :=
       [ProjectAssignment.mk 1 1 3; ProjectAssignment.mk 2 1 4;
        ProjectAssignment.mk 3 2 5];
     projects := [hull; engine];
     tasks :=
       [task 1 1 "Sand hull" (Some 3) pending;
        task 2 1 "Paint hull" (Some 4) in_progress;
        task 3 1 "Inspect welds" (Some 3) completed;
        task 4 2 "Lift engine" (Some 5) pending;
        task 5 2 "Order gaskets" None pending];
     inventory :=
       [Inventory.mk 1 "Gasket" (Some 5) (Some 10);
        Inventory.mk 2 "Primer" (Some 20) (Some 10)];
     blueprints :=
       [blueprint 1 1 "uploads/blueprints/hull.pdf";
        blueprint 2 2 "uploads/blueprints/engine.pdf"] |}.

Definition files : list string :=
  ["uploads/blueprints/hull.pdf"; "uploads/blueprints/engine.pdf"].

Definition move_to (pid : Z) : TaskUpdate.t :=
  TaskUpdate.mk (Some (Some pid)) None None None None None None None None
                None.

Definition move_and_reassign (pid uid : Z) : TaskUpdate.t :=
  TaskUpdate.mk (Some (Some pid)) None None (Some (Some uid)) None None None
                None None None.

Definition set_status (st : TaskStatus) : TaskUpdate.t :=
  TaskUpdate.mk None None None None None (Some (Some st)) None None None
                None.


(** The change set of the request body [{"version": null}]. *)
Definition null_version : BlueprintUpdate.t :=
  BlueprintUpdate.mk None (Some None) None.

Definition new_team (user_ids : list Z) : ProjectUpdate.t :=
  ProjectUpdate.mk None None None None None None None None (Some user_ids).

Definition rename (name : string) : ProjectUpdate.t :=
  ProjectUpdate.mk (Some (Some name)) None None None None None None None
                   None.

(** The manager of the hull project replaces its team by Tom alone. *)
Definition replace_hull_team : list Op :=
  [UpdateProject pat 1 (new_team [4])].

Definition new_task (pid : Z) (assignee : option Z) : TaskCreate.t :=
  TaskCreate.mk pid "Check seals" None assignee medium pending false None
                None.

End Yard.

(** The settings table used by the examples. *)
Module Cabin.
(** Eve has chosen the dark theme; Tom has no settings yet. *)
Definition table : list (UserSettings.t string) :=
  [UserSettings.mk 1 3 (Some dark) (Some "en") (Some "UTC")
                   (Some "YYYY-MM-DD") (Some true) (Some false) None
                   (Some 25)].

Definition fifty_per_page : UserSettingsUpdate.t string :=
  UserSettingsUpdate.mk None None None None None None None (Some (Some 50)).
End Cabin.

(** * Properties *)

(** ** Lookups *)

Section ByKey.
Context {A : Type} (key : A -> Z).

Lemma find_key_none (v : Z) (rows : list A) :
  find (fun r => key r =? v) rows = None <-> ~ In v (map key rows).
Proof.
  induction rows as [|r rows IH]; simpl.
  - tauto.
  - destruct (Z.eqb_spec (key r) v) as [E|E].
    + split; [discriminate | intros H; exfalso; apply H; now left].
    + rewrite IH. tauto.
Qed.

Lemma find_key_some (v : Z) (rows : list A) (r : A) :
  find (fun r => key r =? v) rows = Some r -> In r rows /\ key r = v.
Proof.
  intros H. apply find_some in H. destruct H as [Hin Hk].
  apply Z.eqb_eq in Hk. now split.
Qed.

Lemma in_replace_first (v : Z) (new x : A) (rows : list A) :
  In x (replace_first (fun r => key r =? v) new rows) ->
  x = new \/ In x rows.
Proof.
  induction rows as [|r rows IH]; simpl; [tauto|].
  destruct (key r =? v); simpl; intros [H|H]; auto.
  destruct (IH H); auto.
Qed.

Lemma replace_first_keys (v : Z) (new : A) (rows : list A) :
  key new = v ->
  map key (replace_first (fun r => key r =? v) new rows) = map key rows.
Proof.
  intros Hk. induction rows as [|r rows IH]; simpl; [reflexivity|].
  destruct (Z.eqb_spec (key r) v) as [E|E]; simpl.
  - now rewrite Hk, E.
  - now rewrite IH.
Qed.

Lemma find_replace_first (v : Z) (new old : A) (rows : list A) :
  key new = v ->
  find (fun r => key r =? v) rows = Some old ->
  find (fun r => key r =? v) (replace_first (fun r => key r =? v) new rows)
  = Some new.
Proof.
  intros Hk. induction rows as [|r rows IH]; simpl; [discriminate|].
  destruct (Z.eqb_spec (key r) v) as [E|E]; simpl.
  - intros _. rewrite Hk, Z.eqb_refl. reflexivity.
  - intros H. destruct (Z.eqb_spec (key r) v); [contradiction|]. now apply IH.
Qed.
End ByKey.

Lemma find_user_none (db : Db) (uid : Z) :
  find_user db uid = None <-> ~ user_exists db uid.
Proof. apply find_key_none. Qed.

Lemma find_project_none (db : Db) (pid : Z) :
  find_project db (Some pid) = None <-> ~ project_exists db pid.
Proof. apply (find_key_none Project.project_id). Qed.

Lemma is_assigned_iff (db : Db) (pid uid : Z) :
  is_assigned db (Some pid) uid = true <-> team_member db pid uid.
Proof.
  unfold is_assigned, team_member. rewrite existsb_exists.
  split; intros [a [Hin H]]; exists a; split; auto.
  - apply andb_true_iff in H. destruct H as [H1 H2].
    apply Z.eqb_eq in H1. apply Z.eqb_eq in H2. now split.
  - destruct H as [-> ->]. now rewrite !Z.eqb_refl.
Qed.

Lemma is_assigned_false (db : Db) (pid uid : Z) :
  is_assigned db (Some pid) uid = false <-> ~ team_member db pid uid.
Proof.
  rewrite <- is_assigned_iff. destruct (is_assigned db (Some pid) uid).
  - split; [discriminate | intros H; now elim H].
  - split; [discriminate | reflexivity].
Qed.

Lemma opt_eqb_true (c : option Z) (v : Z) : opt_eqb c v = true <-> c = Some v.
Proof.
  destruct c as [x|]; simpl.
  - rewrite Z.eqb_eq. split; congruence.
  - split; discriminate.
Qed.

Lemma in_true (x : Z) (values : list Z) : in_ x values = true <-> In x values.
Proof.
  unfold in_. rewrite existsb_exists. split.
  - intros [y [Hin E]]. apply Z.eqb_eq in E. now subst.
  - intros Hin. exists x. now rewrite Z.eqb_refl.
Qed.

Lemma paginate_all {A : Type} (limit : nat) (rows : list A) :
  (List.length rows <= limit)%nat -> paginate 0 limit rows = rows.
Proof. intros H. unfold paginate. simpl. now apply firstn_all2. Qed.

(** ** Lists built in a loop *)

Section ForEach.
Context {A B : Type} (f : A -> result B).

Lemma for_each_ok (xs : list A) (ys : list B) :
  for_each f xs = Ok ys <-> Forall2 (fun x y => f x = Ok y) xs ys.
Proof.
  revert ys. induction xs as [|x xs IH]; intros ys; simpl.
  - split.
    + intros H. injection H as <-. constructor.
    + intros H. inversion H. reflexivity.
  - destruct (f x) as [y|e] eqn:Ex; simpl.
    + destruct (for_each f xs) as [zs|e] eqn:Er; simpl.
      * split.
        -- intros H. injection H as <-. constructor; [exact Ex|].
           now apply IH.
        -- intros H. inversion H as [|? y' ? zs' Hy Hzs]; subst.
           apply IH in Hzs. congruence.
      * split; [discriminate|].
        intros H. inversion H as [|? y' ? zs' Hy Hzs]; subst.
        apply IH in Hzs. discriminate Hzs.
    + split; [discriminate|].
      intros H. inversion H as [|? y' ? zs' Hy Hzs]; subst. congruence.
Qed.

Lemma for_each_raise (xs : list A) (e : Exn) :
  for_each f xs = Raise e -> exists x, In x xs /\ f x = Raise e.
Proof.
  induction xs as [|x xs IH]; simpl; [discriminate|].
  destruct (f x) as [y|e'] eqn:Ex; simpl.
  - destruct (for_each f xs) as [zs|e'] eqn:Er; simpl; [discriminate|].
    intros H. injection H as ->. destruct (IH eq_refl) as (x' & Hin & Hx).
    exists x'. split; [now right | exact Hx].
  - intros H. injection H as ->. exists x. split; [now left | exact Ex].
Qed.

Lemma for_each_in (xs : list A) (ys : list B) (y : B) :
  for_each f xs = Ok ys -> In y ys -> exists x, In x xs /\ f x = Ok y.
Proof.
  intros H. apply for_each_ok in H.
  induction H as [|x y' xs ys Hy _ IH]; simpl; [contradiction|].
  intros [->|Hin].
  - exists x. split; [now left | exact Hy].
  - destruct (IH Hin) as (x' & Hx' & E). exists x'. split; [now right|exact E].
Qed.

Lemma for_each_all_ok (xs : list A) (ys : list B) (x : A) :
  for_each f xs = Ok ys -> In x xs -> exists y, In y ys /\ f x = Ok y.
Proof.
  intros H. apply for_each_ok in H.
  induction H as [|x' y xs ys Hy _ IH]; simpl; [contradiction|].
  intros [->|Hin].
  - exists y. split; [now left | exact Hy].
  - destruct (IH Hin) as (y' & Hy' & E). exists y'. split; [now right|exact E].
Qed.

Lemma for_each_length (xs : list A) (ys : list B) :
  for_each f xs = Ok ys -> List.length ys = List.length xs.
Proof.
  intros H. apply for_each_ok in H. symmetry.
  exact (Forall2_length H).
Qed.

(** When every element is accepted, the loop returns. *)
Lemma for_each_returns (xs : list A) :
  (forall x, In x xs -> exists y, f x = Ok y) ->
  exists ys, for_each f xs = Ok ys.
Proof.
  induction xs as [|x xs IH]; simpl; intros H; [now exists []|].
  destruct (H x (or_introl eq_refl)) as (y & ->).
  destruct IH as (ys & ->); [intros x' Hx'; apply H; now right|].
  simpl. now eexists.
Qed.

(** When [f] raises nothing but [e] and refuses an element, the loop
    raises [e]. *)
Lemma for_each_refuses (xs : list A) (e : Exn) (x : A) :
  (forall x' e', f x' = Raise e' -> e' = e) ->
  In x xs -> f x = Raise e -> for_each f xs = Raise e.
Proof.
  intros Honly Hin Hx.
  destruct (for_each f xs) as [ys|e'] eqn:E.
  - destruct (for_each_all_ok _ _ _ E Hin) as (y & _ & Hy). congruence.
  - apply for_each_raise in E. destruct E as (x' & _ & Hx').
    now rewrite (Honly _ _ Hx').
Qed.

Context (g : B -> A).
Hypothesis g_f : forall x y, f x = Ok y -> g y = x.

(** When the response holds the row, the rows of the responses are the
    rows that went into the loop. *)
Lemma for_each_rows (xs : list A) (ys : list B) :
  for_each f xs = Ok ys -> map g ys = xs.
Proof.
  intros H. apply for_each_ok in H.
  induction H as [|x y xs ys Hy _ IH]; simpl; [reflexivity|].
  now rewrite (g_f _ _ Hy), IH.
Qed.

Lemma for_each_filter (p : A -> bool) (xs : list A) (ys : list B) :
  for_each f xs = Ok ys ->
  for_each f (filter p xs) = Ok (filter (fun y => p (g y)) ys).
Proof.
  intros H. apply for_each_ok in H. apply for_each_ok.
  induction H as [|x y xs ys Hy _ IH]; simpl; [constructor|].
  rewrite (g_f _ _ Hy). destruct (p x); [constructor|]; assumption.
Qed.
End ForEach.

(** ** Building the responses *)

Lemma serialisable_task_dec (t : Task.t) :
  serialisable_task t \/ ~ serialisable_task t.
Proof.
  unfold serialisable_task.
  destruct (Task.priority t), (Task.status t), (Task.is_maintenance t);
    try (left; repeat split; discriminate); right; intros (H1 & H2 & H3);
    congruence.
Qed.

(** [enrich_task] returns the row it was given, with the two names, when
    the row is serialisable, and raises a validation error otherwise. *)
Lemma enrich_task_returns (db : Db) (t : Task.t) :
  serialisable_task t ->
  exists r, enrich_task db t = Ok r /\ TaskResponse.task r = t.
Proof.
  unfold serialisable_task, enrich_task, TaskResponse.from_orm.
  intros (Hp & Hs & Hm).
  destruct (Task.priority t); [|congruence].
  destruct (Task.status t); [|congruence].
  destruct (Task.is_maintenance t); [|congruence].
  simpl. eexists. split; reflexivity.
Qed.

Lemma enrich_task_refuses (db : Db) (t : Task.t) :
  ~ serialisable_task t -> enrich_task db t = Raise ValidationError.
Proof.
  unfold serialisable_task, enrich_task, TaskResponse.from_orm. intros H.
  destruct (Task.priority t), (Task.status t), (Task.is_maintenance t);
    try reflexivity.
  elim H. repeat split; discriminate.
Qed.

Lemma enrich_task_ok (db : Db) (t : Task.t) (r : TaskResponse.t) :
  enrich_task db t = Ok r -> TaskResponse.task r = t /\ serialisable_task t.
Proof.
  intros H. destruct (serialisable_task_dec t) as [Hs|Hs].
  - destruct (enrich_task_returns db t Hs) as (r' & E & Hr).
    split; [congruence | exact Hs].
  - rewrite (enrich_task_refuses db t Hs) in H. discriminate H.
Qed.

Lemma enrich_task_row (db : Db) (t : Task.t) (r : TaskResponse.t) :
  enrich_task db t = Ok r -> TaskResponse.task r = t.
Proof. intros H. exact (proj1 (enrich_task_ok _ _ _ H)). Qed.

Lemma enrich_task_only (db : Db) (t : Task.t) (e : Exn) :
  enrich_task db t = Raise e -> e = ValidationError.
Proof.
  intros H. destruct (serialisable_task_dec t) as [Hs|Hs].
  - destruct (enrich_task_returns db t Hs) as (r & E & _). congruence.
  - rewrite (enrich_task_refuses db t Hs) in H. congruence.
Qed.

Lemma serialisable_project_dec (p : Project.t) :
  serialisable_project p \/ ~ serialisable_project p.
Proof.
  unfold serialisable_project. destruct (Project.status p);
    [left; discriminate | right; congruence].
Qed.

Lemma enrich_project_returns (db : Db) (p : Project.t) :
  serialisable_project p ->
  exists r, enrich_project db p = Ok r /\ ProjectResponse.project r = p.
Proof.
  unfold serialisable_project, enrich_project, ProjectResponse.from_orm.
  intros Hs. destruct (Project.status p); [|congruence].
  simpl. eexists. split; reflexivity.
Qed.

Lemma enrich_project_refuses (db : Db) (p : Project.t) :
  ~ serialisable_project p -> enrich_project db p = Raise ValidationError.
Proof.
  unfold serialisable_project, enrich_project, ProjectResponse.from_orm.
  intros H. destruct (Project.status p); [|reflexivity].
  elim H. discriminate.
Qed.

Lemma enrich_project_ok (db : Db) (p : Project.t) (r : ProjectResponse.t) :
  enrich_project db p = Ok r ->
  ProjectResponse.project r = p /\ serialisable_project p.
Proof.
  intros H. destruct (serialisable_project_dec p) as [Hs|Hs].
  - destruct (enrich_project_returns db p Hs) as (r' & E & Hr).
    split; [congruence | exact Hs].
  - rewrite (enrich_project_refuses db p Hs) in H. discriminate H.
Qed.

Lemma enrich_project_row (db : Db) (p : Project.t) (r : ProjectResponse.t) :
  enrich_project db p = Ok r -> ProjectResponse.project r = p.
Proof. intros H. exact (proj1 (enrich_project_ok _ _ _ H)). Qed.

Lemma enrich_project_only (db : Db) (p : Project.t) (e : Exn) :
  enrich_project db p = Raise e -> e = ValidationError.
Proof.
  intros H. destruct (serialisable_project_dec p) as [Hs|Hs].
  - destruct (enrich_project_returns db p Hs) as (r & E & _). congruence.
  - rewrite (enrich_project_refuses db p Hs) in H. congruence.
Qed.

(** The response of [create_project] and [update_project]: the project
    with the user ids of its assignment rows. *)
Lemma with_assigned_users_returns (db : Db) (p : Project.t) :
  serialisable_project p ->
  exists r,
    with_assigned_users db p = Ok r
    /\ ProjectResponse.project r = p
    /\ ProjectResponse.assigned_users r
       = map ProjectAssignment.user_id (assignments_of db p).
Proof.
  unfold serialisable_project, with_assigned_users, ProjectResponse.from_orm.
  intros Hs. destruct (Project.status p); [|congruence].
  simpl. eexists. repeat split.
Qed.

Lemma with_assigned_users_refuses (db : Db) (p : Project.t) :
  ~ serialisable_project p -> with_assigned_users db p = Raise ValidationError.
Proof.
  unfold serialisable_project, with_assigned_users, ProjectResponse.from_orm.
  intros H. destruct (Project.status p); [|reflexivity].
  elim H. discriminate.
Qed.

Lemma with_assigned_users_ok (db : Db) (p : Project.t)
    (r : ProjectResponse.t) :
  with_assigned_users db p = Ok r ->
  ProjectResponse.project r = p
  /\ ProjectResponse.assigned_users r
     = map ProjectAssignment.user_id (assignments_of db p)
  /\ serialisable_project p.
Proof.
  intros H. destruct (serialisable_project_dec p) as [Hs|Hs].
  - destruct (with_assigned_users_returns db p Hs) as (r' & E & Hr & Hu).
    repeat split; congruence.
  - rewrite (with_assigned_users_refuses db p Hs) in H. discriminate H.
Qed.

Lemma serialisable_blueprint_dec (b : Blueprint.t) :
  serialisable_blueprint b \/ ~ serialisable_blueprint b.
Proof.
  unfold serialisable_blueprint.
  destruct (Blueprint.version b), (Blueprint.is_active b);
    try (left; split; discriminate); right; intros [H1 H2]; congruence.
Qed.

Lemma with_uploader_returns (db : Db) (b : Blueprint.t) :
  serialisable_blueprint b ->
  with_uploader db b
  = Ok (BlueprintSchema.mk b (Some (uploader_name_of db b))).
Proof.
  unfold serialisable_blueprint, with_uploader, BlueprintSchema.from_orm.
  intros (Hv & Ha).
  destruct (Blueprint.version b); [|congruence].
  destruct (Blueprint.is_active b); [|congruence].
  reflexivity.
Qed.

Lemma with_uploader_refuses (db : Db) (b : Blueprint.t) :
  ~ serialisable_blueprint b -> with_uploader db b = Raise ValidationError.
Proof.
  unfold serialisable_blueprint, with_uploader, BlueprintSchema.from_orm.
  intros H. destruct (Blueprint.version b), (Blueprint.is_active b);
    try reflexivity.
  elim H. split; discriminate.
Qed.

Lemma with_uploader_ok (db : Db) (b : Blueprint.t) (r : BlueprintSchema.t) :
  with_uploader db b = Ok r ->
  r = BlueprintSchema.mk b (Some (uploader_name_of db b))
  /\ serialisable_blueprint b.
Proof.
  intros H. destruct (serialisable_blueprint_dec b) as [Hs|Hs].
  - rewrite (with_uploader_returns db b Hs) in H. injection H as <-.
    now split.
  - rewrite (with_uploader_refuses db b Hs) in H. discriminate H.
Qed.

Lemma with_uploader_row (db : Db) (b : Blueprint.t) (r : BlueprintSchema.t) :
  with_uploader db b = Ok r -> BlueprintSchema.blueprint r = b.
Proof. intros H. apply with_uploader_ok in H. destruct H as [-> _]. reflexivity. Qed.

Lemma with_uploader_only (db : Db) (b : Blueprint.t) (e : Exn) :
  with_uploader db b = Raise e -> e = ValidationError.
Proof.
  intros H. destruct (serialisable_blueprint_dec b) as [Hs|Hs].
  - rewrite (with_uploader_returns db b Hs) in H. discriminate H.
  - rewrite (with_uploader_refuses db b Hs) in H. congruence.
Qed.

(** ** Assignment validation (tasks.py, [validate_task_assignment]) *)

(** An assignee that passed validation is on the team of the project. *)
Lemma validate_ok_member (db : Db) (pid : option Z) (uid : Z) :
  validate_task_assignment db pid (Some uid) = Ok tt ->
  exists p, pid = Some p /\ team_member db p uid.
Proof.
  unfold validate_task_assignment.
  destruct (find_user db uid); [|discriminate].
  destruct (find_project db pid) eqn:Ep; [|discriminate].
  destruct (is_assigned db pid uid) eqn:Ea; [|discriminate].
  intros _. destruct pid as [p|]; [|discriminate].
  exists p. split; [reflexivity|]. now apply is_assigned_iff.
Qed.

Lemma validate_not_member (db : Db) (pid uid : Z) (user : User.t)
    (project : Project.t) :
  find_user db uid = Some user ->
  find_project db (Some pid) = Some project ->
  ~ team_member db pid uid ->
  validate_task_assignment db (Some pid) (Some uid)
  = Raise (not_team_member (User.full_name user)
                           (Project.project_name project)).
Proof.
  intros Eu Ep Hm. apply is_assigned_false in Hm.
  unfold validate_task_assignment. now rewrite Eu, Ep, Hm.
Qed.

Lemma validate_member (db : Db) (pid uid : Z) :
  user_exists db uid -> project_exists db pid -> team_member db pid uid ->
  validate_task_assignment db (Some pid) (Some uid) = Ok tt.
Proof.
  intros Hu Hp Hm. unfold validate_task_assignment.
  destruct (find_user db uid) eqn:Eu.
  2:{ apply find_user_none in Eu. contradiction. }
  destruct (find_project db (Some pid)) eqn:Epr.
  2:{ apply find_project_none in Epr. contradiction. }
  apply is_assigned_iff in Hm. now rewrite Hm.
Qed.

(** C5. Validation succeeds whenever no assignee is proposed; with an
    assignee it raises 404 "User ... not found" when the user is not
    stored, 404 "Project ... not found" when the user is stored and the
    project is not, 400 naming the user and the project when both are
    stored and the user is not on the team, and it returns normally exactly
    when the user and the project are stored and the user is on the
    project's team; when the assignment rows reference stored users and
    projects, that is exactly when the user is on the project's team. *)
Theorem validate_task_assignment_spec (db : Db) (project_id : Z) :
  validate_task_assignment db (Some project_id) None = Ok tt
  /\ (forall uid, ~ user_exists db uid ->
        validate_task_assignment db (Some project_id) (Some uid)
        = Raise (HTTPException 404
                   ("User with ID " ++ fmt_int (Some uid) ++ " not found")))
  /\ (forall uid, user_exists db uid -> ~ project_exists db project_id ->
        validate_task_assignment db (Some project_id) (Some uid)
        = Raise (HTTPException 404
                   ("Project with ID " ++ fmt_int (Some project_id)
                    ++ " not found")))
  /\ (forall uid user project,
        find_user db uid = Some user ->
        find_project db (Some project_id) = Some project ->
        ~ team_member db project_id uid ->
        validate_task_assignment db (Some project_id) (Some uid)
        = Raise (HTTPException 400
                   ("User '" ++ User.full_name user
                    ++ "' is not assigned to project '"
                    ++ Project.project_name project
                    ++ "'. Only team members of this project can be assigned tasks.")))
  /\ (forall uid,
        validate_task_assignment db (Some project_id) (Some uid) = Ok tt
        <-> user_exists db uid /\ project_exists db project_id
            /\ team_member db project_id uid)
  /\ ((forall a, In a (project_assignments db) ->
                 user_exists db (ProjectAssignment.user_id a)
                 /\ project_exists db (ProjectAssignment.project_id a)) ->
      forall uid,
        validate_task_assignment db (Some project_id) (Some uid) = Ok tt
        <-> team_member db project_id uid).
Proof.
  split; [reflexivity|].
  split; [|split; [|split; [|split]]].
  - intros uid Hu. apply find_user_none in Hu.
    unfold validate_task_assignment. now rewrite Hu.
  - intros uid Hu Hp. apply find_project_none in Hp.
    unfold validate_task_assignment.
    destruct (find_user db uid) eqn:Eu.
    + now rewrite Hp.
    + apply find_user_none in Eu. contradiction.
  - intros uid user project Eu Ep Hm. now apply validate_not_member.
  - intros uid. split.
    + intros H. pose proof (validate_ok_member _ _ _ H) as [p [Ep Hm]].
      injection Ep as <-. unfold validate_task_assignment in H.
      destruct (find_user db uid) eqn:Eu; [|discriminate].
      destruct (find_project db (Some project_id)) eqn:Epr; [|discriminate].
      repeat split; auto.
      * destruct (find_key_some User.user_id _ _ _ Eu) as [Hin Hk].
        unfold user_exists. rewrite <- Hk. now apply in_map.
      * destruct (find_key_some Project.project_id _ _ _ Epr) as [Hin Hk].
        unfold project_exists. rewrite <- Hk. now apply in_map.
    + intros (Hu & Hp & Hm). now apply validate_member.
  - intros Href uid. split.
    + intros H. apply validate_ok_member in H. destruct H as (p & Ep & Hm).
      now injection Ep as <-.
    + intros Hm. destruct Hm as (a & Hin & Hp & Hu).
      destruct (Href a Hin) as [Huser Hproject]. rewrite Hp in Hproject.
      rewrite Hu in Huser. apply validate_member; auto.
      now exists a.
Qed.

Lemma validate_task_assignment_spec_witness :
  validate_task_assignment Yard.db (Some 1) None = Ok tt
  /\ validate_task_assignment Yard.db (Some 1) (Some 9)
     = Raise (HTTPException 404 "User with ID 9 not found")
  /\ validate_task_assignment Yard.db (Some 8) (Some 3)
     = Raise (HTTPException 404 "Project with ID 8 not found")
  /\ validate_task_assignment Yard.db (Some 1) (Some 5)
     = Raise (HTTPException 400
                "User 'Finn Fitter' is not assigned to project 'Hull refit'. Only team members of this project can be assigned tasks.")
  /\ validate_task_assignment Yard.db (Some 1) (Some 3) = Ok tt.
Proof.
  destruct (validate_task_assignment_spec Yard.db 1)
    as (Hnone & Huser & _ & Hteam & _ & Hok).
  destruct (validate_task_assignment_spec Yard.db 8)
    as (_ & _ & Hproject & _ & _ & _).
  split; [exact Hnone|].
  split.
  { apply (Huser 9). unfold user_exists. simpl. intuition discriminate. }
  split.
  { apply (Hproject 3).
    - unfold user_exists. simpl. intuition.
    - unfold project_exists. simpl. intuition discriminate. }
  split.
  { apply (Hteam 5 Yard.finn Yard.hull); try reflexivity.
    apply is_assigned_false. reflexivity. }
  apply Hok.
  - intros a Hin. unfold user_exists, project_exists. simpl in Hin |- *.
    repeat (destruct Hin as [<-|Hin]; [simpl; intuition|]). contradiction.
  - apply is_assigned_iff. reflexivity.
Defined.

(** The three failures of validation are told apart by status code or by
    the first word of the detail. *)
Lemma assignment_errors_distinct (uid : Z) (pid : option Z)
    (full_name project_name : string) :
  user_not_found uid <> project_not_found pid
  /\ user_not_found uid <> not_team_member full_name project_name
  /\ project_not_found pid <> not_team_member full_name project_name.
Proof. repeat split; discriminate. Qed.

(** ** Task visibility (tasks.py, [get_tasks]) *)

Lemma engineer_or_technician_branch (u : User.t) :
  engineer_or_technician u ->
  role_is u "admin" = false /\ role_is u "project_manager" = false
  /\ role_in u ["engineer"; "technician"] = true.
Proof. unfold role_is, role_in, role_is. intros [E|E]; simpl; rewrite E; auto. Qed.

Lemma get_tasks_query_length (db : Db) (cu : User.t) :
  (List.length (get_tasks_query db cu) <= List.length (tasks db))%nat.
Proof.
  unfold get_tasks_query.
  destruct (role_is cu "admin"); [lia|].
  destruct (role_is cu "project_manager"); apply filter_length_le.
Qed.

(** Without project filter and with a page that covers the table, the
    loop of [get_tasks] runs over the rows of the role's query. *)
Lemma get_tasks_unpaged (db : Db) (cu : User.t) (limit : nat) :
  (List.length (tasks db) <= limit)%nat ->
  get_tasks db cu None 0 limit
  = for_each (enrich_task db) (get_tasks_query db cu).
Proof.
  intros Hlimit. unfold get_tasks. simpl truthy. cbv iota.
  rewrite paginate_all; [reflexivity|].
  etransitivity; [apply get_tasks_query_length | exact Hlimit].
Qed.

(** A loop of [enrich_task] returns the rows it ran over when all of them
    are serialisable, and raises a validation error otherwise. *)
Lemma enrich_tasks_returns (db : Db) (rows : list Task.t) :
  (forall t, In t rows -> serialisable_task t) ->
  exists rs, for_each (enrich_task db) rows = Ok rs
             /\ map TaskResponse.task rs = rows.
Proof.
  intros Hall.
  destruct (for_each_returns (enrich_task db) rows) as (rs & E).
  - intros t Ht. destruct (enrich_task_returns db t (Hall t Ht)) as (r & Hr & _).
    now exists r.
  - exists rs. split; [exact E|].
    exact (for_each_rows _ _ (enrich_task_row db) _ _ E).
Qed.

Lemma enrich_tasks_refuses (db : Db) (rows : list Task.t) (t : Task.t) :
  In t rows -> ~ serialisable_task t ->
  for_each (enrich_task db) rows = Raise ValidationError.
Proof.
  intros Hin Hs.
  apply for_each_refuses with (x := t); [|exact Hin|].
  - intros t' e'. apply enrich_task_only.
  - now apply enrich_task_refuses.
Qed.

Lemma enrich_tasks_ok (db : Db) (rows : list Task.t)
    (rs : list TaskResponse.t) :
  for_each (enrich_task db) rows = Ok rs ->
  map TaskResponse.task rs = rows
  /\ forall t, In t rows -> serialisable_task t.
Proof.
  intros E. split; [exact (for_each_rows _ _ (enrich_task_row db) _ _ E)|].
  intros t Ht. destruct (for_each_all_ok _ _ _ _ E Ht) as (r & _ & Hr).
  exact (proj2 (enrich_task_ok _ _ _ Hr)).
Qed.




(** ** Dashboard (dashboard.py, [get_dashboard_stats]) *)

(** C9. When the principal's role is missing or is none of [admin],
    [project_manager], [engineer], [technician], the stats endpoint raises
    (500 for a missing role, 403 for an unknown one) and returns no
    counts. *)
Theorem get_dashboard_stats_fail_closed (db : Db) (current_user : User.t) :
  (forall r, User.role current_user = Some r -> ~ In r recognised_roles) ->
  (exists status_code detail,
      get_dashboard_stats db current_user
      = Raise (HTTPException status_code detail)
      /\ (status_code = 500 \/ status_code = 403))
  /\ forall stats, get_dashboard_stats db current_user <> Ok stats.
Proof.
  intros Hrole.
  assert (H : exists status_code detail,
             get_dashboard_stats db current_user
             = Raise (HTTPException status_code detail)
             /\ (status_code = 500 \/ status_code = 403)).
  { unfold get_dashboard_stats.
    destruct (User.role current_user) as [r|] eqn:Er.
    - specialize (Hrole r eq_refl). unfold recognised_roles in Hrole.
      simpl in Hrole. unfold role_counts.
      destruct (String.eqb_spec r "admin") as [->|_]; [tauto|].
      destruct (String.eqb_spec r "project_manager") as [->|_]; [tauto|].
      simpl existsb.
      destruct (String.eqb_spec r "engineer") as [->|_]; [tauto|].
      destruct (String.eqb_spec r "technician") as [->|_]; [tauto|].
      simpl. eexists _, _. split; [reflexivity | now right].
    - eexists _, _. split; [reflexivity | now left]. }
  split; [exact H|].
  destruct H as (c & d & -> & _). discriminate.
Qed.

Lemma get_dashboard_stats_fail_closed_witness :
  get_dashboard_stats Yard.db Yard.ghost
  = Raise (HTTPException 403 "Invalid user role: guest")
  /\ get_dashboard_stats Yard.db Yard.nobody
     = Raise (HTTPException 500 "User role not properly set")
  /\ (forall stats, get_dashboard_stats Yard.db Yard.ghost <> Ok stats)
  /\ (forall stats, get_dashboard_stats Yard.db Yard.nobody <> Ok stats).
Proof.
  assert (Hghost : forall r, User.role Yard.ghost = Some r ->
                             ~ In r recognised_roles).
  { intros r E. injection E as <-. simpl. intuition discriminate. }
  assert (Hnobody : forall r, User.role Yard.nobody = Some r ->
                              ~ In r recognised_roles).
  { intros r E. discriminate E. }
  split; [reflexivity|]. split; [reflexivity|]. split.
  - exact (proj2 (get_dashboard_stats_fail_closed Yard.db Yard.ghost Hghost)).
  - exact (proj2 (get_dashboard_stats_fail_closed Yard.db Yard.nobody Hnobody)).
Defined.

(** ** Blueprints (blueprints.py) *)

Lemma in_paginate {A : Type} (skip limit : nat) (rows : list A) (x : A) :
  In x (paginate skip limit rows) -> In x rows.
Proof.
  unfold paginate. intros H.
  rewrite <- (firstn_skipn skip rows). apply in_or_app. right.
  rewrite <- (firstn_skipn limit (skipn skip rows)). apply in_or_app.
  now left.
Qed.

(** With unique keys, the rewritten row is the only one with its key. *)
Lemma replace_first_only {A : Type} (key : A -> Z) (v : Z) (new old x : A)
    (rows : list A) :
  NoDup (map key rows) ->
  find (fun r => key r =? v) rows = Some old ->
  In x (replace_first (fun r => key r =? v) new rows) ->
  key x = v -> x = new.
Proof.
  induction rows as [|r rows IH]; simpl; [discriminate|].
  intros Hnd Hfind Hin Hk. inversion Hnd as [|? ? Hnotin Hnd']; subst.
  destruct (Z.eqb_spec (key r) (key x)) as [E|E].
  - destruct Hin as [<-|Hin]; [reflexivity|].
    exfalso. apply Hnotin. rewrite E. now apply in_map.
  - destruct Hin as [<-|Hin]; [congruence|]. now apply IH.
Qed.

Lemma find_replace_first_other {A : Type} (key : A -> Z) (v other : Z)
    (new : A) (rows : list A) :
  key new = v -> other <> v ->
  find (fun x => key x =? other)
       (replace_first (fun x => key x =? v) new rows)
  = find (fun x => key x =? other) rows.
Proof.
  intros Hk Hne. induction rows as [|r rows IH]; simpl; [reflexivity|].
  destruct (Z.eqb_spec (key r) v) as [E|E]; simpl.
  - rewrite Hk, E.
    destruct (Z.eqb_spec v other); [congruence | reflexivity].
  - now rewrite IH.
Qed.

(** The rows that the loop of [get_blueprints] runs over are stored rows
    with [is_active] true. *)
Lemma get_blueprints_rows (db : Db) (reader : User.t) (project_id : option Z)
    (skip limit : nat) :
  exists rows,
    get_blueprints db reader project_id skip limit
    = for_each (with_uploader db) rows
    /\ forall b, In b rows ->
                 In b (blueprints db) /\ Blueprint.is_active b = Some true.
Proof.
  unfold get_blueprints. eexists. split; [reflexivity|].
  intros b Hb. apply in_paginate in Hb.
  assert (Hact : In b (filter active (blueprints db))).
  { destruct (role_in reader ["engineer"; "technician"]);
      destruct (truthy project_id);
      repeat match type of Hb with
             | In _ (filter active _) => fail 1
             | In _ (filter _ _) => apply filter_In in Hb; destruct Hb as [Hb _]
             end;
      exact Hb. }
  apply filter_In in Hact. destruct Hact as [Hin Ha]. split; [exact Hin|].
  unfold active in Ha. destruct (Blueprint.is_active b) as [[|]|];
    congruence.
Qed.

(** Whatever the reader, the filter and the page, a listed blueprint is a
    stored row with [is_active] true. *)
Lemma get_blueprints_active (db : Db) (reader : User.t) (project_id : option Z)
    (skip limit : nat) (listed : list BlueprintSchema.t)
    (r : BlueprintSchema.t) :
  get_blueprints db reader project_id skip limit = Ok listed ->
  In r listed ->
  In (BlueprintSchema.blueprint r) (blueprints db)
  /\ Blueprint.is_active (BlueprintSchema.blueprint r) = Some true.
Proof.
  destruct (get_blueprints_rows db reader project_id skip limit)
    as (rows & -> & Hrows).
  intros Hlisted Hin.
  destruct (for_each_in _ _ _ _ Hlisted Hin) as (b & Hb & Hr).
  rewrite (with_uploader_row _ _ _ Hr). now apply Hrows.
Qed.

Lemma yard_unique_blueprint_ids : unique_blueprint_ids Yard.db.
Proof.
  unfold unique_blueprint_ids. simpl.
  repeat constructor; simpl; intuition discriminate.
Qed.




(** ** Task update re-validates the assignment (tasks.py, [update_task]) *)

Lemma role_is_exact (cu : User.t) (r : string) :
  role_is cu r = true <-> User.role cu = Some r.
Proof.
  unfold role_is. destruct (User.role cu) as [x|].
  - rewrite String.eqb_eq. split; congruence.
  - split; discriminate.
Qed.

Lemma opt_eqb_false (c : option Z) (v : Z) : opt_eqb c v = false <-> c <> Some v.
Proof.
  rewrite <- opt_eqb_true. destruct (opt_eqb c v); split; congruence.
Qed.

(** The project-move block in terms of the stored data. *)
Lemma check_project_move_passes (db : Db) (cu : User.t) (task : Task.t)
    (u : TaskUpdate.t) :
  check_project_move db cu task u = Ok tt <-> passes_move_block db cu task u.
Proof.
  unfold check_project_move, passes_move_block, may_move.
  destruct (TaskUpdate.project_id u) as [[b|]|].
  2,3: split; [intros _ b E; discriminate E | reflexivity].
  destruct (find_project db (Some b)) as [destination|] eqn:Hdest.
  2:{ split; [discriminate|]. intros H.
      destruct (H b eq_refl) as (d & Hd & _). congruence. }
  destruct (role_is cu "project_manager") eqn:Hpm.
  2:{ split; [|reflexivity]. intros _ b' E. injection E as <-.
      exists destination. split; [exact Hdest|]. left. intros E.
      apply role_is_exact in E. congruence. }
  apply role_is_exact in Hpm.
  destruct (opt_eqb (Project.created_by destination) (User.user_id cu))
    eqn:Hown; simpl negb; cbv iota.
  2:{ split; [discriminate|]. intros H.
      destruct (H b eq_refl) as (d & Hd & [Hno|[Hby _]]); [contradiction|].
      rewrite Hdest in Hd. injection Hd as <-.
      apply opt_eqb_false in Hown. contradiction. }
  apply opt_eqb_true in Hown.
  destruct (find_project db (Some (Task.project_id task)))
    as [current|] eqn:Hcur.
  2:{ split; [|reflexivity]. intros _ b' E. injection E as <-.
      exists destination. split; [exact Hdest|]. right.
      split; [exact Hown|]. intros current E. discriminate E. }
  destruct (opt_eqb (Project.created_by current) (User.user_id cu)) eqn:Hc;
    simpl negb; cbv iota.
  - apply opt_eqb_true in Hc. split; [|reflexivity].
    intros _ b' E. injection E as <-. exists destination.
    split; [exact Hdest|]. right. split; [exact Hown|].
    intros current' E. now injection E as <-.
  - split; [discriminate|]. intros H.
    destruct (H b eq_refl) as (d & Hd & [Hno|[_ Hall]]); [contradiction|].
    apply opt_eqb_false in Hc. elim Hc. now apply Hall.
Qed.

(** A destination that is not stored is a 404, and a move that the block
    does not let through is a 403, whatever the rest of the change set. *)
Lemma check_project_move_refuses (db : Db) (cu : User.t) (task : Task.t)
    (u : TaskUpdate.t) (b : Z) :
  TaskUpdate.project_id u = Some (Some b) ->
  (find_project db (Some b) = None ->
   check_project_move db cu task u = Raise (project_not_found (Some b)))
  /\ (forall destination,
        find_project db (Some b) = Some destination ->
        ~ may_move db cu task destination ->
        exists detail,
          check_project_move db cu task u = Raise (HTTPException 403 detail)).
Proof.
  intros Hb. split.
  - intros Hnone. unfold check_project_move. now rewrite Hb, Hnone.
  - intros destination Hdest Hno.
    destruct (check_project_move db cu task u) as [[]|e] eqn:E.
    + apply check_project_move_passes in E.
      destruct (E b Hb) as (d & Hd & Hmay). congruence.
    + unfold check_project_move in E. rewrite Hb, Hdest in E.
      destruct (role_is cu "project_manager"); [|discriminate E].
      destruct (negb _).
      * injection E as <-. now eexists.
      * destruct (find_project db (Some (Task.project_id task)));
          [|discriminate E].
        destruct (negb _); [|discriminate E].
        injection E as <-. now eexists.
Qed.

(** Once the task is found and the project-move block has passed, an
    update that touches [assigned_to] or [project_id] is decided by the
    validation of the final project and the final assignee: the shortcut
    for an explicit null assignee agrees with it. *)
Lemma update_task_after_checks (db : Db) (current_user : User.t)
    (task_id : Z) (u : TaskUpdate.t) (task : Task.t) :
  find_task db task_id = Some task ->
  TaskUpdate.assigned_to u <> None \/ TaskUpdate.project_id u <> None ->
  check_project_move db current_user task u = Ok tt ->
  update_task db current_user task_id u
  = (validate_task_assignment db (final_project_id task u)
                              (final_assigned_to task u) ;;;
     task' <- apply_task_update task u ;;
     Ok (task_written db task_id task',
         enrich_task (task_written db task_id task') task')).
Proof.
  intros Hfind Htouch Hmove. unfold update_task. rewrite Hfind, Hmove.
  simpl bind. unfold check_assignment_change, final_assigned_to.
  destruct (TaskUpdate.assigned_to u) as [[a|]|] eqn:Ea; simpl; try reflexivity.
  destruct (TaskUpdate.project_id u) as [p|] eqn:Ep; simpl; [reflexivity|].
  destruct Htouch; congruence.
Qed.

Lemma apply_task_update_ok (task : Task.t) (u : TaskUpdate.t) :
  TaskUpdate.project_id u <> Some None ->
  TaskUpdate.task_name u <> Some None ->
  exists task',
    apply_task_update task u = Ok task'
    /\ Task.task_id task' = Task.task_id task
    /\ Some (Task.project_id task') = final_project_id task u
    /\ Task.assigned_to task' = final_assigned_to task u.
Proof.
  intros Hp Hn. unfold apply_task_update, final_project_id, final_assigned_to.
  destruct (TaskUpdate.project_id u) as [[p|]|]; [| congruence |];
    (destruct (TaskUpdate.task_name u) as [[n|]|]; [| congruence |]);
    simpl; eexists; repeat split.
Qed.

Lemma apply_task_update_null (task : Task.t) (u : TaskUpdate.t) :
  TaskUpdate.project_id u = Some None \/ TaskUpdate.task_name u = Some None ->
  apply_task_update task u = Raise IntegrityError.
Proof.
  unfold apply_task_update. intros [E|E]; rewrite E; simpl; [reflexivity|].
  now destruct (TaskUpdate.project_id u) as [[p|]|].
Qed.

Lemma find_task_written (db : Db) (task_id : Z) (task task' : Task.t) :
  find_task db task_id = Some task ->
  Task.task_id task' = Task.task_id task ->
  find_task (task_written db task_id task') task_id = Some task'.
Proof.
  intros Hfind Hid. unfold find_task, task_written. simpl.
  apply (find_replace_first Task.task_id) with (old := task); [|exact Hfind].
  destruct (find_key_some Task.task_id _ _ _ Hfind) as [_ Hk]. congruence.
Qed.

(** C6, as stated, fails: Quinn, a project manager who created neither
    project, moves Eve's hull task to the engine project, on whose team Eve
    is not; the update is refused by the project-move block with a 403
    before the assignment is validated, not with the 400 of a
    non-member. *)
Lemma manager_move_is_refused_before_validation :
  ~ (forall db current_user task_id u task b u1 user project,
        find_task db task_id = Some task ->
        TaskUpdate.project_id u = Some (Some b) ->
        TaskUpdate.assigned_to u = None ->
        Task.assigned_to task = Some u1 ->
        find_user db u1 = Some user ->
        find_project db (Some b) = Some project ->
        ~ team_member db b u1 ->
        update_task db current_user task_id u
        = Raise (not_team_member (User.full_name user)
                                 (Project.project_name project))).
Proof.
  intros H.
  specialize (H Yard.db Yard.quinn 1 (Yard.move_to 2)
                (Yard.task 1 1 "Sand hull" (Some 3) pending) 2 3
                Yard.eve Yard.engine eq_refl eq_refl eq_refl eq_refl eq_refl
                eq_refl).
  assert (Hnot : ~ team_member Yard.db 2 3)
    by (apply is_assigned_false; reflexivity).
  specialize (H Hnot). vm_compute in H. discriminate H.
Qed.

(** C6, amended. Let an update touch [assigned_to] or [project_id] of a
    stored task. The project-move block comes first: a destination that is
    not stored is a 404, and a project manager who did not create the
    destination, or the stored current project, gets a 403. When the
    change set passes that block, the assignment is validated against the
    final project (the new one when [project_id] is in the change set, else
    the current one) and the final assignee: a failure of that validation
    is the failure of the update; when it passes, a nulled required column
    is an integrity error, and otherwise the update is committed with the
    final project and assignee, and the response is the written row, or a
    validation error when a required field of the row is null. So such a
    move alone, to a project whose team lacks the current assignee, raises
    the 400 of a non-member, and a move that also reassigns to a stored
    member of the destination team is committed. *)
Theorem update_task_validates_final_assignment (db : Db)
    (current_user : User.t) (task_id : Z) (u : TaskUpdate.t) (task : Task.t) :
  find_task db task_id = Some task ->
  TaskUpdate.assigned_to u <> None \/ TaskUpdate.project_id u <> None ->
  (forall b,
      TaskUpdate.project_id u = Some (Some b) ->
      find_project db (Some b) = None ->
      update_task db current_user task_id u
      = Raise (HTTPException 404
                 ("Project with ID " ++ fmt_int (Some b) ++ " not found")))
  /\ (forall b destination,
        TaskUpdate.project_id u = Some (Some b) ->
        find_project db (Some b) = Some destination ->
        ~ may_move db current_user task destination ->
        exists detail,
          update_task db current_user task_id u
          = Raise (HTTPException 403 detail))
  /\ (passes_move_block db current_user task u ->
      (forall e,
          validate_task_assignment db (final_project_id task u)
                                   (final_assigned_to task u) = Raise e ->
          update_task db current_user task_id u = Raise e)
      /\ (validate_task_assignment db (final_project_id task u)
                                   (final_assigned_to task u) = Ok tt ->
          (TaskUpdate.project_id u = Some None
           \/ TaskUpdate.task_name u = Some None ->
           update_task db current_user task_id u = Raise IntegrityError)
          /\ (TaskUpdate.project_id u <> Some None ->
              TaskUpdate.task_name u <> Some None ->
              exists db' task',
                update_task db current_user task_id u
                = Ok (db', enrich_task db' task')
                /\ apply_task_update task u = Ok task'
                /\ find_task db' task_id = Some task'
                /\ Some (Task.project_id task') = final_project_id task u
                /\ Task.assigned_to task' = final_assigned_to task u
                /\ (serialisable_task task' ->
                    exists r, enrich_task db' task' = Ok r
                              /\ TaskResponse.task r = task')
                /\ (~ serialisable_task task' ->
                    enrich_task db' task' = Raise ValidationError)))
      /\ (forall b u1 user project,
            TaskUpdate.project_id u = Some (Some b) ->
            TaskUpdate.assigned_to u = None ->
            Task.assigned_to task = Some u1 ->
            find_user db u1 = Some user ->
            find_project db (Some b) = Some project ->
            ~ team_member db b u1 ->
            update_task db current_user task_id u
            = Raise (HTTPException 400
                       ("User '" ++ User.full_name user
                        ++ "' is not assigned to project '"
                        ++ Project.project_name project
                        ++ "'. Only team members of this project can be assigned tasks.")))
      /\ (forall b u2,
            TaskUpdate.project_id u = Some (Some b) ->
            TaskUpdate.assigned_to u = Some (Some u2) ->
            user_exists db u2 ->
            team_member db b u2 ->
            TaskUpdate.task_name u <> Some None ->
            exists db' task',
              update_task db current_user task_id u
              = Ok (db', enrich_task db' task')
              /\ apply_task_update task u = Ok task'
              /\ find_task db' task_id = Some task'
              /\ Task.project_id task' = b
              /\ Task.assigned_to task' = Some u2
              /\ (serialisable_task task' ->
                  exists r, enrich_task db' task' = Ok r
                            /\ TaskResponse.task r = task'))).
Proof.
  intros Hfind Htouch. split; [|split].
  - intros b Hb Hnone. unfold update_task. rewrite Hfind.
    destruct (check_project_move_refuses db current_user task u b Hb)
      as [H404 _].
    now rewrite (H404 Hnone).
  - intros b destination Hb Hdest Hno. unfold update_task. rewrite Hfind.
    destruct (check_project_move_refuses db current_user task u b Hb)
      as [_ H403].
    destruct (H403 destination Hdest Hno) as (detail & ->).
    now exists detail.
  - intros Hpass. pose proof Hpass as Hmove.
    apply check_project_move_passes in Hmove.
    pose proof (update_task_after_checks _ _ _ _ _ Hfind Htouch Hmove) as Hupd.
    assert (Hcommit :
              validate_task_assignment db (final_project_id task u)
                                       (final_assigned_to task u) = Ok tt ->
              TaskUpdate.project_id u <> Some None ->
              TaskUpdate.task_name u <> Some None ->
              exists db' task',
                update_task db current_user task_id u
                = Ok (db', enrich_task db' task')
                /\ apply_task_update task u = Ok task'
                /\ find_task db' task_id = Some task'
                /\ Some (Task.project_id task') = final_project_id task u
                /\ Task.assigned_to task' = final_assigned_to task u
                /\ (serialisable_task task' ->
                    exists r, enrich_task db' task' = Ok r
                              /\ TaskResponse.task r = task')
                /\ (~ serialisable_task task' ->
                    enrich_task db' task' = Raise ValidationError)).
    { intros Hval Hp Hn.
      destruct (apply_task_update_ok task u Hp Hn)
        as (task' & Happly & Hid & Hproj & Hassg).
      rewrite Hupd, Hval, Happly. simpl. eexists _, task'.
      split; [reflexivity|]. split; [reflexivity|].
      split; [now apply find_task_written with (task := task)|].
      split; [exact Hproj|]. split; [exact Hassg|]. split.
      - apply enrich_task_returns.
      - apply enrich_task_refuses. }
    split; [|split; [|split]].
    + intros e Hval. now rewrite Hupd, Hval.
    + intros Hval. split; [|now apply Hcommit].
      intros Hnull. rewrite Hupd, Hval. simpl.
      now rewrite (apply_task_update_null task u Hnull).
    + intros b u1 user project Ep Ea Hcur Huser Hproject Hnot.
      rewrite Hupd. unfold final_project_id, final_assigned_to.
      rewrite Ep, Ea. simpl get_or. rewrite Hcur.
      now rewrite (validate_not_member db b u1 user project Huser Hproject
                     Hnot).
    + intros b u2 Ep Ea Huser Hteam Hn.
      assert (Hproject : project_exists db b).
      { destruct (Hpass b Ep) as (d & Hd & _).
        destruct (find_key_some Project.project_id _ _ _ Hd) as [Hin Hk].
        unfold project_exists. rewrite <- Hk. now apply in_map. }
      destruct Hcommit
        as (db' & task' & Hok & Happly & Hstored & Hproj & Hassg & Hs & _).
      * unfold final_project_id, final_assigned_to. rewrite Ep, Ea. simpl.
        now apply validate_member.
      * congruence.
      * exact Hn.
      * exists db', task'. split; [exact Hok|]. split; [exact Happly|].
        split; [exact Hstored|].
        unfold final_project_id, final_assigned_to in Hproj, Hassg.
        rewrite Ep in Hproj. rewrite Ea in Hassg. simpl in Hproj, Hassg.
        split; [congruence|]. split; [congruence | exact Hs].
Qed.

(** Eve's hull task is moved to the engine project by the admin: alone,
    the move is refused because Eve is not on the engine team; together
    with a reassignment to Finn, who is, it is committed and returned. *)
Lemma update_task_validates_final_assignment_witness :
  update_task Yard.db Yard.alice 1 (Yard.move_to 2)
  = Raise (HTTPException 400
             "User 'Eve Engineer' is not assigned to project 'Engine swap'. Only team members of this project can be assigned tasks.")
  /\ exists db' r,
       update_task Yard.db Yard.alice 1 (Yard.move_and_reassign 2 5)
       = Ok (db', Ok r)
       /\ find_task db' 1 = Some (TaskResponse.task r)
       /\ Task.project_id (TaskResponse.task r) = 2
       /\ Task.assigned_to (TaskResponse.task r) = Some 5.
Proof.
  assert (Hfind : find_task Yard.db 1
                  = Some (Yard.task 1 1 "Sand hull" (Some 3) pending))
    by reflexivity.
  assert (Hpass : forall u,
             TaskUpdate.project_id u = Some (Some 2) ->
             passes_move_block Yard.db Yard.alice
               (Yard.task 1 1 "Sand hull" (Some 3) pending) u).
  { intros u Hu b Hb. rewrite Hu in Hb. injection Hb as <-.
    exists Yard.engine. split; [reflexivity|]. left. discriminate. }
  split.
  - assert (Htouch : TaskUpdate.assigned_to (Yard.move_to 2) <> None
                     \/ TaskUpdate.project_id (Yard.move_to 2) <> None)
      by (right; discriminate).
    destruct (update_task_validates_final_assignment
                Yard.db Yard.alice 1 (Yard.move_to 2) _ Hfind Htouch)
      as (_ & _ & Hrest).
    destruct (Hrest (Hpass (Yard.move_to 2) eq_refl))
      as (_ & _ & Hmove & _).
    apply (Hmove 2 3 Yard.eve Yard.engine); try reflexivity.
    apply is_assigned_false. reflexivity.
  - assert (Htouch :
              TaskUpdate.assigned_to (Yard.move_and_reassign 2 5) <> None
              \/ TaskUpdate.project_id (Yard.move_and_reassign 2 5) <> None)
      by (left; discriminate).
    destruct (update_task_validates_final_assignment
                Yard.db Yard.alice 1 (Yard.move_and_reassign 2 5) _
                Hfind Htouch)
      as (_ & _ & Hrest).
    destruct (Hrest (Hpass (Yard.move_and_reassign 2 5) eq_refl))
      as (_ & _ & _ & Hboth).
    destruct (Hboth 2 5 eq_refl eq_refl)
      as (db' & task' & Hupd & Happly & Hstored & Hp & Ha & Hs).
    + unfold user_exists. simpl. intuition.
    + apply is_assigned_iff. reflexivity.
    + discriminate.
    + vm_compute in Happly. injection Happly as <-.
      destruct Hs as (r & Hr & Htask); [repeat split; discriminate|].
      rewrite Hr in Hupd. exists db', r. split; [exact Hupd|].
      rewrite Htask. split; [exact Hstored|]. split; reflexivity.
Defined.

(** ** Assignment integrity over sequences of writes *)

Lemma apply_task_update_fields (task task' : Task.t) (u : TaskUpdate.t) :
  apply_task_update task u = Ok task' ->
  Some (Task.project_id task') = final_project_id task u
  /\ Task.assigned_to task' = final_assigned_to task u.
Proof.
  unfold apply_task_update, final_project_id, final_assigned_to.
  destruct (TaskUpdate.project_id u) as [[p|]|];
    destruct (TaskUpdate.task_name u) as [[n|]|]; simpl;
    intros H; try discriminate; injection H as <-; simpl; now split.
Qed.

Lemma create_task_preserves (db db' : Db) (cu : User.t) (task : TaskCreate.t)
    (r : result TaskResponse.t) :
  assignment_integrity db -> create_task db cu task = Ok (db', r) ->
  assignment_integrity db'.
Proof.
  intros Hinv. unfold create_task.
  destruct (validate_task_assignment db (Some (TaskCreate.project_id task))
                                     (TaskCreate.assigned_to task))
    as [[]|e] eqn:Hval; simpl; [|discriminate].
  intros H. injection H as <- _. intros t a Hin Ha. simpl in Hin.
  apply in_app_or in Hin. destruct Hin as [Hin|[<-|[]]].
  - exact (Hinv t a Hin Ha).
  - simpl in Ha. rewrite Ha in Hval.
    apply validate_ok_member in Hval. destruct Hval as (p & Ep & Hm).
    injection Ep as <-. exact Hm.
Qed.

Lemma update_task_preserves (db db' : Db) (cu : User.t) (task_id : Z)
    (u : TaskUpdate.t) (r : result TaskResponse.t) :
  assignment_integrity db -> update_task db cu task_id u = Ok (db', r) ->
  assignment_integrity db'.
Proof.
  intros Hinv. unfold update_task.
  destruct (find_task db task_id) as [task|] eqn:Hfind; [|discriminate].
  destruct (check_project_move db cu task u) as [[]|]; simpl; [|discriminate].
  destruct (check_assignment_change db task u) as [[]|] eqn:Hcheck; simpl;
    [|discriminate].
  destruct (apply_task_update task u) as [task'|] eqn:Happly; simpl;
    [|discriminate].
  intros H. injection H as <- _. intros t a Hin Ha. simpl in Hin.
  apply (in_replace_first Task.task_id) in Hin. destruct Hin as [->|Hin].
  2:{ exact (Hinv t a Hin Ha). }
  destruct (apply_task_update_fields _ _ _ Happly) as [Hproj Hassg].
  destruct (find_key_some Task.task_id _ _ _ Hfind) as [Hstored _].
  change (team_member db (Task.project_id task') a).
  unfold check_assignment_change in Hcheck.
  destruct (is_set (TaskUpdate.assigned_to u)
            || is_set (TaskUpdate.project_id u)) eqn:Htouch.
  - destruct (TaskUpdate.assigned_to u) as [[a'|]|] eqn:Ea.
    + rewrite Hassg in Ha. rewrite Ha in Hcheck.
      apply validate_ok_member in Hcheck. destruct Hcheck as (p & Ep & Hm).
      rewrite <- Hproj in Ep. now injection Ep as ->.
    + unfold final_assigned_to in Hassg. rewrite Ea in Hassg. simpl in Hassg.
      congruence.
    + rewrite Hassg in Ha. rewrite Ha in Hcheck.
      apply validate_ok_member in Hcheck. destruct Hcheck as (p & Ep & Hm).
      rewrite <- Hproj in Ep. now injection Ep as ->.
  - apply orb_false_iff in Htouch. destruct Htouch as [Ha' Hp'].
    unfold final_project_id, final_assigned_to in Hproj, Hassg.
    destruct (TaskUpdate.assigned_to u); [discriminate|].
    destruct (TaskUpdate.project_id u); [discriminate|].
    simpl in Hproj, Hassg. injection Hproj as ->.
    apply (Hinv task a Hstored). congruence.
Qed.

Lemma add_assignments_keeps (pid : Z) (user_ids : list Z)
    (rows : list ProjectAssignment.t) (a : ProjectAssignment.t) :
  In a rows -> In a (add_assignments pid user_ids rows).
Proof.
  unfold add_assignments. revert rows.
  induction user_ids as [|x user_ids IH]; simpl; intros rows Hin; [exact Hin|].
  apply IH. apply in_or_app. now left.
Qed.

Lemma add_assignments_adds (pid : Z) (user_ids : list Z)
    (rows : list ProjectAssignment.t) (uid : Z) :
  In uid user_ids ->
  exists a, In a (add_assignments pid user_ids rows)
            /\ ProjectAssignment.project_id a = pid
            /\ ProjectAssignment.user_id a = uid.
Proof.
  revert rows.
  induction user_ids as [|x user_ids IH]; simpl; intros rows Hin;
    [contradiction|].
  destruct Hin as [->|Hin].
  - eexists. split.
    + apply (add_assignments_keeps pid user_ids). apply in_or_app. right.
      left. reflexivity.
    + now split.
  - apply (IH _ Hin).
Qed.

Lemma update_project_preserves (db db' : Db) (cu : User.t) (pid : Z)
    (u : ProjectUpdate.t) (r : result ProjectResponse.t) :
  assignment_integrity db ->
  keeps_assignees db (UpdateProject cu pid u) ->
  update_project db cu pid u = Ok (db', r) ->
  assignment_integrity db'.
Proof.
  intros Hinv Hkeep. unfold update_project.
  destruct (find_project db (Some pid)) as [project|]; [|discriminate].
  destruct (apply_project_update project u) as [project'|]; simpl;
    [|discriminate].
  intros H. injection H as <- _. intros t a Hin Ha. simpl in Hin.
  specialize (Hinv t a Hin Ha). unfold team_member in *. simpl.
  simpl in Hkeep. unfold replace_team.
  destruct (ProjectUpdate.assigned_user_ids u) as [user_ids|]; [|exact Hinv].
  destruct (Z.eq_dec (Task.project_id t) pid) as [E|E].
  - rewrite E. apply add_assignments_adds. exact (Hkeep t a Hin E Ha).
  - destruct Hinv as (row & Hrow & Hp & Hu). exists row.
    split; [|now split]. apply add_assignments_keeps. apply filter_In.
    split; [exact Hrow|]. apply negb_true_iff. apply Z.eqb_neq. congruence.
Qed.

Lemma step_preserves (db : Db) (op : Op) :
  assignment_integrity db -> keeps_assignees db op ->
  assignment_integrity (step db op).
Proof.
  intros Hinv Hkeep. destruct op as [cu task|cu tid u|cu pid u]; simpl.
  - destruct (create_task db cu task) as [[db' r]|] eqn:E; simpl; [|exact Hinv].
    exact (create_task_preserves _ _ _ _ _ Hinv E).
  - destruct (update_task db cu tid u) as [[db' r]|] eqn:E; simpl;
      [|exact Hinv].
    exact (update_task_preserves _ _ _ _ _ _ Hinv E).
  - destruct (update_project db cu pid u) as [[db' r]|] eqn:E; simpl;
      [|exact Hinv].
    exact (update_project_preserves _ _ _ _ _ _ Hinv Hkeep E).
Qed.

Lemma yard_integrity : assignment_integrity Yard.db.
Proof.
  intros t a Hin Ha. apply is_assigned_iff. simpl in Hin.
  repeat (destruct Hin as [<-|Hin]; [simpl in Ha; try discriminate Ha;
                                     injection Ha as <-; reflexivity|]).
  contradiction.
Qed.

(** C1, as stated, fails: the manager of the hull project replaces its
    team by Tom alone; the update is committed and Eve's two hull tasks
    stay assigned to Eve, who is no longer on the team. *)
Lemma team_replacement_breaks_integrity :
  ~ (forall db ops, assignment_integrity db ->
                    assignment_integrity (run db ops)).
Proof.
  intros H.
  specialize (H Yard.db Yard.replace_hull_team yard_integrity).
  specialize (H (Yard.task 1 1 "Sand hull" (Some 3) pending) 3).
  assert (Hm : team_member
                 (run Yard.db Yard.replace_hull_team)
                 1 3).
  { apply H; [|reflexivity]. simpl. left. reflexivity. }
  apply is_assigned_iff in Hm. vm_compute in Hm. discriminate Hm.
Qed.

(** C1, amended. Task creation and task update keep the invariant, and so
    does a project update that leaves the team alone or whose new team
    still holds every user who has a task of the project: after any
    sequence of such operations, started where the invariant holds, every
    task's assignee is null or on the team of the task's project. *)
Theorem assignment_integrity_preserved (db : Db) (ops : list Op) :
  assignment_integrity db -> all_keep_assignees db ops ->
  assignment_integrity (run db ops).
Proof.
  revert db. induction ops as [|op ops IH]; simpl; intros db Hinv Hkeep.
  - exact Hinv.
  - destruct Hkeep as [Hop Hrest]. apply IH; [|exact Hrest].
    now apply step_preserves.
Qed.

Lemma assignment_integrity_preserved_witness :
  assignment_integrity
    (run Yard.db
         [CreateTask Yard.eve (Yard.new_task 1 (Some 4));
          UpdateTask Yard.alice 4 (Yard.move_and_reassign 1 3);
          UpdateProject Yard.pat 1 (Yard.new_team [4; 3]);
          UpdateProject Yard.pat 2 (Yard.rename "Engine overhaul")]).
Proof.
  apply assignment_integrity_preserved; [exact yard_integrity|].
  simpl all_keep_assignees. repeat split.
  intros t a Hin Hp Ha. vm_compute in Hin.
  repeat (destruct Hin as [<-|Hin];
          [simpl in Ha; try discriminate Hp; try discriminate Ha;
           injection Ha as <-; simpl; auto|]).
  contradiction.
Defined.

(** ** Dashboard counts against the lists *)

Lemma filter_andb {A : Type} (f g : A -> bool) (rows : list A) :
  filter (fun x => f x && g x) rows = filter g (filter f rows).
Proof.
  induction rows as [|x rows IH]; simpl; [reflexivity|].
  destruct (f x); simpl; [destruct (g x)|]; now rewrite IH.
Qed.


(** The dashboard's test "the task's project is among the assigned
    project ids" is the membership test of the assignment validation. *)
Lemma in_assigned_project_ids (db : Db) (uid pid : Z) :
  in_ pid (assigned_project_ids db uid) = is_assigned db (Some pid) uid.
Proof.
  apply eq_true_iff_eq. rewrite in_true, is_assigned_iff.
  unfold assigned_project_ids, team_member.
  rewrite nodup_In, in_map_iff. split.
  - intros (a & Hp & Ha). apply filter_In in Ha. destruct Ha as [Hin Hu].
    apply Z.eqb_eq in Hu. now exists a.
  - intros (a & Hin & Hp & Hu). exists a. split; [exact Hp|].
    apply filter_In. split; [exact Hin|]. now apply Z.eqb_eq.
Qed.

(** A returned task list holds the rows of the role's query, and a
    returned project list the rows of the role's project query. *)
Lemma get_tasks_unpaged_rows (db : Db) (cu : User.t) (limit : nat)
    (listed : list TaskResponse.t) :
  (List.length (tasks db) <= limit)%nat ->
  get_tasks db cu None 0 limit = Ok listed ->
  map TaskResponse.task listed = get_tasks_query db cu.
Proof.
  intros Hlimit H. rewrite (get_tasks_unpaged _ _ _ Hlimit) in H.
  exact (proj1 (enrich_tasks_ok _ _ _ H)).
Qed.

Lemma get_projects_rows (db : Db) (cu : User.t) (skip limit : nat)
    (listed : list ProjectResponse.t) :
  get_projects db cu skip limit = Ok listed ->
  map ProjectResponse.project listed = get_projects_query db cu skip limit.
Proof.
  unfold get_projects. intros H.
  exact (for_each_rows _ _ (enrich_project_row db) _ _ H).
Qed.

(** The number of distinct ids, all of them keys of a table with unique
    keys, is the number of rows whose key is one of the ids. *)
Lemma distinct_ids_rows {A : Type} (key : A -> Z) (ids : list Z)
    (rows : list A) :
  NoDup (map key rows) -> incl ids (map key rows) ->
  List.length (nodup Z.eq_dec ids)
  = List.length (filter (fun r => in_ (key r) ids) rows).
Proof.
  intros Hnd Hincl.
  assert (Hkeys : map key (filter (fun r => in_ (key r) ids) rows)
                  = filter (fun k => in_ k ids) (map key rows)).
  { clear. induction rows as [|r rows IH]; simpl; [reflexivity|].
    destruct (in_ (key r) ids); simpl; now rewrite IH. }
  rewrite <- (length_map key (filter _ rows)), Hkeys.
  apply Nat.le_antisymm; apply NoDup_incl_length.
  - apply NoDup_nodup.
  - intros x Hx. apply nodup_In in Hx. apply filter_In.
    split; [now apply Hincl | now apply in_true].
  - now apply NoDup_filter.
  - intros x Hx. apply filter_In in Hx. destruct Hx as [_ Hx].
    apply nodup_In. now apply in_true.
Qed.

Section CountsAndLists.
Variables (db : Db) (current_user : User.t) (limit : nat).
Variables (tasks_listed : list TaskResponse.t).
Variables (projects_listed : list ProjectResponse.t).
Hypothesis tasks_fit : (List.length (tasks db) <= limit)%nat.
Hypothesis projects_fit : (List.length (projects db) <= limit)%nat.
Hypothesis tasks_returned :
  get_tasks db current_user None 0 limit = Ok tasks_listed.
Hypothesis projects_returned :
  get_projects db current_user 0 limit = Ok projects_listed.

Let uid : Z := User.user_id current_user.
Let listed : list Task.t := map TaskResponse.task tasks_listed.



Lemma paginate_filtered_projects (f : Project.t -> bool) :
  paginate 0 limit (filter f (projects db)) = filter f (projects db).
Proof.
  apply paginate_all.
  etransitivity; [apply filter_length_le | exact projects_fit].
Qed.



Hypothesis unique_ids : unique_project_ids db.
Hypothesis referenced : assignments_reference_projects db.


End CountsAndLists.



Lemma yard_unique_project_ids : unique_project_ids Yard.db.
Proof.
  unfold unique_project_ids. simpl.
  repeat constructor; simpl; intuition discriminate.
Qed.

Lemma yard_assignments_reference_projects :
  assignments_reference_projects Yard.db.
Proof.
  intros a Hin. unfold project_exists. simpl in Hin |- *.
  repeat (destruct Hin as [<-|Hin]; [simpl; auto|]). contradiction.
Qed.


(** ** Role gates of the write endpoints *)

(** [update_project] and [delete_project] never read the principal: their
    outcome is the same for every caller, and it is never a 403. *)
Lemma project_writes_ignore_principal (db : Db) (cu cu' : User.t) (pid : Z)
    (u : ProjectUpdate.t) :
  update_project db cu pid u = update_project db cu' pid u
  /\ delete_project db cu pid = delete_project db cu' pid.
Proof. split; reflexivity. Qed.

Lemma project_writes_never_forbidden (db : Db) (cu : User.t) (pid : Z)
    (u : ProjectUpdate.t) (detail : string) :
  update_project db cu pid u <> Raise (HTTPException 403 detail)
  /\ delete_project db cu pid <> Raise (HTTPException 403 detail).
Proof.
  unfold update_project, delete_project, apply_project_update, set_required.
  destruct (find_project db (Some pid)); split; try discriminate.
  destruct (ProjectUpdate.project_name u) as [[n|]|]; discriminate.
Qed.

(** C2. The code does not gate project writes. In the yard the engine
    project was created by Pat; Eve is an engineer outside its team and
    Quinn a project manager who did not create it. Each of them renames
    the project and deletes it, with its tasks, without a 403. *)
Theorem project_update_and_delete_not_gated :
  (exists db' r,
      update_project Yard.db Yard.eve 2 (Yard.rename "Scrapped")
      = Ok (db', Ok r)
      /\ option_map Project.project_name (find_project db' (Some 2))
         = Some "Scrapped")
  /\ (exists db',
        delete_project Yard.db Yard.eve 2 = Ok (db', tt)
        /\ find_project db' (Some 2) = None
        /\ map Task.task_id (tasks db') = [1; 2; 3])
  /\ (exists db' r,
        update_project Yard.db Yard.quinn 2 (Yard.rename "Scrapped")
        = Ok (db', Ok r)
        /\ option_map Project.project_name (find_project db' (Some 2))
           = Some "Scrapped")
  /\ (exists db',
        delete_project Yard.db Yard.quinn 2 = Ok (db', tt)
        /\ find_project db' (Some 2) = None).
Proof.
  repeat split; eexists; try eexists; repeat split; reflexivity.
Qed.

(** [mark_task_done] lets an engineer or technician complete a stored task
    exactly when it is assigned to them. *)
Lemma mark_task_done_assignee_gate (today : Z) (db : Db) (cu : User.t)
    (task_id : Z) (task : Task.t) :
  engineer_or_technician cu ->
  find_task db task_id = Some task ->
  (Task.assigned_to task <> Some (User.user_id cu) ->
   mark_task_done today db cu task_id
   = Raise (HTTPException 403 "You can only complete tasks assigned to you"))
  /\ (Task.assigned_to task = Some (User.user_id cu) ->
      exists db',
        mark_task_done today db cu task_id
        = Ok (db', enrich_task db' (complete today task))
        /\ find_task db' task_id = Some (complete today task)).
Proof.
  intros Hrole Hfind. unfold mark_task_done. rewrite Hfind.
  assert (Hall : role_in cu ["admin"; "project_manager"; "engineer";
                             "technician"] = true).
  { unfold role_in, role_is. destruct Hrole as [E|E]; rewrite E; reflexivity. }
  destruct (engineer_or_technician_branch _ Hrole) as (_ & Hpm & Het).
  rewrite Hall, Het, Hpm. simpl negb. cbv iota. split.
  - intros Hne.
    destruct (opt_eqb (Task.assigned_to task) (User.user_id cu)) eqn:E.
    + apply opt_eqb_true in E. contradiction.
    + reflexivity.
  - intros Heq. apply opt_eqb_true in Heq. rewrite Heq. simpl.
    eexists. split; [reflexivity|].
    now apply find_task_written with (task := task).
Qed.

Lemma bind_never {A B : Type} (r : result A) (k : A -> result B) (x : Exn) :
  r <> Raise x -> (forall a, k a <> Raise x) -> bind r k <> Raise x.
Proof.
  destruct r; simpl; intros Hr Hk; [apply Hk|].
  intros E. apply Hr. congruence.
Qed.

Lemma validation_never_forbidden (db : Db) (pid a : option Z)
    (detail : string) :
  validate_task_assignment db pid a <> Raise (HTTPException 403 detail).
Proof.
  unfold validate_task_assignment.
  destruct a as [uid|]; [|discriminate].
  destruct (find_user db uid); [|discriminate].
  destruct (find_project db pid); [|discriminate].
  destruct (is_assigned db pid uid); discriminate.
Qed.

(** [update_task] raises a 403 only from the project-move block, which
    tests nothing but the [project_manager] role: for any other principal
    an update is never forbidden. *)
Lemma update_task_never_forbidden (db : Db) (cu : User.t) (task_id : Z)
    (u : TaskUpdate.t) (detail : string) :
  role_is cu "project_manager" = false ->
  update_task db cu task_id u <> Raise (HTTPException 403 detail).
Proof.
  intros Hpm. unfold update_task.
  destruct (find_task db task_id) as [task|]; [|discriminate].
  apply bind_never; [|intros _; apply bind_never;
                       [|intros _; apply bind_never;
                         [|intros task'; discriminate]]].
  - unfold check_project_move. rewrite Hpm.
    destruct (TaskUpdate.project_id u) as [[p|]|]; try discriminate.
    destruct (find_project db (Some p)); discriminate.
  - unfold check_assignment_change.
    destruct (is_set (TaskUpdate.assigned_to u)
              || is_set (TaskUpdate.project_id u)); [|discriminate].
    destruct (TaskUpdate.assigned_to u) as [[a|]|];
      try discriminate; apply validation_never_forbidden.
  - unfold apply_task_update, set_required.
    destruct (TaskUpdate.project_id u) as [[p|]|];
      destruct (TaskUpdate.task_name u) as [[n|]|]; discriminate.
Qed.

(** C3. The code gates completion but not update. Finn, an engineer,
    is refused when marking Eve's task 1 as done, but the update of the
    same task that sets its status to completed is committed for Finn. *)
Theorem update_task_not_gated_by_assignee (today : Z) :
  Task.assigned_to (Yard.task 1 1 "Sand hull" (Some 3) pending)
  <> Some (User.user_id Yard.finn)
  /\ mark_task_done today Yard.db Yard.finn 1
     = Raise (HTTPException 403 "You can only complete tasks assigned to you")
  /\ exists db' r,
       update_task Yard.db Yard.finn 1 (Yard.set_status completed)
       = Ok (db', Ok r)
       /\ find_task db' 1 = Some (TaskResponse.task r)
       /\ Task.assigned_to (TaskResponse.task r) = Some 3
       /\ Task.status (TaskResponse.task r) = Some completed.
Proof.
  split; [discriminate|]. split; [reflexivity|].
  eexists _, _. repeat split; reflexivity.
Qed.

(** [create_task] never reads the principal: its outcome is the same for
    every caller, and it is never a 403. *)
Lemma create_task_ignores_principal (db : Db) (cu cu' : User.t)
    (task : TaskCreate.t) :
  create_task db cu task = create_task db cu' task.
Proof. reflexivity. Qed.

Lemma create_task_never_forbidden (db : Db) (cu : User.t)
    (task : TaskCreate.t) (detail : string) :
  create_task db cu task <> Raise (HTTPException 403 detail).
Proof.
  unfold create_task. apply bind_never; [|discriminate].
  apply validation_never_forbidden.
Qed.

(** C4. The code does not gate task creation. Eve, an engineer, creates
    a hull task assigned to Eve and Tom, a technician, an unassigned one: both
    are stored and returned, although the same two principals are refused
    by [create_project], which tests the role. *)
Theorem create_task_not_gated_by_role :
  engineer_or_technician Yard.eve
  /\ engineer_or_technician Yard.tom
  /\ (exists db' r,
        create_task Yard.db Yard.eve (Yard.new_task 1 (Some 3))
        = Ok (db', Ok r)
        /\ map Task.task_id (tasks db') = [1; 2; 3; 4; 5; 6]
        /\ find_task db' 6 = Some (TaskResponse.task r)
        /\ Task.project_id (TaskResponse.task r) = 1
        /\ Task.assigned_to (TaskResponse.task r) = Some 3)
  /\ (exists db' r,
        create_task Yard.db Yard.tom (Yard.new_task 1 None) = Ok (db', Ok r)
        /\ find_task db' 6 = Some (TaskResponse.task r)
        /\ Task.project_id (TaskResponse.task r) = 1)
  /\ create_project Yard.db Yard.eve
       (ProjectCreate.mk "Deck" None None None None None planning None None)
     = Raise (HTTPException 403
                "Only admins and project managers can create projects")
  /\ create_project Yard.db Yard.tom
       (ProjectCreate.mk "Deck" None None None None None planning None None)
     = Raise (HTTPException 403
                "Only admins and project managers can create projects").
Proof.
  split; [left; reflexivity|]. split; [right; reflexivity|].
  split; [eexists _, _; repeat split; reflexivity|].
  split; [eexists _, _; repeat split; reflexivity|].
  split; reflexivity.
Qed.

(** * Further properties of the endpoints *)

(** ** Rows and keys *)

Section RowsByKey.
Context {A : Type} (key : A -> Z).

Lemma find_unique_key (v : Z) (rows : list A) (r : A) :
  NoDup (map key rows) -> In r rows -> key r = v ->
  find (fun x => key x =? v) rows = Some r.
Proof.
  induction rows as [|x rows IH]; simpl; intros Hnd Hin Hk; [contradiction|].
  inversion Hnd as [|? ? Hnotin Hnd']; subst.
  destruct Hin as [->|Hin].
  - now rewrite Z.eqb_refl.
  - destruct (Z.eqb_spec (key x) (key r)) as [E|E].
    + exfalso. apply Hnotin. rewrite E. now apply in_map.
    + now apply IH.
Qed.

Lemma replace_first_same (v : Z) (r : A) (rows : list A) :
  find (fun x => key x =? v) rows = Some r ->
  replace_first (fun x => key x =? v) r rows = rows.
Proof.
  induction rows as [|x rows IH]; simpl; [discriminate|].
  destruct (key x =? v).
  - intros H. now injection H as ->.
  - intros H. now rewrite IH.
Qed.

Lemma find_filter_other (v other : Z) (rows : list A) :
  other <> v ->
  find (fun x => key x =? other)
       (filter (fun x => negb (key x =? v)) rows)
  = find (fun x => key x =? other) rows.
Proof.
  intros Hne. induction rows as [|r rows IH]; simpl; [reflexivity|].
  destruct (Z.eqb_spec (key r) v) as [E|E]; simpl.
  - destruct (Z.eqb_spec (key r) other); [congruence | exact IH].
  - now rewrite IH.
Qed.

Lemma find_filter_removed (v : Z) (rows : list A) :
  find (fun x => key x =? v) (filter (fun x => negb (key x =? v)) rows) = None.
Proof.
  apply (find_key_none key). intros Hin. apply in_map_iff in Hin.
  destruct Hin as (r & Hk & Hr). apply filter_In in Hr.
  destruct Hr as [_ Hr]. apply negb_true_iff, Z.eqb_neq in Hr. contradiction.
Qed.

Lemma find_key_in_rows (rows : list A) (r : A) :
  In r rows -> exists first, find (fun x => key x =? key r) rows = Some first.
Proof.
  intros Hin. destruct (find (fun x => key x =? key r) rows) as [x|] eqn:E.
  - now exists x.
  - apply (find_key_none key) in E. elim E. now apply in_map.
Qed.

Lemma find_app_old (v : Z) (rows more : list A) (r : A) :
  find (fun x => key x =? v) rows = Some r ->
  find (fun x => key x =? v) (rows ++ more) = Some r.
Proof.
  induction rows as [|x rows IH]; simpl; [discriminate|].
  destruct (key x =? v); auto.
Qed.

Lemma find_app_new (v : Z) (rows : list A) (r : A) :
  ~ In v (map key rows) -> key r = v ->
  find (fun x => key x =? v) (rows ++ [r]) = Some r.
Proof.
  intros Hnot Hk. induction rows as [|x rows IH]; simpl.
  - now rewrite Hk, Z.eqb_refl.
  - simpl in Hnot. destruct (Z.eqb_spec (key x) v) as [E|E]; [tauto|].
    apply IH. tauto.
Qed.
End RowsByKey.

(** The key given to a new row is above every stored key. *)
Lemma fresh_id_above (ids : list Z) (x : Z) : In x ids -> x < fresh_id ids.
Proof.
  unfold fresh_id. induction ids as [|y ids IH]; cbn [fold_right In];
    [contradiction|].
  intros [->|Hin]; [lia|]. specialize (IH Hin). lia.
Qed.

Lemma fresh_id_new (ids : list Z) : ~ In (fresh_id ids) ids.
Proof. intros Hin. apply fresh_id_above in Hin. lia. Qed.

Lemma with_tasks_same (db : Db) : with_tasks db (tasks db) = db.
Proof. now destruct db. Qed.

(** ** Completing a task (tasks.py, [mark_task_done]) *)

Lemma role_in_recognised (cu : User.t) :
  role_in cu ["admin"; "project_manager"; "engineer"; "technician"] = true
  <-> exists r, User.role cu = Some r /\ In r recognised_roles.
Proof.
  unfold role_in, role_is, recognised_roles. simpl.
  destruct (User.role cu) as [r|].
  - split.
    + intros H. exists r. split; [reflexivity|].
      repeat (apply orb_true_iff in H; destruct H as [H|H];
              [apply String.eqb_eq in H; subst; auto 6|]).
      discriminate H.
    + intros (r' & E & Hin). injection E as <-.
      repeat (destruct Hin as [<-|Hin]; [now rewrite ?orb_true_r|]).
      contradiction.
  - split; [discriminate|]. intros (r & E & _). discriminate E.
Qed.

Lemma manager_branch (u : User.t) :
  User.role u = Some "project_manager" ->
  role_is u "admin" = false /\ role_is u "project_manager" = true
  /\ role_in u ["engineer"; "technician"] = false
  /\ role_in u ["admin"; "project_manager"] = true
  /\ role_in u ["admin"; "project_manager"; "engineer"; "technician"] = true.
Proof. unfold role_in, role_is. intros ->. repeat split. Qed.

Lemma admin_branch (u : User.t) :
  User.role u = Some "admin" ->
  role_is u "admin" = true /\ role_is u "project_manager" = false
  /\ role_in u ["engineer"; "technician"] = false
  /\ role_in u ["admin"; "project_manager"] = true
  /\ role_in u ["admin"; "project_manager"; "engineer"; "technician"] = true.
Proof. unfold role_in, role_is. intros ->. repeat split. Qed.

(** The completed task is serialisable exactly when the stored priority
    and [is_maintenance] are set: the status is written. *)
Lemma complete_serialisable (today : Z) (task : Task.t) :
  serialisable_task (complete today task)
  <-> Task.priority task <> None /\ Task.is_maintenance task <> None.
Proof.
  unfold serialisable_task. simpl. split.
  - intros (Hp & _ & Hm). now split.
  - intros (Hp & Hm). repeat split; [exact Hp | discriminate | exact Hm].
Qed.

Lemma completed_response (today : Z) (db : Db) (task_id : Z) (task : Task.t) :
  find_task db task_id = Some task ->
  exists db',
    Ok (task_written db task_id (complete today task),
        enrich_task (task_written db task_id (complete today task))
                    (complete today task))
    = Ok (db', enrich_task db' (complete today task))
    /\ find_task db' task_id = Some (complete today task)
    /\ (Task.priority task <> None -> Task.is_maintenance task <> None ->
        exists r, enrich_task db' (complete today task) = Ok r
                  /\ TaskResponse.task r = complete today task)
    /\ (Task.priority task = None \/ Task.is_maintenance task = None ->
        enrich_task db' (complete today task) = Raise ValidationError).
Proof.
  intros Hfind. eexists. split; [reflexivity|]. split; [|split].
  - now apply find_task_written with (task := task).
  - intros Hp Hm. apply enrich_task_returns. now apply complete_serialisable.
  - intros Hnull. apply enrich_task_refuses. rewrite complete_serialisable.
    intros [Hp Hm]. destruct Hnull; contradiction.
Qed.

(** X1. The decision of [mark_task_done] on a stored task: an
    unrecognised or missing role is refused; an engineer or technician is
    refused unless the task is assigned to them; a project manager is
    refused when the task's project is stored and was created by someone
    else, and admitted when they created it or when the project row is
    missing; an admin is always admitted. For whoever is admitted the
    completion is committed, with status completed and today's date; the
    task is then returned, unless its stored priority or [is_maintenance]
    is null, in which case a validation error is raised after the
    commit. *)
Theorem mark_task_done_decision (today : Z) (db : Db) (current_user : User.t)
    (task_id : Z) (task : Task.t) :
  find_task db task_id = Some task ->
  ((forall r, User.role current_user = Some r -> ~ In r recognised_roles) ->
   mark_task_done today db current_user task_id
   = Raise (HTTPException 403 "Not authorized to complete tasks"))
  /\ (engineer_or_technician current_user ->
      Task.assigned_to task <> Some (User.user_id current_user) ->
      mark_task_done today db current_user task_id
      = Raise (HTTPException 403 "You can only complete tasks assigned to you"))
  /\ (User.role current_user = Some "project_manager" ->
      forall project,
        find_project db (Some (Task.project_id task)) = Some project ->
        Project.created_by project <> Some (User.user_id current_user) ->
        mark_task_done today db current_user task_id
        = Raise (HTTPException 403
                   "You can only complete tasks from your projects"))
  /\ (User.role current_user = Some "admin"
      \/ (engineer_or_technician current_user
          /\ Task.assigned_to task = Some (User.user_id current_user))
      \/ (User.role current_user = Some "project_manager"
          /\ (find_project db (Some (Task.project_id task)) = None
              \/ exists project,
                   find_project db (Some (Task.project_id task)) = Some project
                   /\ Project.created_by project
                      = Some (User.user_id current_user))) ->
      exists db',
        mark_task_done today db current_user task_id
        = Ok (db', enrich_task db' (complete today task))
        /\ find_task db' task_id = Some (complete today task)
        /\ (Task.priority task <> None -> Task.is_maintenance task <> None ->
            exists r, enrich_task db' (complete today task) = Ok r
                      /\ TaskResponse.task r = complete today task)
        /\ (Task.priority task = None \/ Task.is_maintenance task = None ->
            enrich_task db' (complete today task) = Raise ValidationError)).
Proof.
  intros Hfind. unfold mark_task_done. rewrite Hfind.
  split; [|split; [|split]].
  - intros Hnone.
    destruct (role_in current_user
                ["admin"; "project_manager"; "engineer"; "technician"]) eqn:E.
    + apply role_in_recognised in E. destruct E as (r & Hr & Hin).
      elim (Hnone r Hr Hin).
    + reflexivity.
  - intros Hrole Hne.
    assert (Hall : role_in current_user
                     ["admin"; "project_manager"; "engineer"; "technician"]
                   = true).
    { apply role_in_recognised. unfold recognised_roles.
      destruct Hrole as [E|E]; eexists; (split; [exact E|]); simpl; auto. }
    destruct (engineer_or_technician_branch _ Hrole) as (_ & _ & Het).
    rewrite Hall, Het. simpl negb. cbv iota.
    destruct (opt_eqb (Task.assigned_to task) (User.user_id current_user))
      eqn:E; [|reflexivity].
    apply opt_eqb_true in E. contradiction.
  - intros Hrole project Hproject Hne.
    destruct (manager_branch _ Hrole) as (_ & Hpm & Het & _ & Hall).
    rewrite Hall, Het, Hpm, Hproject. simpl negb. simpl andb. cbv iota.
    destruct (opt_eqb (Project.created_by project)
                      (User.user_id current_user)) eqn:E; [|reflexivity].
    apply opt_eqb_true in E. contradiction.
  - intros [Hrole|[[Hrole Hassg]|[Hrole Hproject]]].
    + destruct (admin_branch _ Hrole) as (_ & Hpm & Het & _ & Hall).
      rewrite Hall, Het, Hpm. simpl.
      now apply completed_response.
    + assert (Hall : role_in current_user
                       ["admin"; "project_manager"; "engineer"; "technician"]
                     = true).
      { apply role_in_recognised. unfold recognised_roles.
        destruct Hrole as [E|E]; eexists; (split; [exact E|]); simpl; auto. }
      destruct (engineer_or_technician_branch _ Hrole) as (_ & Hpm & Het).
      apply opt_eqb_true in Hassg.
      rewrite Hall, Het, Hpm, Hassg. simpl. now apply completed_response.
    + destruct (manager_branch _ Hrole) as (_ & Hpm & Het & _ & Hall).
      rewrite Hall, Het, Hpm. simpl negb. simpl andb. cbv iota.
      destruct Hproject as [->|(project & -> & Hown)].
      * simpl. now apply completed_response.
      * apply opt_eqb_true in Hown. rewrite Hown. simpl.
        now apply completed_response.
Qed.

(** In the yard Pat created the hull project and Quinn did not: Quinn is
    refused on a hull task, Pat completes it, and so does Eve, to whom it
    is assigned. *)
Lemma mark_task_done_decision_witness :
  mark_task_done 20250 Yard.db Yard.ghost 1
  = Raise (HTTPException 403 "Not authorized to complete tasks")
  /\ mark_task_done 20250 Yard.db Yard.finn 1
     = Raise (HTTPException 403 "You can only complete tasks assigned to you")
  /\ mark_task_done 20250 Yard.db Yard.quinn 1
     = Raise (HTTPException 403
                "You can only complete tasks from your projects")
  /\ (exists db' r,
        mark_task_done 20250 Yard.db Yard.pat 1 = Ok (db', Ok r)
        /\ Task.completion_date (TaskResponse.task r) = Some 20250)
  /\ exists db' r,
       mark_task_done 20250 Yard.db Yard.eve 1 = Ok (db', Ok r)
       /\ Task.status (TaskResponse.task r) = Some completed.
Proof.
  assert (Hfind : find_task Yard.db 1
                  = Some (Yard.task 1 1 "Sand hull" (Some 3) pending))
    by reflexivity.
  split.
  { apply (mark_task_done_decision 20250 Yard.db Yard.ghost 1 _ Hfind).
    intros r E. injection E as <-. simpl. intuition discriminate. }
  split.
  { apply (mark_task_done_decision 20250 Yard.db Yard.finn 1 _ Hfind).
    - left. reflexivity.
    - discriminate. }
  split.
  { destruct (mark_task_done_decision 20250 Yard.db Yard.quinn 1 _ Hfind)
      as (_ & _ & Hpm & _).
    apply (Hpm eq_refl Yard.hull); [reflexivity | discriminate]. }
  split.
  - destruct (mark_task_done_decision 20250 Yard.db Yard.pat 1 _ Hfind)
      as (_ & _ & _ & Hok).
    destruct Hok as (db' & Hdone & _ & Hresp & _).
    + right. right. split; [reflexivity|]. right. exists Yard.hull.
      split; reflexivity.
    + destruct Hresp as (r & Hr & Htask); [discriminate | discriminate |].
      rewrite Hr in Hdone. exists db', r. split; [exact Hdone|].
      now rewrite Htask.
  - destruct (mark_task_done_decision 20250 Yard.db Yard.eve 1 _ Hfind)
      as (_ & _ & _ & Hok).
    destruct Hok as (db' & Hdone & _ & Hresp & _).
    + right. left. split; [left|]; reflexivity.
    + destruct Hresp as (r & Hr & Htask); [discriminate | discriminate |].
      rewrite Hr in Hdone. exists db', r. split; [exact Hdone|].
      now rewrite Htask.
Defined.

(** X2. A completion that is committed and returned changes one row
    only: the other tables are untouched, every other task is read as
    before, the completed task keeps its id, name, project and assignee
    and gets status completed with today's date, and the assignment
    invariant still holds when it held before. *)
Theorem mark_task_done_changes_one_task (today : Z) (db db' : Db)
    (current_user : User.t) (task_id : Z) (r : TaskResponse.t) :
  mark_task_done today db current_user task_id = Ok (db', Ok r) ->
  exists task,
    find_task db task_id = Some task
    /\ find_task db' task_id = Some (TaskResponse.task r)
    /\ (forall other, other <> task_id ->
                      find_task db' other = find_task db other)
    /\ Task.task_id (TaskResponse.task r) = Task.task_id task
    /\ Task.task_name (TaskResponse.task r) = Task.task_name task
    /\ Task.project_id (TaskResponse.task r) = Task.project_id task
    /\ Task.assigned_to (TaskResponse.task r) = Task.assigned_to task
    /\ Task.status (TaskResponse.task r) = Some completed
    /\ Task.completion_date (TaskResponse.task r) = Some today
    /\ users db' = users db /\ projects db' = projects db
    /\ project_assignments db' = project_assignments db
    /\ inventory db' = inventory db /\ blueprints db' = blueprints db
    /\ (assignment_integrity db -> assignment_integrity db').
Proof.
  unfold mark_task_done.
  destruct (find_task db task_id) as [task|] eqn:Hfind; [|discriminate].
  intros H. exists task. split; [reflexivity|].
  assert (E : db' = task_written db task_id (complete today task)
              /\ TaskResponse.task r = complete today task).
  { assert (Hdone : Ok (task_written db task_id (complete today task),
                        enrich_task
                          (task_written db task_id (complete today task))
                          (complete today task))
                    = Ok (db', Ok r) ->
                    db' = task_written db task_id (complete today task)
                    /\ TaskResponse.task r = complete today task).
    { intros Hdone. injection Hdone as <- Hr.
      split; [reflexivity | exact (enrich_task_row _ _ _ Hr)]. }
    destruct (negb _); [discriminate|].
    destruct (_ && _); [discriminate|].
    destruct (role_is current_user "project_manager").
    - destruct (find_project db (Some (Task.project_id task))) as [p|].
      + destruct (negb _); [discriminate|]. now apply Hdone.
      + now apply Hdone.
    - now apply Hdone. }
  destruct E as [-> ->].
  destruct (find_key_some Task.task_id _ _ _ Hfind) as [Hstored Hid].
  split.
  { unfold find_task, task_written. simpl.
    apply (find_replace_first Task.task_id) with (old := task);
      [exact Hid | exact Hfind]. }
  split.
  { intros other Hne. unfold find_task, task_written. simpl.
    apply (find_replace_first_other Task.task_id); [exact Hid | exact Hne]. }
  repeat (split; [reflexivity|]).
  intros Hinv t a Hin Ha. simpl in Hin.
  apply (in_replace_first Task.task_id) in Hin. destruct Hin as [->|Hin].
  - exact (Hinv task a Hstored Ha).
  - exact (Hinv t a Hin Ha).
Qed.

Lemma mark_task_done_changes_one_task_witness :
  exists db' r,
    mark_task_done 20250 Yard.db Yard.eve 1 = Ok (db', Ok r)
    /\ find_task db' 2 = find_task Yard.db 2
    /\ Task.assigned_to (TaskResponse.task r) = Some 3
    /\ assignment_integrity db'.
Proof.
  eexists _, _. split; [reflexivity|].
  destruct (mark_task_done_changes_one_task 20250 Yard.db _ Yard.eve 1 _
              eq_refl)
    as (task & Hfind & _ & Hother & _ & _ & _ & Hassg & _ & _ & _ & _ & _ & _
        & _ & Hinv).
  split; [apply Hother; discriminate|].
  split.
  - rewrite Hassg. vm_compute in Hfind. injection Hfind as <-. reflexivity.
  - exact (Hinv yard_integrity).
Defined.

(** ** Who may update a task (tasks.py, [update_task]) *)

Lemma after_move_never_forbidden (db : Db) (task_id : Z) (task : Task.t)
    (u : TaskUpdate.t) (detail : string) :
  (check_assignment_change db task u ;;;
   task' <- apply_task_update task u ;;
   Ok (task_written db task_id task',
       enrich_task (task_written db task_id task') task'))
  <> Raise (HTTPException 403 detail).
Proof.
  apply bind_never; [|intros _; apply bind_never;
                       [|intros task'; discriminate]].
  - unfold check_assignment_change.
    destruct (is_set (TaskUpdate.assigned_to u)
              || is_set (TaskUpdate.project_id u)); [|discriminate].
    destruct (TaskUpdate.assigned_to u) as [[a|]|];
      try discriminate; apply validation_never_forbidden.
  - unfold apply_task_update, set_required.
    destruct (TaskUpdate.project_id u) as [[p|]|];
      destruct (TaskUpdate.task_name u) as [[n|]|]; discriminate.
Qed.

(** X3. [update_task] answers 403 in one situation only: the task is
    stored, the principal is a project manager, the change set moves the
    task to a stored project, and the manager did not create the
    destination project or did not create the task's current project (when
    that one is stored). Nobody else is ever forbidden, and a project
    manager who does not move the task may edit any task. *)
Theorem update_task_forbidden_iff (db : Db) (current_user : User.t)
    (task_id : Z) (u : TaskUpdate.t) :
  (exists detail,
      update_task db current_user task_id u
      = Raise (HTTPException 403 detail))
  <-> exists task p destination,
        find_task db task_id = Some task
        /\ User.role current_user = Some "project_manager"
        /\ TaskUpdate.project_id u = Some (Some p)
        /\ find_project db (Some p) = Some destination
        /\ (Project.created_by destination
            <> Some (User.user_id current_user)
            \/ exists current,
                 find_project db (Some (Task.project_id task)) = Some current
                 /\ Project.created_by current
                    <> Some (User.user_id current_user)).
Proof.
  unfold update_task. split.
  - intros (detail & H).
    destruct (find_task db task_id) as [task|]; [|discriminate].
    destruct (check_project_move db current_user task u) as [[]|e] eqn:Hmove.
    { simpl in H. elim (after_move_never_forbidden _ _ _ _ _ H). }
    simpl in H. injection H as ->. unfold check_project_move in Hmove.
    destruct (TaskUpdate.project_id u) as [[p|]|]; try discriminate.
    destruct (find_project db (Some p)) as [destination|] eqn:Hdest;
      [|discriminate].
    destruct (role_is current_user "project_manager") eqn:Hpm;
      [|discriminate].
    apply role_is_exact in Hpm.
    exists task, p, destination. repeat (split; [reflexivity || assumption|]).
    destruct (opt_eqb (Project.created_by destination)
                      (User.user_id current_user)) eqn:Hown.
    + right. simpl negb in Hmove. cbv iota in Hmove.
      destruct (find_project db (Some (Task.project_id task)))
        as [current|]; [|discriminate Hmove].
      exists current. split; [reflexivity|].
      destruct (opt_eqb (Project.created_by current)
                        (User.user_id current_user)) eqn:Hcur;
        [discriminate Hmove|].
      intros E. apply opt_eqb_true in E. congruence.
    + left. intros E. apply opt_eqb_true in E. congruence.
  - intros (task & p & destination & -> & Hrole & Hp & Hdest & Hown).
    apply role_is_exact in Hrole.
    unfold check_project_move. rewrite Hp, Hdest, Hrole.
    destruct (opt_eqb (Project.created_by destination)
                      (User.user_id current_user)) eqn:E;
      simpl negb; cbv iota.
    + destruct Hown as [Hown|(current & -> & Hcur)].
      * apply opt_eqb_true in E. contradiction.
      * destruct (opt_eqb (Project.created_by current)
                          (User.user_id current_user)) eqn:E';
          simpl negb; cbv iota.
        -- apply opt_eqb_true in E'. contradiction.
        -- eexists. reflexivity.
    + eexists. reflexivity.
Qed.

(** Quinn, a project manager who created neither project, cannot move a
    hull task to the engine project. *)
Lemma update_task_forbidden_iff_witness :
  exists detail,
    update_task Yard.db Yard.quinn 1 (Yard.move_to 2)
    = Raise (HTTPException 403 detail).
Proof.
  apply (update_task_forbidden_iff Yard.db Yard.quinn 1 (Yard.move_to 2)).
  exists (Yard.task 1 1 "Sand hull" (Some 3) pending), 2, Yard.engine.
  repeat (split; [reflexivity|]). left. discriminate.
Defined.

(** X4. An update with an empty change set, on a stored task, is
    committed for every principal and changes nothing: the database is the
    same, and the response is what [get_task] gives for the task, which is
    the task as it was, or a validation error when a field that the
    response requires is null in it. *)
Theorem update_task_empty_change (db : Db) (current_user : User.t)
    (task_id : Z) (task : Task.t) :
  find_task db task_id = Some task ->
  update_task db current_user task_id
    (TaskUpdate.mk None None None None None None None None None None)
  = Ok (db, get_task db current_user task_id)
  /\ (serialisable_task task ->
      exists r, get_task db current_user task_id = Ok r
                /\ TaskResponse.task r = task)
  /\ (~ serialisable_task task ->
      get_task db current_user task_id = Raise ValidationError).
Proof.
  intros Hfind. unfold get_task. rewrite Hfind. split; [|split].
  - unfold update_task. rewrite Hfind. simpl.
    assert (E : {| Task.task_id := Task.task_id task;
                   Task.project_id := Task.project_id task;
                   Task.task_name := Task.task_name task;
                   Task.description := Task.description task;
                   Task.assigned_to := Task.assigned_to task;
                   Task.priority := Task.priority task;
                   Task.status := Task.status task;
                   Task.is_maintenance := Task.is_maintenance task;
                   Task.start_date := Task.start_date task;
                   Task.due_date := Task.due_date task;
                   Task.completion_date := Task.completion_date task |}
                = task)
      by now destruct task.
    rewrite E. unfold task_written.
    rewrite (replace_first_same Task.task_id) by exact Hfind.
    now rewrite with_tasks_same.
  - apply enrich_task_returns.
  - apply enrich_task_refuses.
Qed.

Lemma update_task_empty_change_witness :
  exists r,
    update_task Yard.db Yard.quinn 4
      (TaskUpdate.mk None None None None None None None None None None)
    = Ok (Yard.db, Ok r)
    /\ TaskResponse.task r = Yard.task 4 2 "Lift engine" (Some 5) pending.
Proof.
  destruct (update_task_empty_change Yard.db Yard.quinn 4
              (Yard.task 4 2 "Lift engine" (Some 5) pending) eq_refl)
    as (Hupd & Hok & _).
  destruct Hok as (r & Hr & Htask); [repeat split; discriminate|].
  exists r. rewrite Hr in Hupd. now split.
Defined.

(** ** Reading and deleting tasks (tasks.py) *)

(** X5. [delete_task] asks for no role. On a missing task it raises 404;
    on a stored one it removes it: afterwards the task is not found by any
    reader, every other task is read exactly as before, no other table
    has changed and the assignment invariant still holds when it held
    before. *)
Theorem delete_task_removes (db : Db) (current_user : User.t) (task_id : Z) :
  (find_task db task_id = None ->
   delete_task db current_user task_id
   = Raise (HTTPException 404 "Task not found"))
  /\ (forall task,
        find_task db task_id = Some task ->
        exists db',
          delete_task db current_user task_id = Ok (db', tt)
          /\ (forall reader,
                get_task db' reader task_id
                = Raise (HTTPException 404 "Task not found"))
          /\ (forall reader other,
                other <> task_id ->
                get_task db' reader other = get_task db reader other)
          /\ users db' = users db /\ projects db' = projects db
          /\ project_assignments db' = project_assignments db
          /\ (assignment_integrity db -> assignment_integrity db')).
Proof.
  unfold delete_task. split.
  - intros ->. reflexivity.
  - intros task ->. eexists. split; [reflexivity|].
    split; [|split].
    + intros reader. unfold get_task, find_task. simpl.
      now rewrite (find_filter_removed Task.task_id).
    + intros reader other Hne. unfold get_task, find_task. simpl.
      rewrite (find_filter_other Task.task_id) by exact Hne. reflexivity.
    + repeat (split; [reflexivity|]).
      intros Hinv t a Hin Ha. simpl in Hin. apply filter_In in Hin.
      exact (Hinv t a (proj1 Hin) Ha).
Qed.

Lemma delete_task_removes_witness :
  delete_task Yard.db Yard.tom 9 = Raise (HTTPException 404 "Task not found")
  /\ exists db',
       delete_task Yard.db Yard.tom 1 = Ok (db', tt)
       /\ get_task db' Yard.alice 1
          = Raise (HTTPException 404 "Task not found")
       /\ get_task db' Yard.alice 2 = get_task Yard.db Yard.alice 2.
Proof.
  destruct (delete_task_removes Yard.db Yard.tom 9) as [Hmissing _].
  destruct (delete_task_removes Yard.db Yard.tom 1) as [_ Hstored].
  split; [apply Hmissing; reflexivity|].
  destruct (Hstored _ eq_refl) as (db' & Hdel & Hgone & Hrest & _).
  exists db'. split; [exact Hdel|]. split; [apply Hgone|].
  apply Hrest. discriminate.
Defined.

(** Every row of a returned task list is the response built from a
    stored task of the role's query. *)
Lemma get_tasks_listed (db : Db) (cu : User.t) (project_id : option Z)
    (skip limit : nat) (listed : list TaskResponse.t) (r : TaskResponse.t) :
  get_tasks db cu project_id skip limit = Ok listed ->
  In r listed ->
  exists t, In t (get_tasks_query db cu) /\ In t (tasks db)
            /\ enrich_task db t = Ok r
            /\ (truthy project_id = true ->
                project_id = Some (Task.project_id t)).
Proof.
  unfold get_tasks. intros Hlisted H.
  destruct (for_each_in _ _ _ _ Hlisted H) as (t & Ht & Hr).
  apply in_paginate in Ht. exists t.
  assert (Hq : In t (get_tasks_query db cu)
               /\ (truthy project_id = true ->
                   project_id = Some (Task.project_id t))).
  { destruct (truthy project_id).
    - apply filter_In in Ht. destruct Ht as [Ht Hp]. split; [exact Ht|].
      intros _. destruct project_id as [p|]; [|discriminate].
      simpl in Hp. apply Z.eqb_eq in Hp. now subst.
    - split; [exact Ht | discriminate]. }
  destruct Hq as [Hq Hp]. split; [exact Hq|]. split; [|now split].
  unfold get_tasks_query in Hq.
  destruct (role_is cu "admin"); [exact Hq|].
  destruct (role_is cu "project_manager");
    apply filter_In in Hq; exact (proj1 Hq).
Qed.

(** X6. List and detail agree: with unique task ids, every row that
    [get_tasks] returns, for any principal, filter and page, is returned
    identically by [get_task] for the row's id. *)
Theorem get_task_agrees_with_list (db : Db) (current_user : User.t)
    (project_id : option Z) (skip limit : nat)
    (listed : list TaskResponse.t) (r : TaskResponse.t) :
  NoDup (map Task.task_id (tasks db)) ->
  get_tasks db current_user project_id skip limit = Ok listed ->
  In r listed ->
  get_task db current_user (Task.task_id (TaskResponse.task r)) = Ok r.
Proof.
  intros Hnd Hlisted Hin.
  destruct (get_tasks_listed _ _ _ _ _ _ _ Hlisted Hin)
    as (t & _ & Hstored & Hr & _).
  rewrite (enrich_task_row _ _ _ Hr). unfold get_task, find_task.
  now rewrite (find_unique_key Task.task_id _ _ t Hnd Hstored eq_refl).
Qed.

Lemma yard_unique_task_ids : NoDup (map Task.task_id (tasks Yard.db)).
Proof. simpl. repeat constructor; simpl; intuition discriminate. Qed.

(** The second page of Pat's hull list holds tasks 2 and 3, and the
    detail of each returns the listed row. *)
Lemma get_task_agrees_with_list_witness :
  exists listed,
    get_tasks Yard.db Yard.pat (Some 1) 1 2 = Ok listed
    /\ map (fun r => Task.task_id (TaskResponse.task r)) listed = [2; 3]
    /\ forall r, In r listed ->
                 get_task Yard.db Yard.pat
                          (Task.task_id (TaskResponse.task r)) = Ok r.
Proof.
  eexists. split; [reflexivity|]. split; [reflexivity|].
  intros r Hin.
  exact (get_task_agrees_with_list Yard.db Yard.pat (Some 1) 1 2 _ r
           yard_unique_task_ids eq_refl Hin).
Defined.

(** X7. What an admin and a project manager see in the task list, with
    no project filter and a page that covers the table. A list that is
    returned holds, for the admin, every task, and for the project manager
    exactly the tasks whose project is a stored project that they created.
    The admin's list is returned when every stored task is serialisable,
    and a single task with a null status, priority or [is_maintenance]
    makes it raise a validation error. *)
Theorem get_tasks_admin_and_manager (db : Db) (current_user : User.t)
    (limit : nat) :
  (List.length (tasks db) <= limit)%nat ->
  (forall listed,
      get_tasks db current_user None 0 limit = Ok listed ->
      (User.role current_user = Some "admin" ->
       map TaskResponse.task listed = tasks db)
      /\ (User.role current_user = Some "project_manager" ->
          forall t,
            In t (map TaskResponse.task listed) <->
            In t (tasks db)
            /\ exists p, In p (projects db)
                         /\ Project.project_id p = Task.project_id t
                         /\ Project.created_by p
                            = Some (User.user_id current_user)))
  /\ (User.role current_user = Some "admin" ->
      ((forall t, In t (tasks db) -> serialisable_task t) ->
       exists listed, get_tasks db current_user None 0 limit = Ok listed)
      /\ forall t, In t (tasks db) -> ~ serialisable_task t ->
                   get_tasks db current_user None 0 limit
                   = Raise ValidationError).
Proof.
  intros Hlimit. split.
  - intros listed Hlisted.
    rewrite (get_tasks_unpaged_rows _ _ _ _ Hlimit Hlisted).
    unfold get_tasks_query. split.
    + intros Hrole. destruct (admin_branch _ Hrole) as (-> & _). reflexivity.
    + intros Hrole t. destruct (manager_branch _ Hrole) as (-> & -> & _).
      rewrite filter_In, in_true, in_map_iff. split.
      * intros (Hin & p & Hp & Hown). apply filter_In in Hown.
        destruct Hown as [Hstored Hown]. apply opt_eqb_true in Hown.
        split; [exact Hin|]. now exists p.
      * intros (Hin & p & Hstored & Hp & Hown). split; [exact Hin|].
        exists p. split; [exact Hp|]. apply filter_In.
        split; [exact Hstored|]. now apply opt_eqb_true.
  - intros Hrole. rewrite (get_tasks_unpaged _ _ _ Hlimit).
    unfold get_tasks_query. destruct (admin_branch _ Hrole) as (-> & _).
    split.
    + intros Hall. destruct (enrich_tasks_returns db (tasks db) Hall)
        as (listed & Hlisted & _).
      now exists listed.
    + intros t Hin Hs. now apply enrich_tasks_refuses with (t := t).
Qed.

Lemma yard_tasks_serialisable :
  forall t, In t (tasks Yard.db) -> serialisable_task t.
Proof.
  intros t Hin. simpl in Hin.
  repeat (destruct Hin as [<-|Hin]; [repeat split; discriminate|]).
  contradiction.
Qed.

Lemma get_tasks_admin_and_manager_witness :
  (exists listed,
      get_tasks Yard.db Yard.alice None 0 100 = Ok listed
      /\ map TaskResponse.task listed = tasks Yard.db)
  /\ (exists listed,
        get_tasks Yard.db Yard.quinn None 0 100 = Ok listed
        /\ ~ In (Yard.task 1 1 "Sand hull" (Some 3) pending)
                (map TaskResponse.task listed))
  /\ exists listed,
       get_tasks Yard.db Yard.pat None 0 100 = Ok listed
       /\ In (Yard.task 1 1 "Sand hull" (Some 3) pending)
             (map TaskResponse.task listed).
Proof.
  assert (Hlimit : (List.length (tasks Yard.db) <= 100)%nat) by (simpl; lia).
  split; [|split].
  - destruct (get_tasks_admin_and_manager Yard.db Yard.alice 100 Hlimit)
      as [Hlist Hadmin].
    destruct (Hadmin eq_refl) as [Hreturns _].
    destruct (Hreturns yard_tasks_serialisable) as (listed & Hlisted).
    exists listed. split; [exact Hlisted|].
    now apply (Hlist listed Hlisted).
  - eexists. split; [reflexivity|]. intros Hin.
    apply (get_tasks_admin_and_manager Yard.db Yard.quinn 100 Hlimit) in Hin;
      [|reflexivity|reflexivity].
    destruct Hin as (_ & p & Hp & _ & Hown). simpl in Hp.
    destruct Hp as [<-|[<-|[]]]; discriminate Hown.
  - eexists. split; [reflexivity|].
    apply (get_tasks_admin_and_manager Yard.db Yard.pat 100 Hlimit);
      [reflexivity|reflexivity|].
    split; [simpl; auto|]. exists Yard.hull. simpl. auto.
Defined.

(** X8. The project filter and the page of [get_tasks], for every
    principal and non-negative offset and limit: a filter of 0 is ignored
    like an absent one; a returned list is never longer than the limit;
    with a non-zero filter every listed task belongs to that project, and
    with a page that covers the table, when the unfiltered list is
    returned, the filtered list is returned too and is the unfiltered one
    restricted to the project. *)
Theorem get_tasks_filter_and_page (db : Db) (current_user : User.t)
    (pid : Z) (skip limit : nat) :
  get_tasks db current_user (Some 0) skip limit
  = get_tasks db current_user None skip limit
  /\ (forall listed,
        get_tasks db current_user (Some pid) skip limit = Ok listed ->
        (List.length listed <= limit)%nat)
  /\ (pid <> 0 ->
      forall listed r,
        get_tasks db current_user (Some pid) skip limit = Ok listed ->
        In r listed ->
        Task.project_id (TaskResponse.task r) = pid)
  /\ (pid <> 0 -> (List.length (tasks db) <= limit)%nat ->
      forall unfiltered,
        get_tasks db current_user None 0 limit = Ok unfiltered ->
        get_tasks db current_user (Some pid) 0 limit
        = Ok (filter (fun r => Task.project_id (TaskResponse.task r) =? pid)
                     unfiltered)).
Proof.
  split; [reflexivity|]. split; [|split].
  - unfold get_tasks. intros listed Hlisted.
    rewrite (for_each_length _ _ _ Hlisted). unfold paginate.
    apply firstn_le_length.
  - intros Hne listed r Hlisted Hin.
    destruct (get_tasks_listed _ _ _ _ _ _ _ Hlisted Hin)
      as (t & _ & _ & Hr & Hp).
    rewrite (enrich_task_row _ _ _ Hr).
    assert (Ht : truthy (Some pid) = true).
    { simpl. now apply negb_true_iff, Z.eqb_neq. }
    specialize (Hp Ht). now injection Hp as ->.
  - intros Hne Hlimit unfiltered Hall.
    rewrite (get_tasks_unpaged _ _ _ Hlimit) in Hall.
    unfold get_tasks.
    assert (Ht : truthy (Some pid) = true).
    { simpl. now apply negb_true_iff, Z.eqb_neq. }
    rewrite Ht, paginate_all.
    + rewrite (for_each_filter _ TaskResponse.task (enrich_task_row db)
                 _ _ _ Hall).
      f_equal. apply filter_ext. intros r. simpl. apply Z.eqb_sym.
    + etransitivity; [apply filter_length_le|].
      etransitivity; [apply get_tasks_query_length | exact Hlimit].
Qed.

Lemma get_tasks_filter_and_page_witness :
  (exists listed,
      get_tasks Yard.db Yard.alice (Some 2) 0 100 = Ok listed
      /\ map (fun r => Task.task_id (TaskResponse.task r)) listed = [4; 5])
  /\ forall listed r,
       get_tasks Yard.db Yard.alice (Some 2) 1 1 = Ok listed ->
       In r listed -> Task.project_id (TaskResponse.task r) = 2.
Proof.
  destruct (get_tasks_filter_and_page Yard.db Yard.alice 2 0 100)
    as (_ & _ & _ & Hfull).
  destruct (get_tasks_filter_and_page Yard.db Yard.alice 2 1 1)
    as (_ & _ & Hall & _).
  split.
  - eexists. split.
    + apply Hfull; [discriminate | simpl; lia | reflexivity].
    + reflexivity.
  - apply Hall. discriminate.
Defined.

(** The row of a new task is serialisable: [TaskCreate] requires the
    three fields. *)
Lemma new_task_row_serialisable (task_id : Z) (task : TaskCreate.t) :
  serialisable_task (new_task_row task_id task).
Proof. repeat split; discriminate. Qed.

(** X9. A task that [create_task] accepts is returned and can be read
    back: the response is never a validation error, [get_task] on the id
    of the response returns that same response, and every task stored
    before is still found unchanged under its id. *)
Theorem create_task_then_get (db db' : Db) (current_user : User.t)
    (task : TaskCreate.t) (response : result TaskResponse.t) :
  create_task db current_user task = Ok (db', response) ->
  exists r,
    response = Ok r
    /\ (forall reader,
          get_task db' reader (Task.task_id (TaskResponse.task r)) = Ok r)
    /\ (forall tid old, find_task db tid = Some old ->
                        find_task db' tid = Some old)
    /\ ~ In (Task.task_id (TaskResponse.task r)) (map Task.task_id (tasks db)).
Proof.
  unfold create_task.
  destruct (validate_task_assignment db (Some (TaskCreate.project_id task))
                                     (TaskCreate.assigned_to task))
    as [[]|]; simpl; [|discriminate].
  intros H. injection H as <- <-.
  set (id := fresh_id (map Task.task_id (tasks db))).
  set (db' := with_tasks db (tasks db ++ [new_task_row id task])).
  destruct (enrich_task_returns db' (new_task_row id task)
              (new_task_row_serialisable id task)) as (r & Hr & Htask).
  exists r. split; [exact Hr|]. rewrite Htask. simpl Task.task_id.
  split; [|split].
  - intros reader. unfold get_task, find_task. subst db'. simpl tasks.
    rewrite (find_app_new Task.task_id); [exact Hr| |reflexivity].
    apply fresh_id_new.
  - intros tid old Hold. unfold find_task. simpl.
    now apply (find_app_old Task.task_id).
  - apply fresh_id_new.
Qed.

Lemma create_task_then_get_witness :
  exists db' r,
    create_task Yard.db Yard.pat (Yard.new_task 2 (Some 5)) = Ok (db', Ok r)
    /\ get_task db' Yard.finn 6 = Ok r
    /\ find_task db' 4 = find_task Yard.db 4.
Proof.
  eexists _, _. split; [reflexivity|].
  destruct (create_task_then_get Yard.db _ Yard.pat
              (Yard.new_task 2 (Some 5)) _ eq_refl)
    as (r & Hr & Hget & Hold & _).
  injection Hr as <-.
  split; [exact (Hget Yard.finn)|]. now apply Hold.
Defined.

(** ** Projects and their teams (projects.py) *)

(** The rows that [add_assignments] appends: one per listed user, in
    order, all for the given project. *)
Lemma add_assignments_appends (pid : Z) (user_ids : list Z)
    (rows : list ProjectAssignment.t) :
  exists news,
    add_assignments pid user_ids rows = rows ++ news
    /\ map ProjectAssignment.user_id news = user_ids
    /\ forall a, In a news -> ProjectAssignment.project_id a = pid.
Proof.
  unfold add_assignments. revert rows.
  induction user_ids as [|x user_ids IH]; intros rows; simpl.
  - exists []. rewrite app_nil_r. repeat split. intros a [].
  - destruct (IH (rows ++ [ProjectAssignment.mk
                             (fresh_id (map ProjectAssignment.assignment_id
                                            rows)) pid x]))
      as (news & E & Hu & Hp).
    eexists (_ :: news). rewrite E, <- app_assoc. simpl.
    split; [reflexivity|]. split; [now rewrite Hu|].
    intros a [<-|Hin]; [reflexivity | now apply Hp].
Qed.

Lemma filter_all {A : Type} (f : A -> bool) (rows : list A) :
  (forall x, In x rows -> f x = true) -> filter f rows = rows.
Proof.
  intros H. apply forallb_filter_id. now apply forallb_forall.
Qed.

Lemma filter_none {A : Type} (f : A -> bool) (rows : list A) :
  (forall x, In x rows -> f x = false) -> filter f rows = [].
Proof.
  induction rows as [|x rows IH]; simpl; intros H; [reflexivity|].
  rewrite (H x) by now left. apply IH. intros y Hy. apply H. now right.
Qed.

(** The team that [update_project] and [create_project] leave for the
    project they write, and for every other project. *)
Lemma team_after_add (pid q : Z) (user_ids : list Z)
    (rows : list ProjectAssignment.t) :
  filter (fun a => ProjectAssignment.project_id a =? q)
         (add_assignments pid user_ids rows)
  = filter (fun a => ProjectAssignment.project_id a =? q) rows
    ++ (if q =? pid
        then skipn (List.length rows) (add_assignments pid user_ids rows)
        else []).
Proof.
  destruct (add_assignments_appends pid user_ids rows) as (news & E & _ & Hp).
  rewrite E, filter_app. f_equal.
  rewrite skipn_app, skipn_all, Nat.sub_diag. simpl.
  destruct (Z.eqb_spec q pid) as [->|Hne].
  - apply filter_all. intros a Ha. apply Z.eqb_eq. now apply Hp.
  - apply filter_none. intros a Ha. apply Z.eqb_neq.
    rewrite (Hp a Ha). congruence.
Qed.

Lemma new_team_users (pid : Z) (user_ids : list Z)
    (rows : list ProjectAssignment.t) :
  map ProjectAssignment.user_id
      (skipn (List.length rows) (add_assignments pid user_ids rows))
  = user_ids.
Proof.
  destruct (add_assignments_appends pid user_ids rows) as (news & E & Hu & _).
  now rewrite E, skipn_app, skipn_all, Nat.sub_diag.
Qed.

Lemma team_member_filter (db : Db) (pid uid : Z) :
  team_member db pid uid
  <-> In uid (map ProjectAssignment.user_id
                  (filter (fun a => ProjectAssignment.project_id a =? pid)
                          (project_assignments db))).
Proof.
  unfold team_member. rewrite in_map_iff. split.
  - intros (a & Hin & Hp & Hu). exists a. split; [exact Hu|].
    apply filter_In. split; [exact Hin | now apply Z.eqb_eq].
  - intros (a & Hu & Hin). apply filter_In in Hin. destruct Hin as [Hin Hp].
    apply Z.eqb_eq in Hp. now exists a.
Qed.

(** X10. [create_project] is for admins and project managers: any other
    role, or none, gets 403. For them it stores a project under a new id
    with the principal as creator; when the stored assignment rows
    reference stored projects, the team of the new project is exactly the
    posted list of users (empty when none is posted), the teams of the
    other projects are as before, and no task is touched. *)
Theorem create_project_gate_and_team (db : Db) (current_user : User.t)
    (project : ProjectCreate.t) :
  assignments_reference_projects db ->
  ((forall r, User.role current_user = Some r ->
              r <> "admin" /\ r <> "project_manager") ->
   create_project db current_user project
   = Raise (HTTPException 403
              "Only admins and project managers can create projects"))
  /\ (User.role current_user = Some "admin"
      \/ User.role current_user = Some "project_manager" ->
      exists db' r,
        create_project db current_user project = Ok (db', Ok r)
        /\ ~ project_exists db (Project.project_id (ProjectResponse.project r))
        /\ find_project db' (Some (Project.project_id
                                     (ProjectResponse.project r)))
           = Some (ProjectResponse.project r)
        /\ Project.created_by (ProjectResponse.project r)
           = Some (User.user_id current_user)
        /\ ProjectResponse.assigned_users r
           = match ProjectCreate.assigned_user_ids project with
             | Some user_ids => user_ids
             | None => []
             end
        /\ (forall q uid, project_exists db q ->
                          (team_member db' q uid <-> team_member db q uid))
        /\ tasks db' = tasks db).
Proof.
  intros Href. unfold create_project. split.
  - intros Hrole.
    assert (E : role_in current_user ["admin"; "project_manager"] = false).
    { unfold role_in, role_is. simpl.
      destruct (User.role current_user) as [r|]; [|reflexivity].
      destruct (Hrole r eq_refl) as [Ha Hp].
      apply String.eqb_neq in Ha, Hp. now rewrite Ha, Hp. }
    now rewrite E.
  - intros Hrole.
    assert (E : role_in current_user ["admin"; "project_manager"] = true).
    { unfold role_in, role_is. destruct Hrole as [-> | ->]; reflexivity. }
    rewrite E. simpl negb. cbv iota.
    set (pid := fresh_id (map Project.project_id (projects db))).
    assert (Hfresh : ~ project_exists db pid) by apply fresh_id_new.
    assert (Hold : forall a, In a (project_assignments db) ->
                             (ProjectAssignment.project_id a =? pid) = false).
    { intros a Ha. apply Z.eqb_neq. intros Eq. apply Hfresh. rewrite <- Eq.
      now apply Href. }
    eexists _, _. split; [reflexivity|]. simpl. fold pid.
    split; [exact Hfresh|]. split.
    { apply (find_app_new Project.project_id); [exact Hfresh | reflexivity]. }
    split; [reflexivity|]. split; [|split; [|reflexivity]].
    + unfold assignments_of. simpl. fold pid.
      destruct (ProjectCreate.assigned_user_ids project) as [user_ids|].
      * rewrite team_after_add, Z.eqb_refl, (filter_none _ _ Hold). simpl.
        apply new_team_users.
      * now rewrite (filter_none _ _ Hold).
    + intros q uid Hq. rewrite !team_member_filter. simpl.
      destruct (ProjectCreate.assigned_user_ids project) as [user_ids|];
        [|reflexivity].
      rewrite team_after_add.
      destruct (Z.eqb_spec q pid) as [->|_]; [contradiction|].
      now rewrite app_nil_r.
Qed.

Lemma create_project_gate_and_team_witness :
  create_project Yard.db Yard.eve
    (ProjectCreate.mk "Deck" None None None None None planning None
                      (Some [3; 4]))
  = Raise (HTTPException 403
             "Only admins and project managers can create projects")
  /\ exists db' r,
       create_project Yard.db Yard.quinn
         (ProjectCreate.mk "Deck" None None None None None planning None
                           (Some [3; 4])) = Ok (db', Ok r)
       /\ ProjectResponse.assigned_users r = [3; 4]
       /\ Project.created_by (ProjectResponse.project r) = Some 8.
Proof.
  split.
  - apply (create_project_gate_and_team Yard.db Yard.eve _
             yard_assignments_reference_projects).
    intros r E. injection E as <-. split; discriminate.
  - destruct (create_project_gate_and_team Yard.db Yard.quinn
                (ProjectCreate.mk "Deck" None None None None None planning
                                  None (Some [3; 4]))
                yard_assignments_reference_projects) as [_ Hok].
    destruct (Hok (or_intror eq_refl))
      as (db' & r & Hcreate & _ & _ & Hby & Hteam & _).
    exists db', r. now repeat split.
Defined.

Lemma apply_project_update_ok (project : Project.t) (u : ProjectUpdate.t) :
  ProjectUpdate.project_name u <> Some None ->
  exists project',
    apply_project_update project u = Ok project'
    /\ Project.project_id project' = Project.project_id project
    /\ Project.created_by project' = Project.created_by project
    /\ Project.status project'
       = match ProjectUpdate.status u with
         | Some v => v
         | None => Project.status project
         end.
Proof.
  intros Hn. unfold apply_project_update.
  destruct (ProjectUpdate.project_name u) as [[n|]|]; [| congruence |];
    simpl; eexists; repeat split.
Qed.

(** The response that closes [create_project] and [update_project]: the
    written project with the user ids of its assignment rows, or a
    validation error when the status of the project is null. *)
Lemma project_response (db : Db) (p : Project.t) :
  (Project.status p <> None ->
   exists r, with_assigned_users db p = Ok r
             /\ ProjectResponse.project r = p
             /\ ProjectResponse.assigned_users r
                = map ProjectAssignment.user_id (assignments_of db p))
  /\ (Project.status p = None ->
      with_assigned_users db p = Raise ValidationError).
Proof.
  split.
  - intros Hs. now apply with_assigned_users_returns.
  - intros Hs. apply with_assigned_users_refuses. intros H. now apply H.
Qed.

(** X11. An [update_project] that names the project, unless it nulls the
    name, is committed; when it posts [assigned_user_ids] it replaces the
    team: afterwards the members of the project are exactly the posted
    users, whoever was on the team before, and a response that is
    returned lists them in the posted order. Without [assigned_user_ids]
    all assignment rows are kept. In both cases the teams of the other
    projects and all tasks are as before. The response is returned when
    the written status is not null, and is a validation error, after the
    commit, when it is. *)
Theorem update_project_replaces_team (db : Db) (current_user : User.t)
    (project_id : Z) (u : ProjectUpdate.t) (project : Project.t) :
  find_project db (Some project_id) = Some project ->
  ProjectUpdate.project_name u <> Some None ->
  exists db' project',
    update_project db current_user project_id u
    = Ok (db', with_assigned_users db' project')
    /\ find_project db' (Some project_id) = Some project'
    /\ (forall user_ids,
          ProjectUpdate.assigned_user_ids u = Some user_ids ->
          (forall uid, team_member db' project_id uid <-> In uid user_ids)
          /\ forall r, with_assigned_users db' project' = Ok r ->
                       ProjectResponse.assigned_users r = user_ids)
    /\ (ProjectUpdate.assigned_user_ids u = None ->
        project_assignments db' = project_assignments db)
    /\ (forall q uid, q <> project_id ->
                      (team_member db' q uid <-> team_member db q uid))
    /\ tasks db' = tasks db
    /\ Project.status project'
       = match ProjectUpdate.status u with
         | Some v => v
         | None => Project.status project
         end
    /\ (Project.status project' <> None ->
        exists r, with_assigned_users db' project' = Ok r
                  /\ ProjectResponse.project r = project')
    /\ (Project.status project' = None ->
        with_assigned_users db' project' = Raise ValidationError).
Proof.
  intros Hfind Hn. unfold update_project. rewrite Hfind.
  destruct (apply_project_update_ok project u Hn)
    as (project' & -> & Hid & _ & Hstatus).
  destruct (find_key_some Project.project_id _ _ _ Hfind) as [_ Hpid].
  simpl bind.
  match goal with
  | |- exists d q, Ok (?x, _) = _ /\ _ => set (db' := x)
  end.
  exists db', project'. split; [reflexivity|].
  assert (Hkey : Project.project_id project' = project_id) by congruence.
  assert (Hgone :
            filter (fun a => ProjectAssignment.project_id a =? project_id)
                   (filter (fun a => negb (ProjectAssignment.project_id a
                                           =? project_id))
                           (project_assignments db)) = []).
  { apply filter_none. intros a Ha. apply filter_In in Ha.
    now apply negb_true_iff. }
  split.
  { unfold find_project. subst db'. simpl projects.
    apply (find_replace_first Project.project_id) with (old := project);
      assumption. }
  split; [|split; [|split; [|split; [reflexivity|split; [exact Hstatus|]]]]].
  - intros user_ids Eu.
    assert (Hteam :
              map ProjectAssignment.user_id
                  (filter (fun a => ProjectAssignment.project_id a
                                    =? project_id)
                          (project_assignments db'))
              = user_ids).
    { subst db'. simpl project_assignments. rewrite Eu. unfold replace_team.
      rewrite team_after_add, Z.eqb_refl, Hgone. simpl.
      apply new_team_users. }
    split.
    + intros uid. rewrite team_member_filter. now rewrite Hteam.
    + intros r Hr. apply with_assigned_users_ok in Hr.
      destruct Hr as (_ & -> & _). unfold assignments_of.
      rewrite Hkey. exact Hteam.
  - intros Eu. subst db'. simpl. now rewrite Eu.
  - intros q uid Hne. rewrite !team_member_filter. subst db'.
    simpl project_assignments. unfold replace_team.
    destruct (ProjectUpdate.assigned_user_ids u) as [user_ids|];
      [|reflexivity].
    rewrite team_after_add.
    destruct (Z.eqb_spec q project_id) as [E|_]; [contradiction|].
    rewrite app_nil_r.
    assert (E : filter (fun a => ProjectAssignment.project_id a =? q)
                       (filter (fun a => negb (ProjectAssignment.project_id a
                                               =? project_id))
                               (project_assignments db))
                = filter (fun a => ProjectAssignment.project_id a =? q)
                         (project_assignments db)).
    { rewrite <- filter_andb. apply filter_ext. intros a.
      destruct (Z.eqb_spec (ProjectAssignment.project_id a) q) as [Eq|_];
        [|apply andb_false_r].
      rewrite andb_true_r. apply negb_true_iff, Z.eqb_neq. congruence. }
    now rewrite E.
  - destruct (project_response db' project') as [Hok Herr]. split.
    + intros Hs. destruct (Hok Hs) as (r & Hr & Hp & _). now exists r.
    + exact Herr.
Qed.

(** Pat replaces the hull team (Eve, Tom) by Finn and Tom. *)
Lemma update_project_replaces_team_witness :
  exists db' r,
    update_project Yard.db Yard.pat 1 (Yard.new_team [5; 4]) = Ok (db', Ok r)
    /\ ProjectResponse.assigned_users r = [5; 4]
    /\ ~ team_member db' 1 3
    /\ (team_member db' 2 5 <-> team_member Yard.db 2 5).
Proof.
  destruct (update_project_replaces_team Yard.db Yard.pat 1
              (Yard.new_team [5; 4]) Yard.hull eq_refl)
    as (db' & project' & Hupd & _ & Hnew & _ & Hother & _ & Hstatus & Hok & _).
  { discriminate. }
  destruct Hok as (r & Hr & _); [rewrite Hstatus; discriminate|].
  rewrite Hr in Hupd. exists db', r. split; [exact Hupd|].
  destruct (Hnew [5; 4] eq_refl) as [Hteam Hresp].
  split; [exact (Hresp r Hr)|]. split.
  - intros Hm. apply Hteam in Hm. simpl in Hm. intuition discriminate.
  - apply Hother. discriminate.
Defined.

(** X12. [update_project] cannot change who created a project or its
    id: after a committed update the project is found under the same id
    with the same creator, the ids of the stored projects are the same
    list, and every other project is read unchanged. An explicit null for
    the name is refused by the database and nothing is committed; an
    explicit null for the status is committed, and the response is then a
    validation error. *)
Theorem update_project_keeps_identity (db : Db) (current_user : User.t)
    (project_id : Z) (u : ProjectUpdate.t) (project : Project.t) :
  find_project db (Some project_id) = Some project ->
  (ProjectUpdate.project_name u = Some None ->
   update_project db current_user project_id u = Raise IntegrityError)
  /\ (ProjectUpdate.project_name u <> Some None ->
      exists db' project',
        update_project db current_user project_id u
        = Ok (db', with_assigned_users db' project')
        /\ find_project db' (Some project_id) = Some project'
        /\ Project.project_id project' = project_id
        /\ Project.created_by project' = Project.created_by project
        /\ map Project.project_id (projects db')
           = map Project.project_id (projects db)
        /\ (forall q, q <> project_id ->
                      find_project db' (Some q) = find_project db (Some q))
        /\ (ProjectUpdate.status u <> Some None ->
            Project.status project <> None ->
            exists r, with_assigned_users db' project' = Ok r
                      /\ ProjectResponse.project r = project')
        /\ (ProjectUpdate.status u = Some None ->
            Project.status project' = None
            /\ with_assigned_users db' project' = Raise ValidationError)).
Proof.
  intros Hfind. unfold update_project. rewrite Hfind.
  destruct (find_key_some Project.project_id _ _ _ Hfind) as [_ Hpid].
  split.
  - intros Hn. unfold apply_project_update. rewrite Hn. reflexivity.
  - intros Hn.
    destruct (apply_project_update_ok project u Hn)
      as (project' & -> & Hid & Hby & Hstatus).
    simpl bind.
    match goal with
    | |- exists d q, Ok (?x, _) = _ /\ _ => set (db' := x)
    end.
    exists db', project'. split; [reflexivity|].
    assert (Hkey : Project.project_id project' = project_id) by congruence.
    split.
    { unfold find_project. subst db'. simpl projects.
      apply (find_replace_first Project.project_id) with (old := project);
        assumption. }
    split; [exact Hkey|]. split; [exact Hby|]. split.
    { subst db'. simpl projects.
      now apply (replace_first_keys Project.project_id). }
    split.
    { intros q Hne. unfold find_project. subst db'. simpl projects.
      now apply (find_replace_first_other Project.project_id). }
    destruct (project_response db' project') as [Hok Herr]. split.
    + intros Hu Hp. destruct Hok as (r & Hr & Hproj & _).
      * rewrite Hstatus. destruct (ProjectUpdate.status u) as [[v|]|];
          [discriminate | congruence | exact Hp].
      * now exists r.
    + intros Hu. rewrite Hu in Hstatus. split; [exact Hstatus|].
      now apply Herr.
Qed.

Lemma update_project_keeps_identity_witness :
  update_project Yard.db Yard.eve 1
    (ProjectUpdate.mk (Some None) None None None None None None None None)
  = Raise IntegrityError
  /\ (exists db' r,
        update_project Yard.db Yard.eve 1 (Yard.rename "Hull overhaul")
        = Ok (db', Ok r)
        /\ Project.created_by (ProjectResponse.project r) = Some 2
        /\ find_project db' (Some 2) = Some Yard.engine)
  /\ exists db',
       update_project Yard.db Yard.eve 1
         (ProjectUpdate.mk None None None None None None (Some None) None
                           None)
       = Ok (db', Raise ValidationError)
       /\ option_map Project.status (find_project db' (Some 1)) = Some None.
Proof.
  split; [|split].
  - now apply (update_project_keeps_identity Yard.db Yard.eve 1 _ Yard.hull).
  - destruct (update_project_keeps_identity Yard.db Yard.eve 1
                (Yard.rename "Hull overhaul") Yard.hull eq_refl)
      as [_ Hok].
    destruct Hok as (db' & project' & Hupd & _ & _ & Hby & _ & Hother
                     & Hresp & _);
      [discriminate|].
    destruct Hresp as (r & Hr & Hproj); [discriminate | discriminate |].
    rewrite Hr in Hupd. exists db', r. split; [exact Hupd|].
    rewrite Hproj. split; [exact Hby|].
    rewrite Hother by discriminate. reflexivity.
  - destruct (update_project_keeps_identity Yard.db Yard.eve 1
                (ProjectUpdate.mk None None None None None None (Some None)
                                  None None) Yard.hull eq_refl)
      as [_ Hok].
    destruct Hok as (db' & project' & Hupd & Hfound & _ & _ & _ & _ & _
                     & Hnull);
      [discriminate|].
    destruct (Hnull eq_refl) as [Hstatus Hraise].
    rewrite Hraise in Hupd. exists db'. split; [exact Hupd|].
    rewrite Hfound. simpl. now rewrite Hstatus.
Defined.

(** X13. [delete_project] raises 404 for a missing project and
    otherwise removes the project with everything that hangs on it:
    afterwards the project is not found, no task, blueprint or assignment
    row refers to it, the rows of the other projects are all kept, and the
    assignment invariant still holds when it held before. *)
Theorem delete_project_cascades (db : Db) (current_user : User.t)
    (project_id : Z) :
  (find_project db (Some project_id) = None ->
   delete_project db current_user project_id
   = Raise (HTTPException 404 "Project not found"))
  /\ (project_exists db project_id ->
      exists db',
        delete_project db current_user project_id = Ok (db', tt)
        /\ (forall reader,
              get_project db' reader project_id
              = Raise (HTTPException 404 "Project not found"))
        /\ (forall t, In t (tasks db') <->
                      In t (tasks db) /\ Task.project_id t <> project_id)
        /\ (forall b, In b (blueprints db') <->
                      In b (blueprints db)
                      /\ Blueprint.project_id b <> project_id)
        /\ (forall a, In a (project_assignments db') <->
                      In a (project_assignments db)
                      /\ ProjectAssignment.project_id a <> project_id)
        /\ (forall q, q <> project_id ->
                      find_project db' (Some q) = find_project db (Some q))
        /\ (assignment_integrity db -> assignment_integrity db')).
Proof.
  unfold delete_project. split.
  - intros ->. reflexivity.
  - intros Hex.
    destruct (find_project db (Some project_id)) as [project|] eqn:Hfind.
    2:{ apply find_project_none in Hfind. contradiction. }
    eexists. split; [reflexivity|].
    assert (Hkeep : forall (A : Type) (key : A -> Z) (rows : list A) (x : A),
               In x (filter (fun r => negb (key r =? project_id)) rows)
               <-> In x rows /\ key x <> project_id).
    { intros A key rows x. rewrite filter_In, negb_true_iff, Z.eqb_neq.
      reflexivity. }
    split; [|split; [|split; [|split; [|split]]]].
    + intros reader. unfold get_project, find_project. simpl.
      now rewrite (find_filter_removed Project.project_id).
    + intros t. simpl. apply Hkeep.
    + intros b. simpl. apply Hkeep.
    + intros a. simpl. apply Hkeep.
    + intros q Hne. unfold find_project. simpl.
      now apply (find_filter_other Project.project_id).
    + intros Hinv t a Hin Ha. simpl in Hin.
      apply (Hkeep _ Task.project_id) in Hin. destruct Hin as [Hin Hne].
      destruct (Hinv t a Hin Ha) as (row & Hrow & Hp & Hu).
      exists row. split; [|now split]. simpl.
      apply (Hkeep _ ProjectAssignment.project_id). split; [exact Hrow|].
      congruence.
Qed.

Lemma delete_project_cascades_witness :
  delete_project Yard.db Yard.alice 7
  = Raise (HTTPException 404 "Project not found")
  /\ exists db',
       delete_project Yard.db Yard.alice 1 = Ok (db', tt)
       /\ map Task.task_id (tasks db') = [4; 5]
       /\ assignment_integrity db'
       /\ get_project db' Yard.alice 1
          = Raise (HTTPException 404 "Project not found").
Proof.
  destruct (delete_project_cascades Yard.db Yard.alice 7) as [Hmissing _].
  destruct (delete_project_cascades Yard.db Yard.alice 1) as [_ Hstored].
  split; [apply Hmissing; reflexivity|].
  destruct Hstored as (db' & Hdel & Hgone & _ & _ & _ & _ & Hinv).
  { unfold project_exists. simpl. auto. }
  exists db'. split; [exact Hdel|]. split.
  - vm_compute in Hdel. injection Hdel as <-. reflexivity.
  - split; [exact (Hinv yard_integrity) | apply Hgone].
Defined.

Lemma get_projects_query_stored (db : Db) (cu : User.t) (skip limit : nat)
    (p : Project.t) :
  In p (get_projects_query db cu skip limit) -> In p (projects db).
Proof.
  unfold get_projects_query. intros Hp.
  destruct (role_is cu "admin"); [now apply in_paginate in Hp|].
  destruct (role_is cu "project_manager");
    apply in_paginate, filter_In in Hp; exact (proj1 Hp).
Qed.

Lemma get_projects_listed (db : Db) (cu : User.t) (skip limit : nat)
    (listed : list ProjectResponse.t) (r : ProjectResponse.t) :
  get_projects db cu skip limit = Ok listed ->
  In r listed ->
  exists p, In p (projects db) /\ enrich_project db p = Ok r.
Proof.
  unfold get_projects. intros Hlisted H.
  destruct (for_each_in _ _ _ _ Hlisted H) as (p & Hp & Hr).
  exists p. split; [|exact Hr]. now apply get_projects_query_stored in Hp.
Qed.

(** X14. What the project list shows, with a page that covers the
    table. A list that is returned holds, for an admin, every project; for
    a project manager exactly the projects they created; for an engineer
    or technician exactly the projects on whose team they are. The list is
    returned when every project of the role's query has a status, and one
    of them with a null status makes it raise a validation error. *)
Theorem get_projects_visibility (db : Db) (current_user : User.t)
    (limit : nat) :
  (List.length (projects db) <= limit)%nat ->
  (forall listed,
      get_projects db current_user 0 limit = Ok listed ->
      (User.role current_user = Some "admin" ->
       map ProjectResponse.project listed = projects db)
      /\ (User.role current_user = Some "project_manager" ->
          forall p, In p (map ProjectResponse.project listed) <->
                    In p (projects db)
                    /\ Project.created_by p
                       = Some (User.user_id current_user))
      /\ (engineer_or_technician current_user ->
          forall p, In p (map ProjectResponse.project listed) <->
                    In p (projects db)
                    /\ team_member db (Project.project_id p)
                                   (User.user_id current_user)))
  /\ ((forall p, In p (get_projects_query db current_user 0 limit) ->
                 Project.status p <> None) ->
      exists listed, get_projects db current_user 0 limit = Ok listed)
  /\ (forall p, In p (get_projects_query db current_user 0 limit) ->
                Project.status p = None ->
                get_projects db current_user 0 limit = Raise ValidationError).
Proof.
  intros Hlimit. split; [|split].
  - intros listed Hlisted. rewrite (get_projects_rows _ _ _ _ _ Hlisted).
    unfold get_projects_query. split; [|split].
    + intros Hrole. destruct (admin_branch _ Hrole) as (-> & _).
      now rewrite paginate_all.
    + intros Hrole p. destruct (manager_branch _ Hrole) as (-> & -> & _).
      rewrite (paginate_filtered_projects _ _ Hlimit), filter_In,
        opt_eqb_true. reflexivity.
    + intros Hrole p.
      destruct (engineer_or_technician_branch _ Hrole) as (-> & -> & _).
      rewrite (paginate_filtered_projects _ _ Hlimit), filter_In,
        in_true, in_map_iff.
      split; intros [Hin H]; (split; [exact Hin|]).
      * destruct H as (a & Hp & Ha). apply filter_In in Ha.
        destruct Ha as [Ha Hu]. apply Z.eqb_eq in Hu. now exists a.
      * destruct H as (a & Ha & Hp & Hu). exists a. split; [exact Hp|].
        apply filter_In. split; [exact Ha | now apply Z.eqb_eq].
  - intros Hall. unfold get_projects. apply for_each_returns.
    intros p Hp. destruct (enrich_project_returns db p (Hall p Hp))
      as (r & Hr & _).
    now exists r.
  - intros p Hp Hs. unfold get_projects.
    apply for_each_refuses with (x := p); [|exact Hp|].
    + intros p' e'. apply enrich_project_only.
    + apply enrich_project_refuses. intros H. now apply H.
Qed.

Lemma get_projects_visibility_witness :
  (exists listed,
      get_projects Yard.db Yard.alice 0 100 = Ok listed
      /\ map (fun r => Project.project_id (ProjectResponse.project r)) listed
         = [1; 2])
  /\ (exists listed,
        get_projects Yard.db Yard.quinn 0 100 = Ok listed
        /\ ~ In Yard.hull (map ProjectResponse.project listed))
  /\ exists listed,
       get_projects Yard.db Yard.tom 0 100 = Ok listed
       /\ In Yard.hull (map ProjectResponse.project listed)
       /\ ~ In Yard.engine (map ProjectResponse.project listed).
Proof.
  assert (Hlimit : (List.length (projects Yard.db) <= 100)%nat)
    by (simpl; lia).
  destruct (get_projects_visibility Yard.db Yard.alice 100 Hlimit)
    as (Hadmin & _ & _).
  destruct (get_projects_visibility Yard.db Yard.quinn 100 Hlimit)
    as (Hpm & _ & _).
  destruct (get_projects_visibility Yard.db Yard.tom 100 Hlimit)
    as (Htech & _ & _).
  split; [|split].
  - eexists. split; [reflexivity|].
    rewrite <- map_map. rewrite (proj1 (Hadmin _ eq_refl) eq_refl).
    reflexivity.
  - eexists. split; [reflexivity|].
    destruct (Hpm _ eq_refl) as (_ & Hown & _).
    intros Hin. apply (Hown eq_refl) in Hin. destruct Hin as [_ Hby].
    discriminate Hby.
  - eexists. split; [reflexivity|].
    destruct (Htech _ eq_refl) as (_ & _ & Hteam).
    split.
    + apply (Hteam (or_intror eq_refl)). split; [simpl; auto|].
      apply is_assigned_iff. reflexivity.
    + intros Hin. apply (Hteam (or_intror eq_refl)) in Hin.
      destruct Hin as [_ Hm]. apply is_assigned_iff in Hm. discriminate Hm.
Defined.

(** X15. List and detail agree for projects: with unique project ids,
    every row of a returned [get_projects], for any principal and page,
    is returned identically by [get_project] for the row's id; and
    [get_project] itself hides nothing: for every stored project it gives
    every principal the same outcome, which is the project when its status
    is set and a validation error when it is null. *)
Theorem get_project_agrees_with_list (db : Db) (current_user : User.t)
    (skip limit : nat) :
  unique_project_ids db ->
  (forall listed r,
      get_projects db current_user skip limit = Ok listed ->
      In r listed ->
      get_project db current_user
                  (Project.project_id (ProjectResponse.project r))
      = Ok r)
  /\ forall reader p,
       In p (projects db) ->
       get_project db reader (Project.project_id p) = enrich_project db p
       /\ (Project.status p <> None ->
           exists r, get_project db reader (Project.project_id p) = Ok r
                     /\ ProjectResponse.project r = p
                     /\ ProjectResponse.assigned_users r
                        = map ProjectAssignment.user_id (assignments_of db p))
       /\ (Project.status p = None ->
           get_project db reader (Project.project_id p)
           = Raise ValidationError).
Proof.
  intros Hnd.
  assert (Hall : forall reader p, In p (projects db) ->
                                  get_project db reader (Project.project_id p)
                                  = enrich_project db p).
  { intros reader p Hin. unfold get_project, find_project.
    now rewrite (find_unique_key Project.project_id _ _ p Hnd Hin eq_refl). }
  split.
  - intros listed r Hlisted Hin.
    destruct (get_projects_listed _ _ _ _ _ _ Hlisted Hin)
      as (p & Hstored & Hr).
    rewrite (enrich_project_row _ _ _ Hr), <- Hr. now apply Hall.
  - intros reader p Hin. rewrite (Hall reader p Hin).
    split; [reflexivity|]. split.
    + intros Hs. unfold enrich_project, ProjectResponse.from_orm.
      destruct (Project.status p); [|congruence].
      simpl. eexists. repeat split.
    + intros Hs. apply enrich_project_refuses. intros H. now apply H.
Qed.

(** Eve is not on the engine team and does not see the engine project in
    the list, but its detail is returned to Eve. *)
Lemma get_project_agrees_with_list_witness :
  (exists r, get_project Yard.db Yard.eve 2 = Ok r
             /\ ProjectResponse.project r = Yard.engine)
  /\ (exists listed,
        get_projects Yard.db Yard.eve 0 100 = Ok listed
        /\ map (fun r => Project.project_id (ProjectResponse.project r))
               listed = [1])
  /\ exists r, get_project Yard.db Yard.eve 1 = Ok r
               /\ ProjectResponse.assigned_users r = [3; 4].
Proof.
  destruct (get_project_agrees_with_list Yard.db Yard.eve 0 100
              yard_unique_project_ids) as [Hlist Hany].
  split; [|split].
  - destruct (Hany Yard.eve Yard.engine) as (_ & Hok & _); [simpl; auto|].
    destruct Hok as (r & Hr & Hp & _); [discriminate|]. now exists r.
  - eexists. split; reflexivity.
  - destruct (Hany Yard.eve Yard.hull) as (_ & Hok & _); [simpl; auto|].
    destruct Hok as (r & Hr & _ & Hu); [discriminate|]. exists r.
    split; [exact Hr|]. rewrite Hu. reflexivity.
Defined.

(** ** Blueprints: listing, download and update (blueprints.py) *)

Lemma not_engineer_or_technician (cu : User.t) :
  ~ engineer_or_technician cu ->
  role_in cu ["engineer"; "technician"] = false.
Proof.
  unfold engineer_or_technician, role_in, role_is. simpl. intros H.
  destruct (User.role cu) as [r|]; [|reflexivity].
  destruct (String.eqb_spec r "engineer") as [->|_]; [tauto|].
  destruct (String.eqb_spec r "technician") as [->|_]; [tauto|].
  reflexivity.
Qed.

Lemma active_true (b : Blueprint.t) :
  active b = true <-> Blueprint.is_active b = Some true.
Proof.
  unfold active. destruct (Blueprint.is_active b) as [[|]|];
    split; congruence.
Qed.

(** The rows of [get_blueprints] without project filter and with a page
    that covers the table. *)
Lemma get_blueprints_unpaged (db : Db) (cu : User.t) (limit : nat) :
  (List.length (blueprints db) <= limit)%nat ->
  get_blueprints db cu None 0 limit
  = for_each (with_uploader db)
      (if role_in cu ["engineer"; "technician"]
       then filter (fun b => in_ (Blueprint.project_id b)
                                 (assigned_project_ids db (User.user_id cu)))
                   (filter active (blueprints db))
       else filter active (blueprints db)).
Proof.
  intros Hlimit. unfold get_blueprints. simpl truthy. cbv iota.
  rewrite paginate_all; [reflexivity|].
  destruct (role_in cu ["engineer"; "technician"]).
  - etransitivity; [apply filter_length_le|].
    etransitivity; [apply filter_length_le | exact Hlimit].
  - etransitivity; [apply filter_length_le | exact Hlimit].
Qed.

(** X16. What the blueprint list shows, with no project filter and a
    page that covers the table. A list that is returned holds, for an
    engineer or technician, exactly the active blueprints of the projects
    on whose team they are, and for every other principal, whatever the
    role and even without one, every active blueprint. The list is
    returned when every active blueprint has a version, and an active
    blueprint without version makes the list of everyone who would see it
    raise a validation error. *)
Theorem get_blueprints_visibility (db : Db) (current_user : User.t)
    (limit : nat) :
  (List.length (blueprints db) <= limit)%nat ->
  (forall listed,
      get_blueprints db current_user None 0 limit = Ok listed ->
      (engineer_or_technician current_user ->
       forall b, In b (map BlueprintSchema.blueprint listed) <->
                 In b (blueprints db)
                 /\ Blueprint.is_active b = Some true
                 /\ team_member db (Blueprint.project_id b)
                                (User.user_id current_user))
      /\ (~ engineer_or_technician current_user ->
          forall b, In b (map BlueprintSchema.blueprint listed) <->
                    In b (blueprints db)
                    /\ Blueprint.is_active b = Some true))
  /\ ((forall b, In b (blueprints db) ->
                 Blueprint.is_active b = Some true ->
                 Blueprint.version b <> None) ->
      exists listed, get_blueprints db current_user None 0 limit = Ok listed)
  /\ (forall b,
        In b (blueprints db) ->
        Blueprint.is_active b = Some true ->
        Blueprint.version b = None ->
        ~ engineer_or_technician current_user
        \/ team_member db (Blueprint.project_id b)
                       (User.user_id current_user) ->
        get_blueprints db current_user None 0 limit = Raise ValidationError).
Proof.
  intros Hlimit. rewrite (get_blueprints_unpaged _ _ _ Hlimit).
  split; [|split].
  - intros listed Hlisted.
    rewrite (for_each_rows _ _ (with_uploader_row db) _ _ Hlisted).
    split.
    + intros Hrole b.
      destruct (engineer_or_technician_branch _ Hrole) as (_ & _ & ->).
      rewrite !filter_In, in_assigned_project_ids, is_assigned_iff,
        active_true. tauto.
    + intros Hrole b. rewrite (not_engineer_or_technician _ Hrole).
      now rewrite filter_In, active_true.
  - intros Hall. apply for_each_returns. intros b Hb.
    assert (Hact : In b (filter active (blueprints db))).
    { destruct (role_in current_user ["engineer"; "technician"]);
        [apply filter_In in Hb; exact (proj1 Hb) | exact Hb]. }
    apply filter_In in Hact. destruct Hact as [Hin Hact].
    apply active_true in Hact.
    rewrite with_uploader_returns; [now eexists|].
    split; [now apply Hall | congruence].
  - intros b Hin Hact Hversion Hseen.
    apply for_each_refuses with (x := b).
    + intros b' e'. apply with_uploader_only.
    + assert (Hrow : In b (filter active (blueprints db))).
      { apply filter_In. split; [exact Hin | now apply active_true]. }
      destruct (role_in current_user ["engineer"; "technician"]) eqn:Hrole;
        [|exact Hrow].
      apply filter_In. split; [exact Hrow|].
      rewrite in_assigned_project_ids. apply is_assigned_iff.
      destruct Hseen as [Hno|Hm]; [|exact Hm].
      rewrite (not_engineer_or_technician _ Hno) in Hrole. discriminate Hrole.
    + apply with_uploader_refuses. intros [Hv _]. now apply Hv.
Qed.

Lemma get_blueprints_visibility_witness :
  (exists listed,
      get_blueprints Yard.db Yard.ghost None 0 100 = Ok listed
      /\ map Blueprint.blueprint_id (map BlueprintSchema.blueprint listed)
         = [1; 2])
  /\ exists listed,
       get_blueprints Yard.db Yard.eve None 0 100 = Ok listed
       /\ ~ In (Yard.blueprint 2 2 "uploads/blueprints/engine.pdf")
               (map BlueprintSchema.blueprint listed)
       /\ In (Yard.blueprint 1 1 "uploads/blueprints/hull.pdf")
             (map BlueprintSchema.blueprint listed).
Proof.
  assert (Hlimit : (List.length (blueprints Yard.db) <= 100)%nat)
    by (simpl; lia).
  destruct (get_blueprints_visibility Yard.db Yard.eve 100 Hlimit)
    as (Hlist & _ & _).
  split.
  - eexists. split; reflexivity.
  - eexists. split; [reflexivity|].
    destruct (Hlist _ eq_refl) as [Heng _]. split.
    + intros Hin. apply (Heng (or_introl eq_refl)) in Hin.
      destruct Hin as (_ & _ & Hm). apply is_assigned_iff in Hm.
      discriminate Hm.
    + apply (Heng (or_introl eq_refl)). split; [simpl; auto|].
      split; [reflexivity|]. apply is_assigned_iff. reflexivity.
Defined.

Lemma path_exists_in (files : list string) (path : string) :
  path_exists files path = true <-> In path files.
Proof.
  unfold path_exists. rewrite existsb_exists. split.
  - intros (f & Hin & E). apply String.eqb_eq in E. now subst.
  - intros Hin. exists path. split; [exact Hin | apply String.eqb_refl].
Qed.

Lemma download_missing_file (db : Db) (files : list string) (reader : User.t)
    (blueprint_id : Z) (blueprint : Blueprint.t) :
  find_blueprint db blueprint_id = Some blueprint ->
  ~ engineer_or_technician reader
  \/ team_member db (Blueprint.project_id blueprint) (User.user_id reader) ->
  ~ In (Blueprint.file_path blueprint) files ->
  download_blueprint db files reader blueprint_id
  = Raise (HTTPException 404 "File not found on server").
Proof.
  intros Hfind Hallowed Hmissing. unfold download_blueprint. rewrite Hfind.
  assert (E : path_exists files (Blueprint.file_path blueprint) = false).
  { destruct (path_exists files (Blueprint.file_path blueprint)) eqn:E;
      [|reflexivity].
    apply path_exists_in in E. contradiction. }
  rewrite E. destruct Hallowed as [Hrole|Hm].
  - now rewrite (not_engineer_or_technician _ Hrole).
  - apply is_assigned_iff in Hm. rewrite Hm.
    now destruct (role_in reader ["engineer"; "technician"]).
Qed.

(** X17. The decision of [download_blueprint] on a stored blueprint: an
    engineer or technician outside the team of the blueprint's project
    gets 403; anyone else, and a team member, gets 404 when the file is
    not on disk and otherwise the file under its original name, with the
    stored content type or [application/octet-stream] when none is
    stored. Whether the blueprint is active plays no part. *)
Theorem download_blueprint_decision (db : Db) (files : list string)
    (current_user : User.t) (blueprint_id : Z) (blueprint : Blueprint.t) :
  find_blueprint db blueprint_id = Some blueprint ->
  (engineer_or_technician current_user ->
   ~ team_member db (Blueprint.project_id blueprint)
                 (User.user_id current_user) ->
   download_blueprint db files current_user blueprint_id
   = Raise (HTTPException 403 "You don't have access to this blueprint"))
  /\ (~ engineer_or_technician current_user
      \/ team_member db (Blueprint.project_id blueprint)
                     (User.user_id current_user) ->
      (~ In (Blueprint.file_path blueprint) files ->
       download_blueprint db files current_user blueprint_id
       = Raise (HTTPException 404 "File not found on server"))
      /\ (In (Blueprint.file_path blueprint) files ->
          exists media_type,
            download_blueprint db files current_user blueprint_id
            = Ok (FileResponse.mk (Blueprint.file_path blueprint)
                                  (Blueprint.original_name blueprint)
                                  media_type)
            /\ (forall s, Blueprint.file_type blueprint = Some s ->
                          s <> "" -> media_type = s)
            /\ (Blueprint.file_type blueprint = None ->
                media_type = "application/octet-stream"))).
Proof.
  intros Hfind. unfold download_blueprint. rewrite Hfind. split.
  - intros Hrole Hnot. apply is_assigned_false in Hnot.
    destruct (engineer_or_technician_branch _ Hrole) as (_ & _ & ->).
    now rewrite Hnot.
  - intros Hallowed.
    assert (Hgate :
              (if role_in current_user ["engineer"; "technician"]
               then if is_assigned db (Some (Blueprint.project_id blueprint))
                                   (User.user_id current_user)
                    then Ok tt
                    else Raise (HTTPException 403
                                  "You don't have access to this blueprint")
               else Ok tt) = Ok tt).
    { destruct Hallowed as [Hrole|Hm].
      - now rewrite (not_engineer_or_technician _ Hrole).
      - apply is_assigned_iff in Hm. rewrite Hm.
        now destruct (role_in current_user ["engineer"; "technician"]). }
    rewrite Hgate. simpl bind. split.
    + intros Hmissing.
      destruct (path_exists files (Blueprint.file_path blueprint)) eqn:E;
        [|reflexivity].
      apply path_exists_in in E. contradiction.
    + intros Hthere. apply path_exists_in in Hthere. rewrite Hthere.
      simpl negb. cbv iota. eexists. split; [reflexivity|]. split.
      * intros s -> Hs. unfold media_type_of.
        apply String.eqb_neq in Hs. now rewrite Hs.
      * intros ->. reflexivity.
Qed.

Lemma download_blueprint_decision_witness :
  download_blueprint Yard.db Yard.files Yard.eve 2
  = Raise (HTTPException 403 "You don't have access to this blueprint")
  /\ download_blueprint Yard.db [] Yard.eve 1
     = Raise (HTTPException 404 "File not found on server")
  /\ download_blueprint Yard.db Yard.files Yard.alice 2
     = Ok (FileResponse.mk "uploads/blueprints/engine.pdf"
                           "uploads/blueprints/engine.pdf"
                           "application/octet-stream").
Proof.
  destruct (download_blueprint_decision Yard.db Yard.files Yard.eve 2 _
              eq_refl) as [Hforbidden _].
  destruct (download_blueprint_decision Yard.db [] Yard.eve 1 _ eq_refl)
    as [_ Hmember].
  destruct (download_blueprint_decision Yard.db Yard.files Yard.alice 2 _
              eq_refl) as [_ Hadmin].
  split; [|split].
  - apply Hforbidden; [left; reflexivity|].
    apply is_assigned_false. reflexivity.
  - apply Hmember; [right; apply is_assigned_iff; reflexivity|].
    intros [].
  - destruct Hadmin as [_ Hfile].
    + left. intros [E|E]; discriminate E.
    + destruct Hfile as (m & Hdl & _ & Hnone); [simpl; auto|].
      rewrite Hdl, (Hnone eq_refl). reflexivity.
Defined.

(** X18. Delete, then download: once an admin or project manager has
    deleted a stored blueprint, its file is gone from disk while the row
    stays, so a download of it answers 404 "File not found on server" and
    not "Blueprint not found", to everyone who passes the team test; the
    files stored under other paths are still there. *)
Theorem download_after_delete (db : Db) (files : list string)
    (current_user : User.t) (blueprint_id : Z) (blueprint : Blueprint.t) :
  User.role current_user = Some "admin"
  \/ User.role current_user = Some "project_manager" ->
  find_blueprint db blueprint_id = Some blueprint ->
  exists db' files',
    delete_blueprint db files current_user blueprint_id
    = Ok (db', files', "Blueprint deleted successfully")
    /\ ~ In (Blueprint.file_path blueprint) files'
    /\ (forall f, In f files -> f <> Blueprint.file_path blueprint ->
                  In f files')
    /\ (forall reader,
          ~ engineer_or_technician reader
          \/ team_member db (Blueprint.project_id blueprint)
                         (User.user_id reader) ->
          download_blueprint db' files' reader blueprint_id
          = Raise (HTTPException 404 "File not found on server")).
Proof.
  intros Hrole Hfind.
  destruct (find_key_some Blueprint.blueprint_id _ _ _ Hfind) as [_ Hid].
  assert (Hgate : role_in current_user ["admin"; "project_manager"] = true).
  { unfold role_in, role_is. destruct Hrole as [-> | ->]; reflexivity. }
  unfold delete_blueprint. rewrite Hgate, Hfind. simpl negb. cbv iota.
  eexists _, _. split; [reflexivity|].
  set (path := Blueprint.file_path blueprint).
  set (files' := if existsb (String.eqb path) files
                 then filter (fun f => negb (String.eqb path f)) files
                 else files).
  assert (Hgone : ~ In path files').
  { subst files'. destruct (existsb (String.eqb path) files) eqn:E.
    - intros Hin. apply filter_In in Hin. destruct Hin as [_ Hne].
      now rewrite String.eqb_refl in Hne.
    - intros Hin. apply (path_exists_in files path) in Hin.
      unfold path_exists in Hin. congruence. }
  split; [exact Hgone|]. split.
  - intros f Hin Hne. subst files'.
    destruct (existsb (String.eqb path) files); [|exact Hin].
    apply filter_In. split; [exact Hin|].
    apply negb_true_iff, String.eqb_neq. congruence.
  - intros reader Hallowed.
    match goal with
    | |- download_blueprint ?d _ _ _ = _ => set (db' := d)
    end.
    assert (Hfind' : find_blueprint db' blueprint_id
                     = Some (deactivate blueprint)).
    { unfold find_blueprint. subst db'. simpl.
      apply (find_replace_first Blueprint.blueprint_id)
        with (old := blueprint); [exact Hid | exact Hfind]. }
    apply (download_missing_file db' files' reader blueprint_id
             (deactivate blueprint) Hfind'); [exact Hallowed | exact Hgone].
Qed.

Lemma download_after_delete_witness :
  exists db' files',
    delete_blueprint Yard.db Yard.files Yard.pat 1
    = Ok (db', files', "Blueprint deleted successfully")
    /\ files' = ["uploads/blueprints/engine.pdf"]
    /\ download_blueprint db' files' Yard.alice 1
       = Raise (HTTPException 404 "File not found on server")
    /\ download_blueprint db' files' Yard.eve 1
       = Raise (HTTPException 404 "File not found on server").
Proof.
  destruct (download_after_delete Yard.db Yard.files Yard.pat 1 _
              (or_intror eq_refl) eq_refl)
    as (db' & files' & Hdel & _ & _ & Hdl).
  exists db', files'. split; [exact Hdel|]. split.
  - vm_compute in Hdel. injection Hdel as _ <-. reflexivity.
  - split; apply Hdl.
    + left. intros [E|E]; discriminate E.
    + right. apply is_assigned_iff. reflexivity.
Defined.

(** X19. [update_blueprint] writes the posted fields, [is_active] and
    [version] among them and nulls included, for any of the four roles and
    refuses (403) every other principal, stored blueprint or not; project,
    file and uploader of the row are never changed. With unique blueprint
    ids, after a committed update a returned list contains the blueprint
    only if the written flag is true, and the returned list of a principal
    who is no engineer or technician does contain it then: an update can
    hide a blueprint, and bring a deleted one back, without the admin or
    project manager role that [delete_blueprint] asks for. When the
    written version is null and the flag is true, that list raises a
    validation error instead. *)
Theorem update_blueprint_controls_listing (db : Db) (current_user : User.t)
    (blueprint_id : Z) (u : BlueprintUpdate.t) :
  ((forall r, User.role current_user = Some r -> ~ In r recognised_roles) ->
   update_blueprint db current_user blueprint_id u
   = Raise (HTTPException 403 "Not authorized"))
  /\ (forall blueprint,
        (exists r, User.role current_user = Some r /\ In r recognised_roles) ->
        unique_blueprint_ids db ->
        find_blueprint db blueprint_id = Some blueprint ->
        exists db' written,
          update_blueprint db current_user blueprint_id u = Ok (db', written)
          /\ find_blueprint db' blueprint_id = Some written
          /\ Blueprint.is_active written
             = match BlueprintUpdate.is_active u with
               | Some v => v
               | None => Blueprint.is_active blueprint
               end
          /\ Blueprint.version written
             = match BlueprintUpdate.version u with
               | Some v => v
               | None => Blueprint.version blueprint
               end
          /\ Blueprint.project_id written = Blueprint.project_id blueprint
          /\ Blueprint.file_path written = Blueprint.file_path blueprint
          /\ Blueprint.uploaded_by written = Blueprint.uploaded_by blueprint
          /\ (forall reader project_id skip limit listed,
                get_blueprints db' reader project_id skip limit = Ok listed ->
                In blueprint_id
                   (map (fun x => Blueprint.blueprint_id
                                    (BlueprintSchema.blueprint x))
                        listed) ->
                Blueprint.is_active written = Some true)
          /\ (forall reader limit listed,
                ~ engineer_or_technician reader ->
                (List.length (blueprints db) <= limit)%nat ->
                get_blueprints db' reader None 0 limit = Ok listed ->
                Blueprint.is_active written = Some true ->
                In written (map BlueprintSchema.blueprint listed))
          /\ (forall reader limit,
                ~ engineer_or_technician reader ->
                (List.length (blueprints db) <= limit)%nat ->
                Blueprint.is_active written = Some true ->
                Blueprint.version written = None ->
                get_blueprints db' reader None 0 limit
                = Raise ValidationError)).
Proof.
  unfold update_blueprint. split.
  - intros Hnone.
    destruct (role_in current_user
                ["admin"; "project_manager"; "engineer"; "technician"]) eqn:E;
      [|reflexivity].
    apply role_in_recognised in E. destruct E as (r & Hr & Hin).
    elim (Hnone r Hr Hin).
  - intros blueprint Hrole Hnd Hfind. apply role_in_recognised in Hrole.
    rewrite Hrole, Hfind. simpl negb. cbv iota.
    destruct (find_key_some Blueprint.blueprint_id _ _ _ Hfind) as [_ Hid].
    match goal with
    | |- exists d w, Ok (?x, _) = _ /\ _ => set (db' := x)
    end.
    exists db', (apply_blueprint_update blueprint u).
    split; [reflexivity|].
    assert (Hfind' : find_blueprint db' blueprint_id
                     = Some (apply_blueprint_update blueprint u)).
    { unfold find_blueprint. subst db'. simpl blueprints.
      apply (find_replace_first Blueprint.blueprint_id)
        with (old := blueprint); [exact Hid | exact Hfind]. }
    assert (Hlength : List.length (blueprints db')
                      = List.length (blueprints db)).
    { subst db'. simpl blueprints.
      rewrite <- (length_map Blueprint.blueprint_id),
        (replace_first_keys Blueprint.blueprint_id), length_map;
        [reflexivity | exact Hid]. }
    split; [exact Hfind'|].
    do 5 (split; [reflexivity|]). split; [|split].
    + intros reader project_id skip limit listed Hlisted Hmem.
      apply in_map_iff in Hmem. destruct Hmem as (x & Hx & Hmem).
      destruct (get_blueprints_active _ _ _ _ _ _ _ Hlisted Hmem)
        as [Hrow Hact].
      assert (E : BlueprintSchema.blueprint x
                  = apply_blueprint_update blueprint u).
      { subst db'. simpl blueprints in Hrow.
        apply (replace_first_only Blueprint.blueprint_id blueprint_id
                 (apply_blueprint_update blueprint u) blueprint _
                 (blueprints db)); assumption. }
      now rewrite <- E.
    + intros reader limit listed Hreader Hlimit Hlisted Hact.
      rewrite <- Hlength in Hlimit.
      destruct (get_blueprints_visibility db' reader limit Hlimit)
        as (Hlist & _ & _).
      destruct (Hlist listed Hlisted) as [_ Hother].
      apply (Hother Hreader). split; [|exact Hact].
      unfold find_blueprint in Hfind'. apply find_some in Hfind'.
      exact (proj1 Hfind').
    + intros reader limit Hreader Hlimit Hact Hversion.
      rewrite <- Hlength in Hlimit.
      destruct (get_blueprints_visibility db' reader limit Hlimit)
        as (_ & _ & Hraise).
      apply (Hraise (apply_blueprint_update blueprint u));
        [|exact Hact|exact Hversion|now left].
      unfold find_blueprint in Hfind'. apply find_some in Hfind'.
      exact (proj1 Hfind').
Qed.

(** A guest is refused; Eve, an engineer, hides the engine blueprint
    with an update, and no list shows it any more; and when Eve nulls the
    version of the hull blueprint, the admin's list raises. *)
Lemma update_blueprint_controls_listing_witness :
  update_blueprint Yard.db Yard.ghost 1
    (BlueprintUpdate.mk None None (Some (Some false)))
  = Raise (HTTPException 403 "Not authorized")
  /\ (exists db' written listed,
        update_blueprint Yard.db Yard.eve 2
          (BlueprintUpdate.mk None None (Some (Some false)))
        = Ok (db', written)
        /\ get_blueprints db' Yard.alice None 0 100 = Ok listed
        /\ map (fun x => Blueprint.blueprint_id (BlueprintSchema.blueprint x))
               listed = [1])
  /\ exists db' written,
       update_blueprint Yard.db Yard.eve 1 Yard.null_version
       = Ok (db', written)
       /\ get_blueprints db' Yard.alice None 0 100 = Raise ValidationError.
Proof.
  destruct (update_blueprint_controls_listing Yard.db Yard.ghost 1
              (BlueprintUpdate.mk None None (Some (Some false))))
    as [Hrefused _].
  destruct (update_blueprint_controls_listing Yard.db Yard.eve 1
              Yard.null_version)
    as [_ Hwritten].
  assert (Heve : exists r, User.role Yard.eve = Some r
                           /\ In r recognised_roles).
  { exists "engineer". split; [reflexivity|]. simpl. auto. }
  split; [|split].
  - apply Hrefused. intros r E. injection E as <-. simpl.
    intuition discriminate.
  - eexists _, _, _. split; [reflexivity|]. split; reflexivity.
  - destruct (Hwritten (Yard.blueprint 1 1 "uploads/blueprints/hull.pdf")
                Heve yard_unique_blueprint_ids eq_refl)
      as (db' & written & Hupd & _ & Hflag & Hversion & _ & _ & _ & _ & _
          & Hraise).
    exists db', written. split; [exact Hupd|].
    apply Hraise.
    + intros [E|E]; discriminate E.
    + simpl. lia.
    + rewrite Hflag. reflexivity.
    + rewrite Hversion. reflexivity.
Defined.

(** ** Dashboard counters (dashboard.py and main.py) *)

Lemma filter_both_le {A : Type} (f g : A -> bool) (rows : list A) :
  (List.length (filter (fun x => f x && g x) rows)
   <= List.length (filter g rows))%nat.
Proof.
  rewrite (filter_ext (fun x => f x && g x) (fun x => g x && f x))
    by (intros x; apply andb_comm).
  rewrite filter_andb. apply filter_length_le.
Qed.

Lemma count_le {A B : Type} (xs : list A) (ys : list B) :
  (List.length xs <= List.length ys)%nat -> 0 <= count xs <= count ys.
Proof. unfold count. lia. Qed.

(** The counters of a role stay within the tables. *)
Lemma role_counts_bounded (db : Db) (role : string) (uid : Z)
    (p t c : Z) :
  unique_project_ids db ->
  assignments_reference_projects db ->
  role_counts db role uid = Ok (p, t, c) ->
  0 <= p <= count (projects db)
  /\ 0 <= t <= count (filter status_not_completed (tasks db))
  /\ 0 <= c <= count (filter status_completed (tasks db)).
Proof.
  intros Hnd Href. unfold role_counts.
  assert (Hzero : forall (A : Type) (rows : list A), 0 <= 0 <= count rows)
    by (intros; unfold count; lia).
  destruct (String.eqb role "admin").
  { intros H. injection H as <- <- <-. unfold count. lia. }
  destruct (String.eqb role "project_manager").
  { destruct (map Project.project_id
                  (filter (fun q => opt_eqb (Project.created_by q) uid)
                          (projects db))) as [|x ids] eqn:E;
      intros H; injection H as <- <- <-.
    - split; [apply Hzero | split; apply Hzero].
    - rewrite <- E. split; [|split].
      + apply count_le. rewrite length_map. apply filter_length_le.
      + apply count_le. apply filter_both_le.
      + apply count_le. apply filter_both_le. }
  destruct (existsb (String.eqb role) ["engineer"; "technician"]);
    [|discriminate].
  assert (Hp : 0 <= count (assigned_project_ids db uid)
               <= count (projects db)).
  { apply count_le. unfold assigned_project_ids.
    rewrite (distinct_ids_rows Project.project_id _ (projects db) Hnd).
    - apply filter_length_le.
    - intros q Hq. apply in_map_iff in Hq. destruct Hq as (a & <- & Ha).
      apply filter_In in Ha. apply Href. exact (proj1 Ha). }
  destruct (assigned_project_ids db uid) as [|x ids] eqn:E;
    intros H; injection H as <- <- <-.
  - split; [exact Hp|]. split; apply Hzero.
  - split; [exact Hp|]. split; apply count_le; apply filter_both_le.
Qed.

(** X20. Nobody's dashboard exceeds the admin's: on a database with
    unique project ids whose assignment rows reference stored projects,
    each of the three role-dependent counters that [get_dashboard_stats]
    returns to a principal is non-negative and at most the counter it
    returns to an admin, and open and completed tasks together never
    exceed the number of stored tasks. *)
Theorem dashboard_within_admin (db : Db) (current_user administrator : User.t)
    (stats : DashboardStats) :
  unique_project_ids db ->
  assignments_reference_projects db ->
  User.role administrator = Some "admin" ->
  get_dashboard_stats db current_user = Ok stats ->
  exists all,
    get_dashboard_stats db administrator = Ok all
    /\ 0 <= total_projects stats <= total_projects all
    /\ 0 <= total_tasks stats <= total_tasks all
    /\ 0 <= completed_tasks stats <= completed_tasks all
    /\ total_tasks all + completed_tasks all <= count (tasks db).
Proof.
  intros Hnd Href Hadmin. unfold get_dashboard_stats at 1.
  destruct (User.role current_user) as [role|]; [|discriminate].
  destruct (role_counts db role (User.user_id current_user))
    as [[[p t] c]|] eqn:Hcounts; [|discriminate].
  simpl. intros H. injection H as <-.
  destruct (role_counts_bounded _ _ _ _ _ _ Hnd Href Hcounts)
    as (Hp & Ht & Hc).
  unfold get_dashboard_stats. rewrite Hadmin. simpl.
  eexists. split; [reflexivity|]. simpl.
  repeat (split; [assumption|]).
  assert (Hsplit : forall rows : list Task.t,
             (List.length (filter status_not_completed rows)
              + List.length (filter status_completed rows)
              <= List.length rows)%nat).
  { induction rows as [|x rows IH]; simpl; [lia|].
    unfold status_not_completed, status_completed.
    destruct (Task.status x) as [st|]; simpl.
    - destruct (TaskStatus_eqb st completed); simpl;
        unfold status_not_completed, status_completed in IH; lia.
    - unfold status_not_completed, status_completed in IH. lia. }
  specialize (Hsplit (tasks db)). unfold count. lia.
Qed.

Lemma dashboard_within_admin_witness :
  get_dashboard_stats Yard.db Yard.alice = Ok (mkStats 2 4 1 2 1)
  /\ exists all,
       get_dashboard_stats Yard.db Yard.alice = Ok all
       /\ 1 <= total_projects all /\ 1 <= total_tasks all.
Proof.
  split; [reflexivity|].
  destruct (dashboard_within_admin Yard.db Yard.tom Yard.alice
              (mkStats 1 1 0 2 1) yard_unique_project_ids
              yard_assignments_reference_projects eq_refl eq_refl)
    as (all & Hall & Hp & Ht & _).
  exists all. split; [exact Hall|]. simpl in Hp, Ht. lia.
Defined.

Lemma low_stock_true (i : Inventory.t) :
  low_stock i = true
  <-> exists q r, Inventory.quantity i = Some q
                  /\ Inventory.reorder_level i = Some r /\ q <= r.
Proof.
  unfold low_stock.
  destruct (Inventory.quantity i) as [q|], (Inventory.reorder_level i) as [r|].
  - rewrite Z.leb_le. split.
    + intros H. now exists q, r.
    + intros (q' & r' & Eq & Er & H). congruence.
  - split; [discriminate|]. intros (q' & r' & _ & Er & _). discriminate.
  - split; [discriminate|]. intros (q' & r' & Eq & _). discriminate.
  - split; [discriminate|]. intros (q' & r' & Eq & _). discriminate.
Qed.

(** X21. The inventory counters of the dashboard do not depend on the
    principal: whenever [get_dashboard_stats] returns, [total_inventory] is
    the number of stored items and [low_stock_items] is the number of rows
    that [get_low_stock] returns, which is also what the dashboard of
    main.py reports; an item is low in stock exactly when its quantity and
    its reorder level are both set and the quantity is at most the level,
    so an item with a null in either column is never counted. *)
Theorem inventory_counters_agree (db : Db) (current_user reader : User.t)
    (stats : DashboardStats) :
  get_dashboard_stats db current_user = Ok stats ->
  total_inventory stats = count (inventory db)
  /\ low_stock_items stats = count (get_low_stock db reader)
  /\ low_stock_items stats
     = Main.low_stock_items (Main.get_dashboard_stats db reader)
  /\ 0 <= low_stock_items stats <= total_inventory stats
  /\ forall i, In i (get_low_stock db reader) <->
               In i (inventory db)
               /\ exists q r, Inventory.quantity i = Some q
                              /\ Inventory.reorder_level i = Some r
                              /\ q <= r.
Proof.
  unfold get_dashboard_stats.
  destruct (User.role current_user) as [role|]; [|discriminate].
  destruct (role_counts db role (User.user_id current_user))
    as [[[p t] c]|]; [|discriminate].
  simpl. intros H. injection H as <-. simpl. unfold get_low_stock.
  repeat (split; [reflexivity|]). split.
  - apply count_le. apply filter_length_le.
  - intros i. now rewrite filter_In, low_stock_true.
Qed.

(** The two items of the yard: 5 gaskets with reorder level 10 are low
    in stock, 20 tins of primer are not. *)
Lemma inventory_counters_agree_witness :
  low_stock_items (mkStats 1 1 1 2 1) = 1
  /\ map Inventory.item_id (get_low_stock Yard.db Yard.tom) = [1]
  /\ count (get_low_stock Yard.db Yard.tom) = 1.
Proof.
  destruct (inventory_counters_agree Yard.db Yard.eve Yard.tom
              (mkStats 1 1 1 2 1) eq_refl) as (_ & Hlow & _).
  split; [reflexivity|]. split; [reflexivity|]. now rewrite <- Hlow.
Defined.

(** Open and completed tasks are disjoint, and cover the table when
    every status is set. *)
Lemma open_and_completed (rows : list Task.t) :
  (List.length (filter status_not_completed rows)
   + List.length (filter status_completed rows) <= List.length rows)%nat
  /\ ((forall t, In t rows -> Task.status t <> None) ->
      (List.length (filter status_not_completed rows)
       + List.length (filter status_completed rows) = List.length rows)%nat).
Proof.
  induction rows as [|x rows [IHle IHeq]].
  - simpl. split; [lia | reflexivity].
  - assert (Hx : (status_not_completed x = true
                  /\ status_completed x = false)
                 \/ (status_not_completed x = false
                     /\ status_completed x = true)
                 \/ (status_not_completed x = false
                     /\ status_completed x = false
                     /\ Task.status x = None)).
    { unfold status_not_completed, status_completed.
      destruct (Task.status x) as [st|];
        [destruct (TaskStatus_eqb st completed)|]; simpl; auto. }
    assert (Hrest : (forall t, In t (x :: rows) -> Task.status t <> None) ->
                    forall t, In t rows -> Task.status t <> None).
    { intros Hall t Ht. apply Hall. now right. }
    simpl filter.
    destruct Hx as [(-> & ->) | [(-> & ->) | (-> & -> & Hnone)]]; simpl.
    + split; [lia|]. intros Hall. specialize (IHeq (Hrest Hall)). lia.
    + split; [lia|]. intros Hall. specialize (IHeq (Hrest Hall)). lia.
    + split; [lia|]. intros Hall. elim (Hall x); [now left | exact Hnone].
Qed.

(** X22. The dashboard that main.py serves applies no role filter: it
    gives every principal the project count and the completed-task count
    that the router's dashboard gives an admin; its [total_tasks] counts
    every task, completed ones included, so it is at least the admin's
    open and completed counts together, and equal to them when every task
    has a status. *)
Theorem main_dashboard_is_unfiltered (db : Db)
    (current_user administrator : User.t) :
  User.role administrator = Some "admin" ->
  exists all,
    get_dashboard_stats db administrator = Ok all
    /\ Main.total_projects (Main.get_dashboard_stats db current_user)
       = total_projects all
    /\ Main.completed_tasks (Main.get_dashboard_stats db current_user)
       = completed_tasks all
    /\ Main.total_tasks (Main.get_dashboard_stats db current_user)
       = count (tasks db)
    /\ total_tasks all + completed_tasks all
       <= Main.total_tasks (Main.get_dashboard_stats db current_user)
    /\ ((forall t, In t (tasks db) -> Task.status t <> None) ->
        Main.total_tasks (Main.get_dashboard_stats db current_user)
        = total_tasks all + completed_tasks all)
    /\ Main.active_projects (Main.get_dashboard_stats db current_user)
       <= Main.total_projects (Main.get_dashboard_stats db current_user).
Proof.
  intros Hadmin. unfold get_dashboard_stats. rewrite Hadmin. simpl.
  eexists. split; [reflexivity|]. simpl. repeat (split; [reflexivity|]).
  destruct (open_and_completed (tasks db)) as [Hle Heq]. split; [|split].
  - unfold count. lia.
  - intros Hall. specialize (Heq Hall). unfold count. lia.
  - unfold count.
    pose proof (filter_length_le Main.project_in_progress (projects db)).
    lia.
Qed.

Lemma main_dashboard_is_unfiltered_witness :
  Main.get_dashboard_stats Yard.db Yard.eve = Main.mkStats 2 0 5 1 1
  /\ exists all,
       get_dashboard_stats Yard.db Yard.alice = Ok all
       /\ Main.total_tasks (Main.get_dashboard_stats Yard.db Yard.eve)
          = total_tasks all + completed_tasks all.
Proof.
  split; [reflexivity|].
  destruct (main_dashboard_is_unfiltered Yard.db Yard.eve Yard.alice eq_refl)
    as (all & Hall & _ & _ & _ & _ & Heq & _).
  exists all. split; [exact Hall|]. apply Heq.
  intros t Hin. simpl in Hin.
  repeat (destruct Hin as [<-|Hin]; [discriminate|]). contradiction.
Defined.

(** ** Inventory (inventory.py) *)

Lemma not_admin_or_manager (cu : User.t) :
  (forall r, User.role cu = Some r -> r <> "admin" /\ r <> "project_manager") ->
  role_in cu ["admin"; "project_manager"] = false.
Proof.
  intros Hrole. unfold role_in, role_is. simpl.
  destruct (User.role cu) as [r|]; [|reflexivity].
  destruct (Hrole r eq_refl) as [Ha Hp].
  apply String.eqb_neq in Ha, Hp. now rewrite Ha, Hp.
Qed.

Lemma admin_or_manager (cu : User.t) :
  User.role cu = Some "admin" \/ User.role cu = Some "project_manager" ->
  role_in cu ["admin"; "project_manager"] = true.
Proof. unfold role_in, role_is. intros [-> | ->]; reflexivity. Qed.

(** X23. The decision and the effect of [update_inventory_item]. A
    principal who is neither admin nor project manager gets 403, stored
    item or not; an admin or project manager gets 404 for a missing item
    and an integrity error for a null name. Otherwise the update is
    committed: the item is read back as returned, with the posted quantity
    and reorder level (nulls included) and the old values of the fields not
    posted, every other item is read unchanged, and the item is in the
    low-stock list exactly when its new quantity and level are set with the
    quantity at most the level. *)
Theorem update_inventory_item_decision (db : Db) (current_user : User.t)
    (item_id : Z) (u : InventoryUpdate.t) :
  ((forall r, User.role current_user = Some r ->
              r <> "admin" /\ r <> "project_manager") ->
   update_inventory_item db current_user item_id u
   = Raise (HTTPException 403 "Not authorized"))
  /\ (User.role current_user = Some "admin"
      \/ User.role current_user = Some "project_manager" ->
      (find_item db item_id = None ->
       update_inventory_item db current_user item_id u
       = Raise (HTTPException 404 "Inventory item not found"))
      /\ forall item,
           find_item db item_id = Some item ->
           (InventoryUpdate.item_name u = Some None ->
            update_inventory_item db current_user item_id u
            = Raise IntegrityError)
           /\ (InventoryUpdate.item_name u <> Some None ->
               exists db' item',
                 update_inventory_item db current_user item_id u
                 = Ok (db', item')
                 /\ (forall reader,
                       get_inventory_item db' reader item_id = Ok item')
                 /\ (forall reader other,
                       other <> item_id ->
                       get_inventory_item db' reader other
                       = get_inventory_item db reader other)
                 /\ Inventory.item_id item' = item_id
                 /\ Inventory.quantity item'
                    = match InventoryUpdate.quantity u with
                      | Some q => q
                      | None => Inventory.quantity item
                      end
                 /\ Inventory.reorder_level item'
                    = match InventoryUpdate.reorder_level u with
                      | Some l => l
                      | None => Inventory.reorder_level item
                      end
                 /\ forall reader,
                      In item' (get_low_stock db' reader)
                      <-> exists q l,
                            Inventory.quantity item' = Some q
                            /\ Inventory.reorder_level item' = Some l
                            /\ q <= l)).
Proof.
  unfold update_inventory_item. split.
  - intros Hrole. now rewrite (not_admin_or_manager _ Hrole).
  - intros Hrole. rewrite (admin_or_manager _ Hrole). simpl negb. cbv iota.
    split.
    + intros ->. reflexivity.
    + intros item Hfind. rewrite Hfind.
      destruct (find_key_some Inventory.item_id _ _ _ Hfind) as [_ Hid].
      unfold apply_inventory_update. split.
      * intros ->. reflexivity.
      * intros Hn.
        destruct (InventoryUpdate.item_name u) as [[n|]|];
          [| congruence |]; simpl; eexists _, _;
          (split; [reflexivity|]);
          (split;
           [intros reader; unfold get_inventory_item, find_item; simpl;
            erewrite (find_replace_first Inventory.item_id);
            [reflexivity | exact Hid | exact Hfind]|]);
          (split;
           [intros reader other Hne; unfold get_inventory_item, find_item;
            simpl;
            rewrite (find_replace_first_other Inventory.item_id);
            [reflexivity | exact Hid | exact Hne]|]);
          (split; [exact Hid|]);
          (split; [reflexivity|]); (split; [reflexivity|]);
          intros reader; unfold get_low_stock; simpl;
          rewrite filter_In, low_stock_true;
          (split; [intros [_ H]; exact H|]);
          intros H; (split; [|exact H]);
          (eapply find_some with (f := fun i => Inventory.item_id i =? item_id);
           eapply (find_replace_first Inventory.item_id);
           [exact Hid | exact Hfind]).
Qed.

(** Tom, a technician, may not restock; Pat restocks the gaskets to 50,
    which takes them off the low-stock list. *)
Lemma update_inventory_item_decision_witness :
  update_inventory_item Yard.db Yard.tom 9
    (InventoryUpdate.mk None (Some (Some 50)) None)
  = Raise (HTTPException 403 "Not authorized")
  /\ update_inventory_item Yard.db Yard.pat 9
       (InventoryUpdate.mk None (Some (Some 50)) None)
     = Raise (HTTPException 404 "Inventory item not found")
  /\ exists db' item',
       update_inventory_item Yard.db Yard.pat 1
         (InventoryUpdate.mk None (Some (Some 50)) None) = Ok (db', item')
       /\ Inventory.quantity item' = Some 50
       /\ ~ In item' (get_low_stock db' Yard.tom).
Proof.
  destruct (update_inventory_item_decision Yard.db Yard.tom 9
              (InventoryUpdate.mk None (Some (Some 50)) None))
    as [Hforbidden _].
  destruct (update_inventory_item_decision Yard.db Yard.pat 9
              (InventoryUpdate.mk None (Some (Some 50)) None))
    as [_ Hmissing].
  destruct (update_inventory_item_decision Yard.db Yard.pat 1
              (InventoryUpdate.mk None (Some (Some 50)) None))
    as [_ Hstored].
  split; [|split].
  - apply Hforbidden. intros r E. injection E as <-. split; discriminate.
  - apply (Hmissing (or_intror eq_refl)). reflexivity.
  - destruct (Hstored (or_intror eq_refl)) as [_ Hitem].
    destruct (Hitem (Inventory.mk 1 "Gasket" (Some 5) (Some 10)) eq_refl)
      as [_ Hok].
    destruct Hok as (db' & item' & Hupd & _ & _ & _ & Hq & Hl & Hlow);
      [discriminate|].
    exists db', item'. split; [exact Hupd|]. split; [exact Hq|].
    intros Hin. apply Hlow in Hin. destruct Hin as (q & l & Eq & El & Hle).
    rewrite Hq in Eq. rewrite Hl in El. simpl in Eq, El.
    injection Eq as <-. injection El as <-. lia.
Defined.

Lemma with_inventory_same (db : Db) : with_inventory db (inventory db) = db.
Proof. now destruct db. Qed.

(** X24. Create, read, delete: an admin or project manager who creates
    an item gets it stored under a new id with the posted name, quantity
    and reorder level; every reader reads it back and reads the older
    items as before; deleting it again restores the database exactly as it
    was before the creation. Any other principal is refused (403) by both
    writes, whatever the item. *)
Theorem inventory_create_read_delete (db : Db) (current_user : User.t)
    (item : InventoryCreate.t) :
  ((forall r, User.role current_user = Some r ->
              r <> "admin" /\ r <> "project_manager") ->
   create_inventory_item db current_user item
   = Raise (HTTPException 403 "Not authorized")
   /\ forall item_id,
        delete_inventory_item db current_user item_id
        = Raise (HTTPException 403 "Not authorized"))
  /\ (User.role current_user = Some "admin"
      \/ User.role current_user = Some "project_manager" ->
      exists db' new_item,
        create_inventory_item db current_user item = Ok (db', new_item)
        /\ ~ In (Inventory.item_id new_item)
                (map Inventory.item_id (inventory db))
        /\ Inventory.item_name new_item = InventoryCreate.item_name item
        /\ Inventory.quantity new_item = Some (InventoryCreate.quantity item)
        /\ Inventory.reorder_level new_item
           = Some (InventoryCreate.reorder_level item)
        /\ (forall reader,
              get_inventory_item db' reader (Inventory.item_id new_item)
              = Ok new_item)
        /\ (forall reader old, In old (inventory db) ->
                               get_inventory_item db reader
                                                  (Inventory.item_id old)
                               = get_inventory_item db' reader
                                                    (Inventory.item_id old))
        /\ delete_inventory_item db' current_user (Inventory.item_id new_item)
           = Ok (db, tt)).
Proof.
  unfold create_inventory_item, delete_inventory_item. split.
  - intros Hrole. rewrite (not_admin_or_manager _ Hrole). now split.
  - intros Hrole. rewrite (admin_or_manager _ Hrole). simpl negb. cbv iota.
    set (id := fresh_id (map Inventory.item_id (inventory db))).
    assert (Hfresh : ~ In id (map Inventory.item_id (inventory db)))
      by apply fresh_id_new.
    eexists _, _. split; [reflexivity|]. simpl. fold id.
    split; [exact Hfresh|]. repeat (split; [reflexivity|]).
    assert (Hnew : find (fun i => Inventory.item_id i =? id)
                        (inventory db
                         ++ [Inventory.mk id (InventoryCreate.item_name item)
                               (Some (InventoryCreate.quantity item))
                               (Some (InventoryCreate.reorder_level item))])
                   = Some (Inventory.mk id (InventoryCreate.item_name item)
                             (Some (InventoryCreate.quantity item))
                             (Some (InventoryCreate.reorder_level item)))).
    { now apply (find_app_new Inventory.item_id). }
    split; [|split].
    + intros reader. unfold get_inventory_item, find_item. simpl.
      now rewrite Hnew.
    + intros reader old Hold. unfold get_inventory_item, find_item. simpl.
      destruct (find_key_in_rows Inventory.item_id (inventory db) old Hold)
        as (first & Hfirst).
      rewrite Hfirst.
      now rewrite (find_app_old Inventory.item_id _ _ _ _ Hfirst).
    + unfold find_item. simpl inventory. rewrite Hnew.
      assert (Hrest :
                filter (fun i => negb (Inventory.item_id i =? id))
                       (inventory db
                        ++ [Inventory.mk id (InventoryCreate.item_name item)
                              (Some (InventoryCreate.quantity item))
                              (Some (InventoryCreate.reorder_level item))])
                = inventory db).
      { rewrite filter_app. simpl. rewrite Z.eqb_refl. simpl.
        rewrite app_nil_r. apply filter_all.
        intros x Hx. apply negb_true_iff, Z.eqb_neq. intros E.
        apply Hfresh. rewrite <- E. now apply in_map. }
      rewrite Hrest. unfold with_inventory. simpl. now destruct db.
Qed.

Lemma inventory_create_read_delete_witness :
  create_inventory_item Yard.db Yard.finn
    (InventoryCreate.mk "Anode" 3 10)
  = Raise (HTTPException 403 "Not authorized")
  /\ exists db' new_item,
       create_inventory_item Yard.db Yard.alice
         (InventoryCreate.mk "Anode" 3 10) = Ok (db', new_item)
       /\ get_inventory_item db' Yard.finn 3 = Ok new_item
       /\ delete_inventory_item db' Yard.alice 3 = Ok (Yard.db, tt).
Proof.
  destruct (inventory_create_read_delete Yard.db Yard.finn
              (InventoryCreate.mk "Anode" 3 10)) as [Hforbidden _].
  destruct (inventory_create_read_delete Yard.db Yard.alice
              (InventoryCreate.mk "Anode" 3 10)) as [_ Hok].
  split.
  - apply Hforbidden. intros r E. injection E as <-. split; discriminate.
  - destruct (Hok (or_introl eq_refl))
      as (db' & new_item & Hcreate & _ & _ & _ & _ & Hread & _ & Hdelete).
    exists db', new_item. split; [exact Hcreate|].
    assert (Hid : Inventory.item_id new_item = 3).
    { vm_compute in Hcreate. injection Hcreate as _ <-. reflexivity. }
    rewrite Hid in Hread, Hdelete. split; [apply Hread | exact Hdelete].
Defined.

(** ** Users (main.py) *)

Lemma email_taken_iff (db : Db) (user_id : Z) (email : string) :
  email_taken db user_id email = true
  <-> exists other, In other (users db)
                    /\ User.user_id other <> user_id
                    /\ User.email other = email.
Proof.
  unfold email_taken. rewrite existsb_exists. split.
  - intros (x & Hin & H). apply andb_true_iff in H. destruct H as [Hid He].
    apply negb_true_iff, Z.eqb_neq in Hid. apply String.eqb_eq in He.
    now exists x.
  - intros (x & Hin & Hid & He). exists x. split; [exact Hin|].
    apply andb_true_iff. split.
    + now apply negb_true_iff, Z.eqb_neq.
    + now apply String.eqb_eq.
Qed.

(** X25. [update_user] checks only that the principal is an admin or is
    the user being updated: anyone else gets 403, before the user is even
    looked up. An admitted update of a missing user raises 404. On a
    stored user, a null email or name, and an email that another user
    holds, make the commit fail with an integrity error; otherwise the
    update is committed and writes the posted email, phone, role and
    activity flag as sent, so a principal who is no admin can change their
    own role. The user keeps their id and every other user is read
    unchanged. *)
Theorem update_user_decision (db : Db) (current_user : User.t) (user_id : Z)
    (u : UserUpdate.t) :
  (User.role current_user <> Some "admin" ->
   User.user_id current_user <> user_id ->
   update_user db current_user user_id u
   = Raise (HTTPException 403 "Not authorized"))
  /\ (User.role current_user = Some "admin"
      \/ User.user_id current_user = user_id ->
      (find_user db user_id = None ->
       update_user db current_user user_id u
       = Raise (HTTPException 404 "User not found"))
      /\ forall user,
           find_user db user_id = Some user ->
           (UserUpdate.email u = Some None
            \/ UserUpdate.full_name u = Some None ->
            update_user db current_user user_id u = Raise IntegrityError)
           /\ (forall email other,
                 UserUpdate.email u = Some (Some email) ->
                 In other (users db) ->
                 User.user_id other <> user_id ->
                 User.email other = email ->
                 update_user db current_user user_id u
                 = Raise IntegrityError)
           /\ (UserUpdate.full_name u <> Some None ->
               UserUpdate.email u = None
               \/ (exists email,
                      UserUpdate.email u = Some (Some email)
                      /\ forall other, In other (users db) ->
                                       User.user_id other <> user_id ->
                                       User.email other <> email) ->
               exists db' user',
                 update_user db current_user user_id u = Ok (db', user')
                 /\ find_user db' user_id = Some user'
                 /\ User.user_id user' = user_id
                 /\ User.email user'
                    = match UserUpdate.email u with
                      | Some (Some email) => email
                      | _ => User.email user
                      end
                 /\ User.phone user'
                    = match UserUpdate.phone u with
                      | Some v => v
                      | None => User.phone user
                      end
                 /\ User.role user'
                    = match UserUpdate.role u with
                      | Some (Some r) => Some (role_value r)
                      | Some None => None
                      | None => User.role user
                      end
                 /\ User.is_active user'
                    = match UserUpdate.is_active u with
                      | Some v => v
                      | None => User.is_active user
                      end
                 /\ forall other, other <> user_id ->
                                  find_user db' other = find_user db other)).
Proof.
  unfold update_user. split.
  - intros Hrole Hid.
    assert (Ha : role_is current_user "admin" = false).
    { destruct (role_is current_user "admin") eqn:E; [|reflexivity].
      apply role_is_exact in E. contradiction. }
    apply Z.eqb_neq in Hid. now rewrite Ha, Hid.
  - intros Hallowed.
    assert (Hgate : negb (role_is current_user "admin")
                    && negb (User.user_id current_user =? user_id) = false).
    { destruct Hallowed as [Hrole|Hid].
      - apply role_is_exact in Hrole. now rewrite Hrole.
      - apply Z.eqb_eq in Hid. rewrite Hid. apply andb_false_r. }
    rewrite Hgate. split.
    + intros ->. reflexivity.
    + intros user Hfind. rewrite Hfind.
      destruct (find_key_some User.user_id _ _ _ Hfind) as [_ Hid].
      unfold apply_user_update. split; [|split].
      * intros [E|E]; rewrite E; simpl; [reflexivity|].
        now destruct (UserUpdate.email u) as [[e|]|].
      * intros email other Eu Hin Hne He. rewrite Eu. simpl.
        destruct (UserUpdate.full_name u) as [[n|]|]; simpl;
          try reflexivity;
          (assert (Htaken : email_taken db user_id email = true)
             by (apply email_taken_iff; now exists other));
          now rewrite Htaken.
      * intros Hn Hemail.
        assert (Hfree : is_set (UserUpdate.email u)
                        && email_taken db user_id
                             match UserUpdate.email u with
                             | Some (Some email) => email
                             | _ => User.email user
                             end = false).
        { destruct Hemail as [->|(email & -> & Hnone)]; [reflexivity|].
          simpl. destruct (email_taken db user_id email) eqn:E;
            [|reflexivity].
          apply email_taken_iff in E. destruct E as (other & Hin & Hne & He).
          elim (Hnone other Hin Hne He). }
        assert (Hemail' : UserUpdate.email u <> Some None).
        { destruct Hemail as [->|(email & -> & _)]; discriminate. }
        destruct (UserUpdate.email u) as [[e|]|]; [| congruence |];
          (destruct (UserUpdate.full_name u) as [[n|]|]; [| congruence |]);
          simpl; simpl in Hfree; try rewrite Hfree; eexists _, _;
          (split; [reflexivity|]);
          (split;
           [unfold find_user; simpl;
            eapply (find_replace_first User.user_id);
            [exact Hid | exact Hfind]|]);
          (split; [exact Hid|]); (split; [reflexivity|]);
          (split; [reflexivity|]);
          (split; [destruct (UserUpdate.role u) as [[r|]|]; reflexivity|]);
          (split; [reflexivity|]);
          intros other Hne; unfold find_user; simpl;
          apply (find_replace_first_other User.user_id);
          [exact Hid | exact Hne | exact Hid | exact Hne | exact Hid
          | exact Hne | exact Hid | exact Hne].
Qed.

(** Tom may not touch Eve's account and cannot take Eve's email, but
    can set the role of Tom's own account to admin; [create_project],
    which refused Tom before, then lets Tom in. *)
Lemma update_user_decision_witness :
  update_user Yard.db Yard.tom 3
    (UserUpdate.mk None None None (Some (Some admin)) None)
  = Raise (HTTPException 403 "Not authorized")
  /\ update_user Yard.db Yard.tom 4
       (UserUpdate.mk (Some (Some "eve@yard.example")) None None None None)
     = Raise IntegrityError
  /\ exists db' tom',
       update_user Yard.db Yard.tom 4
         (UserUpdate.mk None None None (Some (Some admin)) None)
       = Ok (db', tom')
       /\ User.role tom' = Some "admin"
       /\ find_user db' 4 = Some tom'
       /\ find_user db' 3 = Some Yard.eve
       /\ create_project Yard.db Yard.tom
            (ProjectCreate.mk "Deck" None None None None None planning None
                              None)
          = Raise (HTTPException 403
                     "Only admins and project managers can create projects")
       /\ exists db'' r,
            create_project db' tom'
              (ProjectCreate.mk "Deck" None None None None None planning None
                                None) = Ok (db'', Ok r).
Proof.
  destruct (update_user_decision Yard.db Yard.tom 3
              (UserUpdate.mk None None None (Some (Some admin)) None))
    as [Hforbidden _].
  destruct (update_user_decision Yard.db Yard.tom 4
              (UserUpdate.mk (Some (Some "eve@yard.example")) None None None
                             None))
    as [_ Htaken].
  destruct (update_user_decision Yard.db Yard.tom 4
              (UserUpdate.mk None None None (Some (Some admin)) None))
    as [_ Hself].
  split; [|split].
  - apply Hforbidden; discriminate.
  - destruct (Htaken (or_intror eq_refl)) as [_ Hstored].
    destruct (Hstored Yard.tom eq_refl) as (_ & Hdup & _).
    apply (Hdup "eve@yard.example" Yard.eve); try reflexivity.
    + simpl. auto.
    + discriminate.
  - destruct (Hself (or_intror eq_refl)) as [_ Hstored].
    destruct (Hstored Yard.tom eq_refl) as (_ & _ & Hok).
    destruct Hok as (db' & tom' & Hupd & Hfind & _ & _ & _ & Hrole & _
                     & Hother);
      [discriminate | now left |].
    exists db', tom'. split; [exact Hupd|]. split; [exact Hrole|].
    split; [exact Hfind|]. split.
    { rewrite Hother by discriminate. reflexivity. }
    split; [reflexivity|].
    unfold create_project, role_in, role_is. simpl in Hrole. rewrite Hrole.
    simpl. eexists _, _. reflexivity.
Defined.

(** X26. The user list is for admins and project managers and shows the
    active users only: anyone else gets 403; with a page that covers the
    table, the listed users are exactly the stored users whose [is_active]
    is true. [read_user] has neither restriction: with unique user ids it
    returns every stored user, active or not, to every principal, and
    raises 404 for an id that is not stored. *)
Theorem read_users_lists_active (db : Db) (current_user : User.t)
    (skip limit : nat) :
  ((forall r, User.role current_user = Some r ->
              r <> "admin" /\ r <> "project_manager") ->
   read_users db current_user skip limit
   = Raise (HTTPException 403 "Not authorized"))
  /\ (User.role current_user = Some "admin"
      \/ User.role current_user = Some "project_manager" ->
      (List.length (users db) <= limit)%nat ->
      exists listed,
        read_users db current_user 0 limit = Ok listed
        /\ forall x, In x listed <->
                     In x (users db) /\ User.is_active x = Some true)
  /\ (NoDup (map User.user_id (users db)) ->
      forall reader x, In x (users db) ->
                       read_user db reader (User.user_id x) = Ok x)
  /\ (forall reader user_id,
        ~ user_exists db user_id ->
        read_user db reader user_id
        = Raise (HTTPException 404 "User not found")).
Proof.
  unfold read_users. split; [|split; [|split]].
  - intros Hrole. now rewrite (not_admin_or_manager _ Hrole).
  - intros Hrole Hlimit. rewrite (admin_or_manager _ Hrole). simpl negb.
    cbv iota. eexists. split; [reflexivity|]. intros x.
    rewrite paginate_all.
    + rewrite filter_In. unfold user_active.
      destruct (User.is_active x) as [[|]|];
        split; intros [Hin H]; (split; [exact Hin|]); congruence.
    + etransitivity; [apply filter_length_le | exact Hlimit].
  - intros Hnd reader x Hin. unfold read_user, find_user.
    now rewrite (find_unique_key User.user_id _ _ x Hnd Hin eq_refl).
  - intros reader user_id Hmissing. unfold read_user.
    apply find_user_none in Hmissing. now rewrite Hmissing.
Qed.

Lemma yard_unique_user_ids : NoDup (map User.user_id (users Yard.db)).
Proof. simpl. repeat constructor; simpl; intuition discriminate. Qed.

Lemma read_users_lists_active_witness :
  read_users Yard.db Yard.eve 0 100
  = Raise (HTTPException 403 "Not authorized")
  /\ (exists listed,
        read_users Yard.db Yard.pat 0 100 = Ok listed
        /\ In Yard.eve listed)
  /\ read_user Yard.db Yard.eve 1 = Ok Yard.alice
  /\ read_user Yard.db Yard.eve 9
     = Raise (HTTPException 404 "User not found").
Proof.
  destruct (read_users_lists_active Yard.db Yard.eve 0 100)
    as (Hforbidden & _ & Hone & Hmissing).
  destruct (read_users_lists_active Yard.db Yard.pat 0 100)
    as (_ & Hlist & _ & _).
  split; [|split; [|split]].
  - apply Hforbidden. intros r E. injection E as <-. split; discriminate.
  - destruct (Hlist (or_intror eq_refl)) as (listed & Hread & Hiff).
    { simpl. lia. }
    exists listed. split; [exact Hread|]. apply Hiff.
    split; [simpl; auto | reflexivity].
  - apply (Hone yard_unique_user_ids Yard.eve Yard.alice). simpl. auto.
  - apply Hmissing. unfold user_exists. simpl. intuition discriminate.
Defined.

(** ** Settings (settings.py) *)

Lemma unique_key_row {A : Type} (k : A -> Z) (rows : list A) (x y : A) :
  NoDup (map k rows) -> In x rows -> In y rows -> k x = k y -> x = y.
Proof.
  induction rows as [|r rows IH]; simpl; intros Hnd Hx Hy E; [contradiction|].
  inversion Hnd as [|? ? Hnotin Hnd']; subst.
  destruct Hx as [->|Hx], Hy as [->|Hy].
  - reflexivity.
  - exfalso. apply Hnotin. rewrite E. now apply in_map.
  - exfalso. apply Hnotin. rewrite <- E. now apply in_map.
  - now apply IH.
Qed.

Lemma find_filter_irrelevant {A : Type} (f p : A -> bool) (rows : list A) :
  (forall x, In x rows -> p x = false -> f x = false) ->
  find f (filter p rows) = find f rows.
Proof.
  induction rows as [|r rows IH]; simpl; intros H; [reflexivity|].
  assert (Hrest : forall x, In x rows -> p x = false -> f x = false)
    by (intros x Hx; apply H; now right).
  destruct (p r) eqn:Ep; simpl.
  - destruct (f r); [reflexivity | now apply IH].
  - rewrite (H r (or_introl eq_refl) Ep). now apply IH.
Qed.

Section TwoKeys.
Context {A : Type} (pk uk : A -> Z).

(** A row found by its unique key and rewritten under its primary key is
    found again by the unique key; the rows of the other keys are found
    as before, and both lists of keys stay as they were. *)
Lemma find_after_rewrite (v : Z) (r new : A) (rows : list A) :
  NoDup (map pk rows) ->
  find (fun x => uk x =? v) rows = Some r ->
  uk new = v -> pk new = pk r ->
  find (fun x => uk x =? v)
       (replace_first (fun x => pk x =? pk r) new rows) = Some new
  /\ (forall other, other <> v ->
        find (fun x => uk x =? other)
             (replace_first (fun x => pk x =? pk r) new rows)
        = find (fun x => uk x =? other) rows)
  /\ map uk (replace_first (fun x => pk x =? pk r) new rows) = map uk rows
  /\ map pk (replace_first (fun x => pk x =? pk r) new rows) = map pk rows.
Proof.
  intros Hnd Hfind Hnew Hpk.
  split; [|split; [|split]]; [| | |now apply (replace_first_keys pk)].
  - induction rows as [|x rows IH]; simpl in *; [discriminate|].
    inversion Hnd as [|? ? Hnotin Hnd']; subst.
    destruct (Z.eqb_spec (uk x) (uk new)) as [E|E].
    + injection Hfind as <-. rewrite Z.eqb_refl. simpl.
      now rewrite Z.eqb_refl.
    + destruct (Z.eqb_spec (pk x) (pk r)) as [Epk|Epk].
      * exfalso. apply Hnotin. rewrite Epk. apply in_map.
        apply find_some in Hfind. exact (proj1 Hfind).
      * simpl. destruct (Z.eqb_spec (uk x) (uk new)); [contradiction|].
        now apply IH.
  - intros other Hne.
    induction rows as [|x rows IH]; simpl in *; [reflexivity|].
    inversion Hnd as [|? ? Hnotin Hnd']; subst.
    destruct (Z.eqb_spec (uk x) (uk new)) as [E|E].
    + injection Hfind as <-. rewrite Z.eqb_refl. simpl.
      destruct (Z.eqb_spec (uk new) other); [congruence|].
      destruct (Z.eqb_spec (uk x) other); [congruence | reflexivity].
    + destruct (Z.eqb_spec (pk x) (pk r)) as [Epk|Epk].
      * exfalso. apply Hnotin. rewrite Epk. apply in_map.
        apply find_some in Hfind. exact (proj1 Hfind).
      * simpl. destruct (uk x =? other); [reflexivity | now apply IH].
  - induction rows as [|x rows IH]; simpl in *; [reflexivity|].
    inversion Hnd as [|? ? Hnotin Hnd']; subst.
    destruct (Z.eqb_spec (uk x) (uk new)) as [E|E].
    + injection Hfind as <-. rewrite Z.eqb_refl. simpl. now rewrite E.
    + destruct (Z.eqb_spec (pk x) (pk r)) as [Epk|Epk].
      * exfalso. apply Hnotin. rewrite Epk. apply in_map.
        apply find_some in Hfind. exact (proj1 Hfind).
      * simpl. now rewrite IH.
Qed.

(** Deleting by primary key the row found by its unique key leaves no
    row with that key; the rows of the other keys are found as before. *)
Lemma find_after_delete (v : Z) (r : A) (rows : list A) :
  NoDup (map pk rows) -> NoDup (map uk rows) ->
  find (fun x => uk x =? v) rows = Some r ->
  ~ In v (map uk (filter (fun x => negb (pk x =? pk r)) rows))
  /\ forall other, other <> v ->
       find (fun x => uk x =? other)
            (filter (fun x => negb (pk x =? pk r)) rows)
       = find (fun x => uk x =? other) rows.
Proof.
  intros Hpk Huk Hfind. apply find_some in Hfind.
  destruct Hfind as [Hr Hv]. apply Z.eqb_eq in Hv. split.
  - intros Hin. apply in_map_iff in Hin. destruct Hin as (y & Hy & Hin).
    apply filter_In in Hin. destruct Hin as [Hin Hne].
    apply negb_true_iff, Z.eqb_neq in Hne. apply Hne.
    f_equal. apply (unique_key_row uk rows); congruence.
  - intros other Hne. apply find_filter_irrelevant.
    intros x Hx Hp. apply negb_false_iff, Z.eqb_eq in Hp.
    apply Z.eqb_neq.
    rewrite (unique_key_row pk rows x r Hpk Hx Hr Hp). congruence.
Qed.
End TwoKeys.

Lemma NoDup_snoc {A : Type} (x : A) (l : list A) :
  NoDup l -> ~ In x l -> NoDup (l ++ [x]).
Proof.
  induction l as [|y l IH]; simpl; intros Hnd Hx.
  - constructor; [intros [] | constructor].
  - inversion Hnd as [|? ? Hy Hnd']; subst. constructor.
    + intros Hin. apply in_app_or in Hin. destruct Hin as [Hin|[->|[]]];
        tauto.
    + apply IH; tauto.
Qed.

Lemma NoDup_map_filter {A : Type} (k : A -> Z) (p : A -> bool)
    (rows : list A) :
  NoDup (map k rows) -> NoDup (map k (filter p rows)).
Proof.
  induction rows as [|r rows IH]; simpl; intros Hnd; [constructor|].
  inversion Hnd as [|? ? Hnotin Hnd']; subst.
  destruct (p r); simpl; [|now apply IH]. constructor; [|now apply IH].
  intros Hin. apply Hnotin. apply in_map_iff in Hin.
  destruct Hin as (y & Hy & Hin). apply filter_In in Hin.
  rewrite <- Hy. apply in_map. exact (proj1 Hin).
Qed.

Lemma find_snoc_other {A : Type} (k : A -> Z) (other : Z) (new : A)
    (rows : list A) :
  k new <> other ->
  find (fun x => k x =? other) (rows ++ [new])
  = find (fun x => k x =? other) rows.
Proof.
  intros Hne. induction rows as [|r rows IH]; simpl.
  - destruct (Z.eqb_spec (k new) other); [contradiction | reflexivity].
  - destruct (k r =? other); [reflexivity | exact IH].
Qed.

Section SettingsTable.
Context {Json : Type}.
Variables (table : list (UserSettings.t Json)) (current_user : User.t).
Hypothesis unique_ids : NoDup (map UserSettings.setting_id table).
Hypothesis one_row_each : NoDup (map UserSettings.user_id table).

Lemma inserted_settled (kept : list (UserSettings.t Json))
    (row : UserSettings.t Json) :
  NoDup (map UserSettings.setting_id kept) ->
  NoDup (map UserSettings.user_id kept) ->
  ~ In (UserSettings.setting_id row) (map UserSettings.setting_id kept) ->
  ~ In (User.user_id current_user) (map UserSettings.user_id kept) ->
  UserSettings.user_id row = User.user_id current_user ->
  (forall other, other <> User.user_id current_user ->
                 find_settings kept other = find_settings table other) ->
  settled table current_user (kept ++ [row]) row.
Proof.
  intros Hpk Huk Hid Huid Hrow Hother. unfold settled, find_settings.
  split; [now apply (find_app_new UserSettings.user_id)|].
  split; [exact Hrow|]. split; [|split].
  - intros other Hne.
    rewrite (find_snoc_other UserSettings.user_id) by congruence.
    now apply Hother.
  - rewrite map_app. simpl. now apply NoDup_snoc.
  - rewrite map_app. simpl. apply NoDup_snoc; [exact Huk|]. now rewrite Hrow.
Qed.

Lemma fresh_setting_id (kept : list (UserSettings.t Json)) :
  (forall s, In s kept -> In s table) ->
  ~ In (fresh_id (map UserSettings.setting_id table))
       (map UserSettings.setting_id kept).
Proof.
  intros Hsub Hin. apply in_map_iff in Hin. destruct Hin as (s & Hs & Hin).
  apply (fresh_id_new (map UserSettings.setting_id table)).
  rewrite <- Hs. apply in_map. now apply Hsub.
Qed.

Lemma get_user_settings_settled :
  settled table current_user
          (fst (get_user_settings table current_user))
          (snd (get_user_settings table current_user)).
Proof.
  unfold get_user_settings.
  destruct (find_settings table (User.user_id current_user))
    as [settings|] eqn:Hfind; simpl.
  - destruct (find_key_some UserSettings.user_id _ _ _ Hfind) as [_ Hu].
    unfold settled. now repeat split.
  - apply inserted_settled; auto.
    + now apply fresh_setting_id.
    + now apply (find_key_none UserSettings.user_id).
Qed.

Lemma update_user_settings_settled (u : UserSettingsUpdate.t Json) :
  settled table current_user
          (fst (update_user_settings table current_user u))
          (snd (update_user_settings table current_user u)).
Proof.
  unfold update_user_settings.
  destruct (find_settings table (User.user_id current_user))
    as [settings|] eqn:Hfind; simpl.
  - destruct (find_key_some UserSettings.user_id _ _ _ Hfind) as [_ Hu].
    destruct (find_after_rewrite UserSettings.setting_id UserSettings.user_id
                (User.user_id current_user) settings (set_all settings u)
                table unique_ids Hfind Hu eq_refl)
      as (Hnew & Hother & Huk & Hpk).
    unfold settled, find_settings. rewrite Hpk, Huk.
    split; [exact Hnew|]. split; [exact Hu|]. now repeat split.
  - apply inserted_settled; auto.
    + now apply fresh_setting_id.
    + now apply (find_key_none UserSettings.user_id).
Qed.

Lemma reset_user_settings_settled :
  settled table current_user
          (fst (reset_user_settings table current_user))
          (snd (reset_user_settings table current_user)).
Proof.
  unfold reset_user_settings.
  destruct (find_settings table (User.user_id current_user))
    as [settings|] eqn:Hfind; simpl.
  - destruct (find_after_delete UserSettings.setting_id UserSettings.user_id
                (User.user_id current_user) settings table unique_ids
                one_row_each Hfind) as [Hgone Hother].
    apply inserted_settled; auto.
    + now apply NoDup_map_filter.
    + now apply NoDup_map_filter.
    + apply fresh_setting_id. intros s Hs. apply filter_In in Hs.
      exact (proj1 Hs).
  - apply inserted_settled; auto.
    + now apply fresh_setting_id.
    + now apply (find_key_none UserSettings.user_id).
Qed.
End SettingsTable.

(** X28. Settings are per user. With unique setting ids and at most one
    row per user, whatever one of the three settings endpoints returns to
    a principal is afterwards the principal's row, the row of every other
    user is found exactly as before, and ids and users are still unique in
    the table. *)
Theorem settings_stay_per_user {Json : Type}
    (table : list (UserSettings.t Json)) (current_user : User.t)
    (u : UserSettingsUpdate.t Json) :
  NoDup (map UserSettings.setting_id table) ->
  NoDup (map UserSettings.user_id table) ->
  forall table' row,
    get_user_settings table current_user = (table', row)
    \/ update_user_settings table current_user u = (table', row)
    \/ reset_user_settings table current_user = (table', row) ->
    find_settings table' (User.user_id current_user) = Some row
    /\ UserSettings.user_id row = User.user_id current_user
    /\ (forall other, other <> User.user_id current_user ->
                      find_settings table' other = find_settings table other)
    /\ NoDup (map UserSettings.setting_id table')
    /\ NoDup (map UserSettings.user_id table').
Proof.
  intros Hpk Huk table' row [H|[H|H]].
  - pose proof (get_user_settings_settled table current_user Hpk Huk) as S.
    rewrite H in S. exact S.
  - pose proof (update_user_settings_settled table current_user Hpk Huk u)
      as S.
    rewrite H in S. exact S.
  - pose proof (reset_user_settings_settled table current_user Hpk Huk) as S.
    rewrite H in S. exact S.
Qed.

(** X29. Settings are created on first use and then stable. A principal
    without a row gets the defaults from [get_user_settings]; after any of
    the three endpoints, [get_user_settings] returns the row that the
    endpoint returned and changes nothing; [reset_user_settings] always
    returns the defaults; [update_user_settings] stores every posted
    non-null value, on first use too, and on an existing row keeps the
    fields that are not posted. *)
Theorem settings_upsert_and_reset {Json : Type}
    (table : list (UserSettings.t Json)) (current_user : User.t)
    (u : UserSettingsUpdate.t Json) :
  NoDup (map UserSettings.setting_id table) ->
  NoDup (map UserSettings.user_id table) ->
  (find_settings table (User.user_id current_user) = None ->
   exists id,
     snd (get_user_settings table current_user)
     = default_settings id (User.user_id current_user))
  /\ (forall table' row,
        get_user_settings table current_user = (table', row)
        \/ update_user_settings table current_user u = (table', row)
        \/ reset_user_settings table current_user = (table', row) ->
        get_user_settings table' current_user = (table', row))
  /\ (exists id,
        snd (reset_user_settings table current_user)
        = default_settings id (User.user_id current_user))
  /\ (forall v, UserSettingsUpdate.theme u = Some (Some v) ->
                UserSettings.theme
                  (snd (update_user_settings table current_user u)) = Some v)
  /\ (forall v, UserSettingsUpdate.items_per_page u = Some (Some v) ->
                UserSettings.items_per_page
                  (snd (update_user_settings table current_user u)) = Some v)
  /\ (forall v, UserSettingsUpdate.dashboard_layout u = Some (Some v) ->
                UserSettings.dashboard_layout
                  (snd (update_user_settings table current_user u)) = Some v)
  /\ (forall settings,
        find_settings table (User.user_id current_user) = Some settings ->
        (UserSettingsUpdate.theme u = None ->
         UserSettings.theme (snd (update_user_settings table current_user u))
         = UserSettings.theme settings)
        /\ (UserSettingsUpdate.items_per_page u = None ->
            UserSettings.items_per_page
              (snd (update_user_settings table current_user u))
            = UserSettings.items_per_page settings)
        /\ UserSettings.setting_id
             (snd (update_user_settings table current_user u))
           = UserSettings.setting_id settings).
Proof.
  intros Hpk Huk.
  split; [|split; [|split; [|split; [|split; [|split]]]]].
  - intros Hnone. unfold get_user_settings. rewrite Hnone. simpl.
    eexists. reflexivity.
  - intros table' row H.
    assert (Hfound : find_settings table' (User.user_id current_user)
                     = Some row).
    { destruct H as [H|[H|H]].
      - pose proof (get_user_settings_settled table current_user Hpk Huk) as S.
        rewrite H in S. exact (proj1 S).
      - pose proof (update_user_settings_settled table current_user Hpk Huk
                      u) as S.
        rewrite H in S. exact (proj1 S).
      - pose proof (reset_user_settings_settled table current_user Hpk Huk)
          as S.
        rewrite H in S. exact (proj1 S). }
    unfold get_user_settings. now rewrite Hfound.
  - unfold reset_user_settings. simpl. eexists. reflexivity.
  - intros v Hv. unfold update_user_settings.
    destruct (find_settings table (User.user_id current_user)); simpl;
      now rewrite Hv.
  - intros v Hv. unfold update_user_settings.
    destruct (find_settings table (User.user_id current_user)); simpl;
      now rewrite Hv.
  - intros v Hv. unfold update_user_settings.
    destruct (find_settings table (User.user_id current_user)); simpl;
      now rewrite Hv.
  - intros settings Hfind. unfold update_user_settings. rewrite Hfind. simpl.
    split; [|split; [|reflexivity]]; intros ->; reflexivity.
Qed.

Lemma cabin_unique :
  NoDup (map UserSettings.setting_id Cabin.table)
  /\ NoDup (map UserSettings.user_id Cabin.table).
Proof. split; simpl; repeat constructor; simpl; tauto. Qed.

Lemma settings_stay_per_user_witness :
  exists table' row,
    update_user_settings Cabin.table Yard.tom Cabin.fifty_per_page
    = (table', row)
    /\ find_settings table' 4 = Some row
    /\ find_settings table' 3 = find_settings Cabin.table 3
    /\ UserSettings.items_per_page row = Some 50
    /\ UserSettings.theme row = Some light.
Proof.
  eexists _, _. split; [reflexivity|].
  destruct (settings_stay_per_user Cabin.table Yard.tom Cabin.fifty_per_page
              (proj1 cabin_unique) (proj2 cabin_unique) _ _
              (or_intror (or_introl eq_refl)))
    as (Hown & _ & Hother & _).
  split; [exact Hown|]. split; [apply Hother; discriminate|].
  split; reflexivity.
Defined.

Lemma settings_upsert_and_reset_witness :
  snd (get_user_settings Cabin.table Yard.tom) = default_settings 2 4
  /\ snd (reset_user_settings Cabin.table Yard.eve) = default_settings 2 3
  /\ UserSettings.items_per_page
       (snd (update_user_settings Cabin.table Yard.eve Cabin.fifty_per_page))
     = Some 50
  /\ UserSettings.theme
       (snd (update_user_settings Cabin.table Yard.eve Cabin.fifty_per_page))
     = Some dark
  /\ get_user_settings
       (fst (reset_user_settings Cabin.table Yard.eve)) Yard.eve
     = reset_user_settings Cabin.table Yard.eve.
Proof.
  destruct (settings_upsert_and_reset Cabin.table Yard.eve
              Cabin.fifty_per_page (proj1 cabin_unique) (proj2 cabin_unique))
    as (_ & Hstable & _ & _ & Hpage & _ & Hkept).
  split; [reflexivity|]. split; [reflexivity|].
  split; [now apply Hpage|]. split.
  - destruct (Hkept _ eq_refl) as (Htheme & _). now rewrite Htheme.
  - apply Hstable. right. right. reflexivity.
Defined.

(** ** The schema is kept by the project writes *)

Lemma in_add_assignments (pid : Z) (user_ids : list Z)
    (rows : list ProjectAssignment.t) (a : ProjectAssignment.t) :
  In a (add_assignments pid user_ids rows) ->
  In a rows \/ ProjectAssignment.project_id a = pid.
Proof.
  destruct (add_assignments_appends pid user_ids rows) as (news & E & _ & Hp).
  rewrite E. intros Hin. apply in_app_or in Hin.
  destruct Hin as [Hin|Hin]; [now left | right; now apply Hp].
Qed.

(** X30. The three endpoints that write projects and teams keep the
    schema: when project ids are unique and every assignment row refers to
    a stored project, the same holds after a committed [create_project],
    [update_project] or [delete_project], whoever calls it and whatever is
    posted. *)
Theorem project_writes_keep_schema (db db' : Db) (current_user : User.t) :
  unique_project_ids db ->
  assignments_reference_projects db ->
  (exists project r, create_project db current_user project = Ok (db', r))
  \/ (exists project_id u r,
        update_project db current_user project_id u = Ok (db', r))
  \/ (exists project_id,
        delete_project db current_user project_id = Ok (db', tt)) ->
  unique_project_ids db' /\ assignments_reference_projects db'.
Proof.
  unfold unique_project_ids, assignments_reference_projects, project_exists.
  intros Hnd Href [(project & r & H)|[(pid & u & r & H)|(pid & H)]].
  - unfold create_project in H.
    destruct (negb (role_in current_user ["admin"; "project_manager"]));
      [discriminate|].
    injection H as <- _. simpl. split.
    + rewrite map_app. simpl. apply NoDup_snoc; [exact Hnd|].
      apply fresh_id_new.
    + intros a Ha. rewrite map_app. apply in_or_app.
      destruct (ProjectCreate.assigned_user_ids project) as [user_ids|].
      * apply in_add_assignments in Ha. destruct Ha as [Ha|Ha].
        -- left. now apply Href.
        -- right. simpl. left. now rewrite Ha.
      * left. now apply Href.
  - unfold update_project in H.
    destruct (find_project db (Some pid)) as [project|] eqn:Hfind;
      [|discriminate].
    destruct (find_key_some Project.project_id _ _ _ Hfind) as [Hin Hpid].
    unfold apply_project_update, set_required in H.
    assert (Hkeys : forall project',
               Project.project_id project' = pid ->
               map Project.project_id
                   (replace_first (fun p => Project.project_id p =? pid)
                                  project' (projects db))
               = map Project.project_id (projects db)).
    { intros project' E. now apply (replace_first_keys Project.project_id). }
    assert (Hrows : forall a,
               In a (replace_team pid (ProjectUpdate.assigned_user_ids u)
                                  (project_assignments db)) ->
               In (ProjectAssignment.project_id a)
                  (map Project.project_id (projects db))).
    { intros a Ha. unfold replace_team in Ha.
      destruct (ProjectUpdate.assigned_user_ids u) as [user_ids|];
        [|now apply Href].
      apply in_add_assignments in Ha. destruct Ha as [Ha| ->].
      - apply filter_In in Ha. apply Href. exact (proj1 Ha).
      - rewrite <- Hpid. now apply in_map. }
    destruct (ProjectUpdate.project_name u) as [[n|]|]; simpl in H;
      try discriminate; injection H as <- _; simpl;
      rewrite Hkeys by exact Hpid; (split; [exact Hnd | exact Hrows]).
  - unfold delete_project in H.
    destruct (find_project db (Some pid)); [|discriminate].
    injection H as <-. simpl. split.
    + now apply NoDup_map_filter.
    + intros a Ha. apply filter_In in Ha. destruct Ha as [Ha Hne].
      apply negb_true_iff, Z.eqb_neq in Hne.
      specialize (Href a Ha). apply in_map_iff in Href.
      destruct Href as (p & Hp & Hstored). apply in_map_iff. exists p.
      split; [exact Hp|]. apply filter_In. split; [exact Hstored|].
      apply negb_true_iff, Z.eqb_neq. congruence.
Qed.

Lemma project_writes_keep_schema_witness :
  exists db',
    delete_project Yard.db Yard.alice 1 = Ok (db', tt)
    /\ unique_project_ids db' /\ assignments_reference_projects db'.
Proof.
  eexists. split; [reflexivity|].
  apply (project_writes_keep_schema Yard.db _ Yard.alice
           yard_unique_project_ids yard_assignments_reference_projects).
  right. right. exists 1. reflexivity.
Defined.
